(** * CANSLIM scorer and Weinstein stage classifier of OLC

    Shallow embedding of [CANSLIMService] (the fundamentals-aware version
    that takes Alpha Vantage and Finnhub arguments) and of
    [WeinsteinService] (the adaptive version with the "(Limited Data)" and
    "(Estimated)" labels).

    JavaScript numbers are modelled by [num]: exact rationals together with
    the IEEE special values [PInf], [NInf] and [NaN].  Rounding of double
    arithmetic is not modelled (values are exact), and the zero divisor is
    taken to be +0.  A [Bar] is kept in a heap and the scorer's bar array is
    a list of references into it, because the scorer writes repaired fields
    back into the caller's bar objects. *)

From Stdlib Require Import QArith Qabs Qround ZArith List String Ascii Bool Lia Lqa Sorted
  Permutation.
Import ListNotations.
Open Scope string_scope.

(** ** JavaScript numbers *)

Definition Qlt_bool (x y : Q) : bool := negb (Qle_bool y x).

Inductive num : Type :=
| Fin (q : Q)
| PInf
| NInf
| NaN.

Definition numZ (z : Z) : num := Fin (inject_Z z).

Definition isNaN (x : num) : bool :=
  match x with NaN => true | _ => false end.

(** [isNaN] applied to a field that may be [undefined]: [isNaN(undefined)]
    is [true]. *)
Definition isNaN_u (x : option num) : bool :=
  match x with None => true | Some y => isNaN y end.

(** Truthiness of a number: [0] and [NaN] are falsy. *)
Definition truthy (x : num) : bool :=
  match x with
  | NaN => false
  | Fin q => negb (Qeq_bool q 0)
  | _ => true
  end.

Definition truthy_u (x : option num) : bool :=
  match x with None => false | Some y => truthy y end.

Definition num_lt (a b : num) : bool :=
  match a, b with
  | NaN, _ | _, NaN => false
  | Fin x, Fin y => Qlt_bool x y
  | NInf, NInf => false
  | NInf, _ => true
  | PInf, _ => false
  | Fin _, PInf => true
  | Fin _, NInf => false
  end.

Definition num_le (a b : num) : bool :=
  match a, b with
  | NaN, _ | _, NaN => false
  | _, _ => negb (num_lt b a)
  end.

Definition num_gt (a b : num) : bool := num_lt b a.
Definition num_ge (a b : num) : bool := num_le b a.

(** Strict equality [===]. *)
Definition num_eqb (a b : num) : bool :=
  match a, b with
  | Fin x, Fin y => Qeq_bool x y
  | PInf, PInf | NInf, NInf => true
  | _, _ => false
  end.

Definition num_neg (a : num) : num :=
  match a with
  | Fin x => Fin (- x)
  | PInf => NInf
  | NInf => PInf
  | NaN => NaN
  end.

Definition num_add (a b : num) : num :=
  match a, b with
  | NaN, _ | _, NaN => NaN
  | Fin x, Fin y => Fin (x + y)
  | PInf, NInf | NInf, PInf => NaN
  | PInf, _ | _, PInf => PInf
  | NInf, _ | _, NInf => NInf
  end.

Definition num_sub (a b : num) : num := num_add a (num_neg b).

Definition inf_of (pos : bool) : num := if pos then PInf else NInf.

(** Sign of a non-NaN number: [Some true] positive, [Some false] negative,
    [None] zero. *)
Definition num_sign (a : num) : option bool :=
  match a with
  | Fin x => if Qeq_bool x 0 then None else Some (Qlt_bool 0 x)
  | PInf => Some true
  | NInf => Some false
  | NaN => None
  end.

Definition num_mul (a b : num) : num :=
  match a, b with
  | NaN, _ | _, NaN => NaN
  | Fin x, Fin y => Fin (x * y)
  | _, _ =>
      match num_sign a, num_sign b with
      | Some sa, Some sb => inf_of (Bool.eqb sa sb)
      | _, _ => NaN
      end
  end.

Definition num_div (a b : num) : num :=
  match a, b with
  | NaN, _ | _, NaN => NaN
  | Fin x, Fin y =>
      if Qeq_bool y 0 then
        match num_sign a with
        | None => NaN
        | Some sa => inf_of sa
        end
      else Fin (x / y)
  | Fin _, _ => Fin 0
  | _, Fin y =>
      match num_sign a with
      | Some sa => if Qeq_bool y 0 then inf_of sa
                   else inf_of (Bool.eqb sa (Qlt_bool 0 y))
      | None => NaN
      end
  | _, _ => NaN
  end.

Definition num_abs (a : num) : num :=
  match a with
  | Fin x => Fin (Qabs x)
  | NInf => PInf
  | _ => a
  end.

(** [Math.max] of its arguments: [NaN] if one is [NaN], [-Infinity] for no
    argument. *)
Definition num_max2 (a b : num) : num :=
  match a, b with
  | NaN, _ | _, NaN => NaN
  | _, _ => if num_lt a b then b else a
  end.

Definition math_max (l : list num) : num := fold_left num_max2 l NInf.

(** [Math.ceil]: [NaN] and the infinities are unchanged. *)
Definition math_ceil (x : num) : num :=
  match x with Fin q => Fin (inject_Z (Qceiling q)) | _ => x end.

(** [Math.round] on a finite value: round half up. *)
Definition js_round (q : Q) : Z := Qfloor (q + (1 # 2)).

(** ** Number formatting *)

Fixpoint digits_of_N (fuel : nat) (n : N) : string :=
  match fuel with
  | O => ""
  | S f =>
      let d := String (ascii_of_N (48 + N.modulo n 10)) "" in
      if N.ltb n 10 then d else digits_of_N f (N.div n 10) ++ d
  end.

(** Decimal rendering of a non-negative integer (template literals). *)
Definition string_of_N (n : N) : string :=
  digits_of_N (S (N.to_nat (N.log2 n))) n.

Definition string_of_nat (n : nat) : string := string_of_N (N.of_nat n).

Fixpoint zeros (k : nat) : string :=
  match k with O => "" | S k' => String "0"%char (zeros k') end.

(** Digits of a non-negative finite value with [d] decimals: the integer
    nearest to [y * 10^d], the larger one on a tie. *)
Definition fixed_digits (d : nat) (y : Q) : string :=
  let n := Z.to_N (Qfloor (y * inject_Z (10 ^ Z.of_nat d) + (1 # 2))) in
  let m := string_of_N n in
  match d with
  | O => m
  | S _ =>
      let m' := zeros (S d - String.length m) ++ m in
      let k := String.length m' in
      substring 0 (k - d) m' ++ "." ++ substring (k - d) d m'
  end.

(** [Number.prototype.toFixed]. *)
Definition toFixed (d : nat) (x : num) : string :=
  match x with
  | NaN => "NaN"
  | PInf => "Infinity"
  | NInf => "-Infinity"
  | Fin q => if Qlt_bool q 0 then "-" ++ fixed_digits d (- q)
             else fixed_digits d q
  end.

(** ** Data model *)

(** A timestamp string that is present and non-empty: either it parses to
    a time in milliseconds or [new Date(t).getTime()] is [NaN]. *)
Inductive ts : Type :=
| TsTime (ms : Z)
| TsInvalid.

Module Bar.
(** [interface Bar]; a missing or empty timestamp is [None]. *)
Record bar : Type := mkBar {
  o : num; h : num; l : num; c : num; v : num; t : option ts
}.
End Bar.

Definition loc := nat.

(** The caller's bar objects.  A location with no cell stands for a
    missing ([null] or [undefined]) array element. *)
Definition heap := list Bar.bar.

(** Thrown exceptions: a property read on [undefined] (an array read out
    of range) throws a [TypeError]. *)
Definition js (A : Type) : Type := option A.

Definition ret {A} (x : A) : js A := Some x.

Definition bind {A B} (m : js A) (k : A -> js B) : js B :=
  match m with Some x => k x | None => None end.

Notation "'let*' x := m 'in' k" := (bind m (fun x => k))
  (at level 200, x name, m at level 100, k at level 200).

(** [arr[i]] followed by a property read. *)
Definition at_ {A} (arr : list A) (i : nat) : js A := nth_error arr i.

(** [arr.slice(-k)] for [0 <= k <= arr.length]. *)
Definition lastn {A} (k : nat) (arr : list A) : list A :=
  skipn (List.length arr - k) arr.

Record FactorScore : Type := mkFactor {
  score : Z; maxScore : Z; description : string
}.

Module Scores.
Record scores : Type := mkScores {
  c : FactorScore; a : FactorScore; n : FactorScore; s : FactorScore;
  l : FactorScore; i : FactorScore; m : FactorScore
}.
End Scores.

Module Grade.
Inductive grade : Type := A | B | C | D | F.
End Grade.

Record CANSLIMScore : Type := mkCANSLIM {
  overallGrade : Grade.grade;
  scores : Scores.scores;
  totalScore : Z;
  maxTotalScore : Z
}.

(** *** Finnhub collaborator data ([finnhubService.ts]); an optional
    metric is [None] when the response omits it ([undefined]). *)

Module FinnhubMetric.
Record t : Type := mk {
  epsGrowthQuarterlyYoy : option num;
  epsGrowth3Y : option num;
  epsGrowth5Y : option num;
  epsGrowthTTMYoy : option num;
  x52WeekHigh : option num;               (** ['52WeekHigh'] *)
  x52WeekPriceReturnDaily : option num;   (** ['52WeekPriceReturnDaily'] *)
  priceRelativeToSP50052Week : option num;
  priceRelativeToSP5004Week : option num;
  priceRelativeToSP50013Week : option num
}.
End FinnhubMetric.

Module FinnhubBasicFinancials.
Record t : Type := mk { metric : option FinnhubMetric.t }.
End FinnhubBasicFinancials.

Module FinnhubCompanyProfile.
Record t : Type := mk { shareOutstanding : option num }.
End FinnhubCompanyProfile.

Module FinnhubEarnings.
Record earning : Type := mkEarning { actual : option num }.
Record t : Type := mk { earnings : option (list earning) }.
End FinnhubEarnings.

Module FinnhubFundamentals.
Record t : Type := mk {
  profile : option FinnhubCompanyProfile.t;
  financials : option FinnhubBasicFinancials.t;
  earnings : option FinnhubEarnings.t
}.
End FinnhubFundamentals.

(** *** Alpha Vantage collaborator data ([alphaVantageService.ts]).  The
    string fields the scorer reads through [parseFloat] are carried as the
    number [parseFloat] yields. *)

Module QuarterlyEarning.
Record t : Type := mk { fiscalDateEnding : string; reportedEPS : num }.
End QuarterlyEarning.

Module AnnualEarning.
Record t : Type := mk { fiscalDateEnding : string; reportedEPS : num }.
End AnnualEarning.

Module EarningsData.
Record t : Type := mk {
  quarterlyEarnings : option (list QuarterlyEarning.t);
  annualEarnings : option (list AnnualEarning.t)
}.
End EarningsData.

Module CompanyOverview.
(** [SharesOutstanding]: [None] when missing or the empty string (falsy),
    otherwise [parseFloat] of the string. *)
Record t : Type := mk { SharesOutstanding : option num }.
End CompanyOverview.

Module Fundamentals.
Record t : Type := mk {
  earnings : option EarningsData.t;
  overview : option CompanyOverview.t
}.
End Fundamentals.

(** ** Helpers over bars *)

(** [arr.reduce((sum, b) => sum + f(b), 0)] *)
Definition sumBy (f : Bar.bar -> num) (bars : list Bar.bar) : num :=
  fold_left (fun acc b => num_add acc (f b)) bars (Fin 0).

Definition count {A} (p : A -> bool) (xs : list A) : nat := List.length (filter p xs).

Definition numN (k : nat) : num := numZ (Z.of_nat k).

Definition isUp (b : Bar.bar) : bool := num_gt (Bar.c b) (Bar.o b).
Definition isDown (b : Bar.bar) : bool := num_lt (Bar.c b) (Bar.o b).

(** ** Ordering by timestamp (shared by both services) *)

(** The sort comparators of [calculateScore] and [analyzeStage]: the time
    difference when both timestamps parse, [0] otherwise. *)
Definition compareBarTimes (a b : Bar.bar) : Z :=
  match Bar.t a, Bar.t b with
  | Some (TsTime x), Some (TsTime y) => (x - y)%Z
  | _, _ => 0%Z
  end.

Fixpoint insertBar (x : Bar.bar) (sorted : list Bar.bar) : list Bar.bar :=
  match sorted with
  | [] => [x]
  | y :: ys => if (compareBarTimes x y <? 0)%Z then x :: y :: ys else y :: insertBar x ys
  end.

(** [[...bars].sort(compareBarTimes)] as a stable insertion sort.  For a
    consistent comparator every stable sort gives this result; with
    unparseable timestamps the comparator is inconsistent and the order of
    [Array.prototype.sort] is implementation-defined. *)
Definition sortBars (bars : list Bar.bar) : list Bar.bar :=
  fold_left (fun acc b => insertBar b acc) bars [].

Definition hasTimestamp (b : Bar.bar) : bool :=
  match Bar.t b with Some _ => true | None => false end.

(** [validBars.every(b => b.t) ? [...validBars].sort(...) : [...validBars]] *)
Definition orderBars (bars : list Bar.bar) : list Bar.bar :=
  if forallb hasTimestamp bars then sortBars bars else bars.

(** ** [CANSLIMService] *)

Module CANSLIMService.

Definition Q100 : num := numZ 100.

(** [((x - y) / d) * 100]. *)
Definition pct (x y d : num) : num := num_mul (num_div (num_sub x y) d) Q100.

Definition fs (sc mx : Z) (d : string) : FactorScore := mkFactor sc mx d.

(** [gradeEarningsGrowth] *)
Definition gradeEarningsGrowth (growth : num) (label : string) (maxScore : Z)
  : FactorScore :=
  let g := toFixed 1 growth in
  if num_ge growth (numZ 40) then
    fs maxScore maxScore ("Excellent " ++ label ++ ": +" ++ g ++ "%")
  else if num_ge growth (numZ 25) then
    fs (js_round (inject_Z maxScore * (9 # 10))) maxScore
       ("Strong " ++ label ++ ": +" ++ g ++ "%")
  else if num_ge growth (numZ 15) then
    fs (js_round (inject_Z maxScore * (7 # 10))) maxScore
       ("Good " ++ label ++ ": +" ++ g ++ "%")
  else if num_ge growth (numZ 5) then
    fs (js_round (inject_Z maxScore * (5 # 10))) maxScore
       ("Moderate " ++ label ++ ": +" ++ g ++ "%")
  else if num_ge growth (numZ 0) then
    fs (js_round (inject_Z maxScore * (3 # 10))) maxScore
       ("Weak " ++ label ++ ": +" ++ g ++ "%")
  else
    fs (js_round (inject_Z maxScore * (1 # 10))) maxScore
       ("Negative " ++ label ++ ": " ++ g ++ "%").

(** [scoreCurrentQuarterlyEarningsWithFinnhub] *)
Definition scoreCurrentQuarterlyEarningsWithFinnhub
  (financials : FinnhubBasicFinancials.t) (earnings : option FinnhubEarnings.t)
  : js FactorScore :=
  let* metric := FinnhubBasicFinancials.metric financials in
  let unavailable :=
    fs 0 15 "N/A - Quarterly EPS data unavailable" in
  let fromEarnings : js FactorScore :=
    match option_map FinnhubEarnings.earnings earnings with
    | Some (Some es) =>
        if (2 <=? List.length es)%nat then
          let* current := at_ es 0 in
          let* previous := at_ es 1 in
          match FinnhubEarnings.actual current, FinnhubEarnings.actual previous with
          | Some ca, Some pa =>
              if truthy ca && truthy pa && negb (num_eqb pa (Fin 0)) then
                let growth := num_mul (num_div (num_sub ca pa) (num_abs pa)) Q100 in
                ret (gradeEarningsGrowth growth "Quarterly EPS" 15)
              else ret unavailable
          | _, _ => ret unavailable
          end
        else ret unavailable
    | _ => ret unavailable
    end in
  match FinnhubMetric.epsGrowthQuarterlyYoy metric with
  | Some epsGrowthQtr =>
      if isNaN epsGrowthQtr then fromEarnings
      else ret (gradeEarningsGrowth epsGrowthQtr "Quarterly EPS YoY" 15)
  | None => fromEarnings
  end.

(** [scoreAnnualEarningsGrowthWithFinnhub]: 3-year, then 5-year, then TTM
    growth. *)
Definition scoreAnnualEarningsGrowthWithFinnhub
  (financials : FinnhubBasicFinancials.t) : js FactorScore :=
  let* metric := FinnhubBasicFinancials.metric financials in
  let pick (x : option num) (period : string) (k : option (num * string)) :=
    match x with
    | Some g => if isNaN g then k else Some (g, period)
    | None => k
    end in
  let chosen :=
    pick (FinnhubMetric.epsGrowth3Y metric) "3-Year EPS CAGR"
      (pick (FinnhubMetric.epsGrowth5Y metric) "5-Year EPS CAGR"
        (pick (FinnhubMetric.epsGrowthTTMYoy metric) "TTM EPS YoY" None)) in
  match chosen with
  | None => ret (fs 0 15 "N/A - Annual EPS growth data unavailable")
  | Some (growth, period) => ret (gradeEarningsGrowth growth period 15)
  end.

(** [scoreNewHighsWithFinnhub] *)
Definition scoreNewHighsWithFinnhub (currentPrice : num)
  (financials : FinnhubBasicFinancials.t) : js FactorScore :=
  let* metric := FinnhubBasicFinancials.metric financials in
  match FinnhubMetric.x52WeekHigh metric with
  | Some high52Week =>
      if negb (truthy high52Week) || num_eqb high52Week (Fin 0) then
        ret (fs 0 15 "N/A - 52-week high data unavailable")
      else
        let percentFromHigh := pct currentPrice high52Week high52Week in
        let p := toFixed 1 percentFromHigh in
        if num_ge percentFromHigh (numZ (-2)) then
          ret (fs 15 15 ("At/near 52-week high (" ++ p ++ "% from high)"))
        else if num_ge percentFromHigh (numZ (-5)) then
          ret (fs 12 15 ("Close to 52-week high (" ++ p ++ "% from high)"))
        else if num_ge percentFromHigh (numZ (-15)) then
          ret (fs 8 15 ("Moderate distance from high (" ++ p ++ "% from high)"))
        else if num_ge percentFromHigh (numZ (-25)) then
          ret (fs 5 15 ("Below 52-week high (" ++ p ++ "% from high)"))
        else
          ret (fs 2 15 ("Well below 52-week high (" ++ p ++ "% from high)"))
  | None => ret (fs 0 15 "N/A - 52-week high data unavailable")
  end.

(** [scoreSupplyAndDemandWithFinnhub]; [volume] and [bars] are not read. *)
Definition scoreSupplyAndDemandWithFinnhub (volume : num) (bars : list Bar.bar)
  (shareOutstanding : num) : js FactorScore :=
  let sharesInMillions := shareOutstanding in
  if negb (truthy sharesInMillions) || num_le sharesInMillions (Fin 0) then
    ret (fs 0 10 "N/A - Shares outstanding data unavailable")
  else
    let m1 := toFixed 1 sharesInMillions in
    let b2 := toFixed 2 (num_div sharesInMillions (numZ 1000)) in
    if num_lt sharesInMillions (numZ 25) then
      ret (fs 10 10 ("Excellent: " ++ m1 ++ "M shares (micro-cap float)"))
    else if num_lt sharesInMillions (numZ 100) then
      ret (fs 8 10 ("Good: " ++ m1 ++ "M shares (small float)"))
    else if num_lt sharesInMillions (numZ 500) then
      ret (fs 6 10 ("Moderate: " ++ m1 ++ "M shares"))
    else if num_lt sharesInMillions (numZ 2000) then
      ret (fs 4 10 ("Large: " ++ b2 ++ "B shares"))
    else
      ret (fs 2 10 ("Very large: " ++ b2 ++ "B shares (mega-cap)")).

(** [scoreLeaderOrLaggardWithFinnhub] *)
Definition scoreLeaderOrLaggardWithFinnhub
  (financials : FinnhubBasicFinancials.t) : js FactorScore :=
  let* metric := FinnhubBasicFinancials.metric financials in
  let byReturn :=
    match FinnhubMetric.x52WeekPriceReturnDaily metric with
    | Some r =>
        if isNaN r then ret (fs 0 10 "N/A - Relative strength data unavailable")
        else
          let p := toFixed 1 r in
          if num_ge r (numZ 50) then ret (fs 10 10 ("Strong: +" ++ p ++ "% (52W return)"))
          else if num_ge r (numZ 25) then ret (fs 8 10 ("Good: +" ++ p ++ "% (52W return)"))
          else if num_ge r (numZ 0) then ret (fs 6 10 ("Positive: +" ++ p ++ "% (52W return)"))
          else if num_ge r (numZ (-20)) then ret (fs 4 10 ("Weak: " ++ p ++ "% (52W return)"))
          else ret (fs 2 10 ("Poor: " ++ p ++ "% (52W return)"))
    | None => ret (fs 0 10 "N/A - Relative strength data unavailable")
    end in
  match FinnhubMetric.priceRelativeToSP50052Week metric with
  | Some rs =>
      if isNaN rs then byReturn
      else
        let p := toFixed 1 rs in
        if num_ge rs (numZ 30) then
          ret (fs 10 10 ("Market leader: +" ++ p ++ "% vs S&P 500 (52W)"))
        else if num_ge rs (numZ 15) then
          ret (fs 8 10 ("Strong performer: +" ++ p ++ "% vs S&P 500 (52W)"))
        else if num_ge rs (numZ 0) then
          ret (fs 6 10 ("Outperforming: +" ++ p ++ "% vs S&P 500 (52W)"))
        else if num_ge rs (numZ (-15)) then
          ret (fs 4 10 ("Underperforming: " ++ p ++ "% vs S&P 500 (52W)"))
        else
          ret (fs 2 10 ("Laggard: " ++ p ++ "% vs S&P 500 (52W)"))
  | None => byReturn
  end.

(** [scoreMarketDirectionWithFinnhub] *)
Definition scoreMarketDirectionWithFinnhub
  (financials : FinnhubBasicFinancials.t) : js FactorScore :=
  let* metric := FinnhubBasicFinancials.metric financials in
  let stockReturn := FinnhubMetric.x52WeekPriceReturnDaily metric in
  let byReturn :=
    match stockReturn with
    | Some r =>
        if isNaN r then ret (fs 0 10 "N/A - Market direction data unavailable")
        else
          let p := toFixed 1 r in
          if num_gt r (numZ 20) then ret (fs 10 10 ("Strong momentum: +" ++ p ++ "% (52W)"))
          else if num_gt r (numZ 0) then ret (fs 7 10 ("Positive trend: +" ++ p ++ "% (52W)"))
          else if num_gt r (numZ (-10)) then ret (fs 4 10 ("Weak trend: " ++ p ++ "% (52W)"))
          else ret (fs 2 10 ("Downtrend: " ++ p ++ "% (52W)"))
    | None => ret (fs 0 10 "N/A - Market direction data unavailable")
    end in
  match FinnhubMetric.priceRelativeToSP5004Week metric,
        FinnhubMetric.priceRelativeToSP50013Week metric with
  | Some rel4W, Some rel13W =>
      let avgRel := num_div (num_add rel4W rel13W) (numZ 2) in
      let p := toFixed 1 avgRel in
      let positiveReturn :=
        match stockReturn with Some r => num_gt r (Fin 0) | None => false end in
      if num_ge avgRel (numZ 10) && positiveReturn then
        ret (fs 10 10 ("Favorable: Stock +" ++ p ++ "% vs market (avg 4W/13W)"))
      else if num_ge avgRel (numZ 0) then
        ret (fs 8 10 ("Positive: Stock +" ++ p ++ "% vs market (avg 4W/13W)"))
      else if num_ge avgRel (numZ (-10)) then
        ret (fs 5 10 ("Neutral: Stock " ++ p ++ "% vs market (avg 4W/13W)"))
      else
        ret (fs 3 10 ("Unfavorable: Stock " ++ p ++ "% vs market (avg 4W/13W)"))
  | _, _ => byReturn
  end.

(** Tiers of [scoreCurrentQuarterlyEarningsWithData] and
    [scoreAnnualEarningsGrowthWithData]. *)
Definition gradeEPSGrowth (growthPercent : num) (what date : string) : FactorScore :=
  let g := toFixed 1 growthPercent in
  let d := " EPS growth: " ++ g ++ "% (" ++ date ++ ")" in
  if num_ge growthPercent (numZ 25) then fs 15 15 ("Strong " ++ what ++ d)
  else if num_ge growthPercent (numZ 15) then fs 12 15 ("Good " ++ what ++ d)
  else if num_ge growthPercent (numZ 5) then fs 8 15 ("Moderate " ++ what ++ d)
  else if num_ge growthPercent (numZ 0) then fs 5 15 ("Weak " ++ what ++ d)
  else fs 2 15 ("Negative " ++ what ++ d).

(** [scoreCurrentQuarterlyEarningsWithData] *)
Definition scoreCurrentQuarterlyEarningsWithData (earnings : EarningsData.t)
  : js FactorScore :=
  match EarningsData.quarterlyEarnings earnings with
  | Some qs =>
      if (List.length qs <? 2)%nat then
        ret (fs 0 15 "Insufficient quarterly earnings data")
      else
        let quarters := firstn 2 qs in
        let* currentQuarter := at_ quarters 0 in
        let* previousQuarter := at_ quarters 1 in
        let currentEPS := QuarterlyEarning.reportedEPS currentQuarter in
        let previousEPS := QuarterlyEarning.reportedEPS previousQuarter in
        if isNaN currentEPS || isNaN previousEPS || num_eqb previousEPS (Fin 0) then
          ret (fs 0 15 "Invalid earnings data")
        else
          let growthPercent :=
            num_mul (num_div (num_sub currentEPS previousEPS) (num_abs previousEPS)) Q100 in
          ret (gradeEPSGrowth growthPercent "quarterly"
                 (QuarterlyEarning.fiscalDateEnding currentQuarter))
  | None => ret (fs 0 15 "Insufficient quarterly earnings data")
  end.

(** [scoreAnnualEarningsGrowthWithData] *)
Definition scoreAnnualEarningsGrowthWithData (earnings : EarningsData.t)
  : js FactorScore :=
  match EarningsData.annualEarnings earnings with
  | Some ys =>
      if (List.length ys <? 2)%nat then
        ret (fs 0 15 "Insufficient annual earnings data (need at least 2 years)")
      else
        let years := firstn 2 ys in
        let* currentYear := at_ years 0 in
        let* previousYear := at_ years 1 in
        let currentEPS := AnnualEarning.reportedEPS currentYear in
        let previousEPS := AnnualEarning.reportedEPS previousYear in
        if isNaN currentEPS || isNaN previousEPS || num_eqb previousEPS (Fin 0) then
          ret (fs 0 15 "Invalid annual earnings data")
        else
          let growthPercent :=
            num_mul (num_div (num_sub currentEPS previousEPS) (num_abs previousEPS)) Q100 in
          ret (gradeEPSGrowth growthPercent "annual"
                 (AnnualEarning.fiscalDateEnding currentYear))
  | None => ret (fs 0 15 "Insufficient annual earnings data (need at least 2 years)")
  end.

(** [scoreNewHighs] *)
Definition scoreNewHighs (currentPrice : num) (bars : list Bar.bar) : js FactorScore :=
  if (List.length bars <? 1)%nat then ret (fs 0 15 "Insufficient data")
  else
    let validBars :=
      filter (fun b => negb (isNaN (Bar.h b)) && num_gt (Bar.h b) (Fin 0)) bars in
    if (List.length validBars <? 1)%nat then ret (fs 0 15 "Invalid high price data")
    else if (List.length validBars =? 1)%nat then
      let* bar := at_ validBars 0 in
      let percentFromHigh := pct currentPrice (Bar.h bar) (Bar.h bar) in
      if num_ge percentFromHigh (numZ (-5)) then
        ret (fs 12 15 "Trading near high (limited data)")
      else
        ret (fs 6 15 ("Currently " ++ toFixed 1 (num_abs percentFromHigh) ++ "% below high"))
    else
      let recentHighs :=
        map Bar.h (lastn (Nat.min 60 (List.length validBars)) validBars) in
      let allTimeHigh := math_max (map Bar.h validBars) in
      let recentHigh := math_max recentHighs in
      let percentFromHigh := pct currentPrice allTimeHigh allTimeHigh in
      let isNearHigh := num_ge percentFromHigh (numZ (-5)) in
      if isNearHigh && num_ge currentPrice (num_mul recentHigh (Fin (95 # 100))) then
        ret (fs 15 15 "Trading near new highs")
      else if isNearHigh then ret (fs 12 15 "Approaching new highs")
      else if num_ge percentFromHigh (numZ (-15)) then
        ret (fs 8 15 "Moderate distance from highs")
      else ret (fs 4 15 "Well below highs").

(** [scoreSupplyAndDemand]: volume-pattern proxy. *)
Definition scoreSupplyAndDemand (volume : num) (bars : list Bar.bar) : js FactorScore :=
  if (List.length bars <? 1)%nat then ret (fs 0 10 "Insufficient data")
  else
    let recentBars :=
      filter (fun b => negb (isNaN (Bar.v b)) && num_ge (Bar.v b) (Fin 0))
        (lastn (Nat.min 20 (List.length bars)) bars) in
    if (List.length recentBars =? 0)%nat then ret (fs 5 10 "No volume data available")
    else
      let avgVolume := num_div (sumBy Bar.v recentBars) (numN (List.length recentBars)) in
      if num_eqb avgVolume (Fin 0) then ret (fs 0 10 "Zero average volume")
      else
        let volumeRatio := num_div volume avgVolume in
        let upDays := filter isUp recentBars in
        let avgUpVolume :=
          if (0 <? List.length upDays)%nat
          then num_div (sumBy Bar.v upDays) (numN (List.length upDays))
          else Fin 0 in
        if num_ge volumeRatio (Fin (3 # 2))
           && num_gt avgUpVolume (num_mul avgVolume (Fin (6 # 5))) then
          ret (fs 10 10 "Strong demand, high volume on advances")
        else if num_ge volumeRatio (Fin (6 # 5)) then ret (fs 8 10 "Good volume activity")
        else if num_ge volumeRatio (Fin (4 # 5)) then ret (fs 6 10 "Average volume")
        else ret (fs 3 10 "Low volume, weak demand").

(** [scoreSupplyAndDemandWithData]: shares outstanding from the Alpha
    Vantage overview. *)
Definition scoreSupplyAndDemandWithData (volume : num) (bars : list Bar.bar)
  (shares : num) : js FactorScore :=
  if isNaN shares || num_le shares (Fin 0) then scoreSupplyAndDemand volume bars
  else
    let sharesInMillions := num_div shares (numZ 1000000) in
    let m1 := toFixed 1 sharesInMillions in
    let '(score0, description0) :=
      if num_lt sharesInMillions (numZ 50) then
        (10%Z, "Excellent: " ++ m1 ++ "M shares outstanding (low float)")
      else if num_lt sharesInMillions (numZ 200) then
        (8%Z, "Good: " ++ m1 ++ "M shares outstanding")
      else if num_lt sharesInMillions (numZ 500) then
        (6%Z, "Moderate: " ++ m1 ++ "M shares outstanding")
      else (3%Z, "High float: " ++ m1 ++ "M shares outstanding") in
    if (2 <=? List.length bars)%nat then
      let recentBars := lastn (Nat.min 20 (List.length bars)) bars in
      let avgVolume := num_div (sumBy Bar.v recentBars) (numN (List.length recentBars)) in
      let volumeRatio := num_div volume avgVolume in
      if num_ge volumeRatio (Fin (3 # 2)) then
        ret (fs (Z.min 10 (score0 + 1)) 10 (description0 ++ ", strong volume activity"))
      else ret (fs score0 10 description0)
    else ret (fs score0 10 description0).

(** [scoreLeaderOrLaggard]: recent half against earlier half. *)
Definition scoreLeaderOrLaggard (bars : list Bar.bar) : js FactorScore :=
  let len := List.length bars in
  if (len <? 2)%nat then
    if (len =? 1)%nat
    then ret (fs 5 10 "Insufficient data for relative performance (single day)")
    else ret (fs 0 10 "Insufficient data")
  else
    let halfLength := Nat.max 1 (Nat.div len 2) in
    let recentBars := lastn halfLength bars in
    let earlierBars := firstn (len - halfLength) bars in
    let invalid := fs 0 10 "Invalid recent price data" in
    if (List.length recentBars <? 2)%nat then ret invalid
    else
      let* r0 := at_ recentBars 0 in
      if negb (truthy (Bar.c r0)) || num_eqb (Bar.c r0) (Fin 0) then ret invalid
      else
        let* rlast := at_ recentBars (List.length recentBars - 1) in
        let recentReturn := pct (Bar.c rlast) (Bar.c r0) (Bar.c r0) in
        let* earlierReturn :=
          if (2 <=? List.length earlierBars)%nat then
            let* e0 := at_ earlierBars 0 in
            if num_gt (Bar.c e0) (Fin 0) then
              let* elast := at_ earlierBars (List.length earlierBars - 1) in
              ret (pct (Bar.c elast) (Bar.c e0) (Bar.c e0))
            else ret (Fin 0)
          else ret (Fin 0) in
        if num_gt recentReturn (numZ 10) && num_gt recentReturn earlierReturn then
          ret (fs 10 10 "Market leader - strong outperformance")
        else if num_gt recentReturn (numZ 5) then ret (fs 8 10 "Good relative performance")
        else if num_gt recentReturn (numZ 0) then ret (fs 6 10 "Moderate performance")
        else ret (fs 3 10 "Laggard - underperforming").

(** [scoreMarketDirection]: trailing trend and up/down-day balance. *)
Definition scoreMarketDirection (bars : list Bar.bar) : js FactorScore :=
  let len := List.length bars in
  if (len <? 2)%nat then
    if (len =? 1)%nat then
      let* bar := at_ bars 0 in
      let up := isUp bar in
      ret (fs (if up then 6 else 4) 10
             ("Single day: " ++ (if up then "up" else "down") ++ " day (limited data)"))
    else ret (fs 0 10 "Insufficient data")
  else
    let recentBars :=
      filter (fun b => negb (isNaN (Bar.c b)) && num_gt (Bar.c b) (Fin 0))
        (lastn (Nat.min 20 len) bars) in
    if (List.length recentBars <? 2)%nat then ret (fs 0 10 "Invalid price data")
    else
      let* first := at_ recentBars 0 in
      let* last := at_ recentBars (List.length recentBars - 1) in
      let startPrice := Bar.c first in
      let endPrice := Bar.c last in
      if negb (truthy startPrice) || num_eqb startPrice (Fin 0) then
        ret (fs 0 10 "Invalid start price")
      else
        let trend := pct endPrice startPrice startPrice in
        let upDays := count isUp recentBars in
        let downDays := count isDown recentBars in
        if num_gt trend (numZ 5) && num_gt (numN upDays) (num_mul (numN downDays) (Fin (3 # 2))) then
          ret (fs 10 10 "Strong uptrend")
        else if num_gt trend (numZ 2) && (downDays <? upDays)%nat then
          ret (fs 8 10 "Moderate uptrend")
        else if num_gt trend (numZ 0) then ret (fs 6 10 "Slight uptrend")
        else if num_gt trend (numZ (-5)) then ret (fs 4 10 "Sideways/weak trend")
        else ret (fs 2 10 "Downtrend").

(** [scoreCurrentQuarterlyEarnings]: price-momentum proxy over the
    trailing 60 bars. *)
Definition scoreCurrentQuarterlyEarnings (bars : list Bar.bar) : js FactorScore :=
  let recentBars := lastn (Nat.min 60 (List.length bars)) bars in
  if (List.length recentBars <? 1)%nat then
    ret (fs 0 15 "Insufficient data for quarterly analysis")
  else if (List.length recentBars =? 1)%nat then
    let* bar := at_ recentBars 0 in
    let priceChange :=
      if num_gt (Bar.c bar) (Bar.o bar) then pct (Bar.c bar) (Bar.o bar) (Bar.o bar)
      else Fin 0 in
    ret (fs (if num_gt priceChange (Fin 0) then 5 else 2) 15
           ("Single day data: " ++ (if num_gt priceChange (Fin 0) then "positive" else "negative")
            ++ " price movement"))
  else
    let* first := at_ recentBars 0 in
    let* last := at_ recentBars (List.length recentBars - 1) in
    let startPrice := Bar.c first in
    let endPrice := Bar.c last in
    if negb (truthy startPrice) || num_eqb startPrice (Fin 0) then
      ret (fs 0 15 "Invalid price data")
    else
      let changePercent := pct endPrice startPrice startPrice in
      let n := List.length recentBars in
      let period :=
        if (60 <=? n)%nat then "quarterly"
        else if (20 <=? n)%nat then string_of_nat (Nat.div n 5) ++ "-week"
        else string_of_nat n ++ "-day" in
      let p := toFixed 1 changePercent in
      if num_ge changePercent (numZ 25) then
        ret (fs 15 15 ("Strong " ++ period ++ " momentum: +" ++ p ++ "%"))
      else if num_ge changePercent (numZ 15) then
        ret (fs 12 15 ("Good " ++ period ++ " momentum: +" ++ p ++ "%"))
      else if num_ge changePercent (numZ 5) then
        ret (fs 8 15 ("Moderate " ++ period ++ " momentum: +" ++ p ++ "%"))
      else if num_ge changePercent (numZ 0) then
        ret (fs 5 15 ("Weak " ++ period ++ " momentum: +" ++ p ++ "%"))
      else ret (fs 2 15 ("Negative " ++ period ++ " momentum: " ++ p ++ "%")).

(** [scoreAnnualEarningsGrowth]: price change over the trailing 252 bars. *)
Definition scoreAnnualEarningsGrowth (bars : list Bar.bar) : js FactorScore :=
  let annualBars := lastn (Nat.min 252 (List.length bars)) bars in
  if (List.length annualBars <? 2)%nat then
    if (List.length annualBars =? 1)%nat then
      ret (fs 5 15 "Insufficient data for annual analysis (single day)")
    else ret (fs 0 15 "Insufficient data for annual analysis")
  else
    let* first := at_ annualBars 0 in
    let* last := at_ annualBars (List.length annualBars - 1) in
    let startPrice := Bar.c first in
    let endPrice := Bar.c last in
    let changePercent := pct endPrice startPrice startPrice in
    let n := List.length annualBars in
    let period := if (200 <=? n)%nat then "annual" else string_of_nat n ++ "-day" in
    let p := toFixed 1 changePercent in
    if num_ge changePercent (numZ 25) then
      ret (fs 15 15 ("Strong " ++ period ++ " growth: +" ++ p ++ "%"))
    else if num_ge changePercent (numZ 15) then
      ret (fs 12 15 ("Good " ++ period ++ " growth: +" ++ p ++ "%"))
    else if num_ge changePercent (numZ 5) then
      ret (fs 8 15 ("Moderate " ++ period ++ " growth: +" ++ p ++ "%"))
    else if num_ge changePercent (numZ 0) then
      ret (fs 5 15 ("Weak " ++ period ++ " growth: +" ++ p ++ "%"))
    else ret (fs 2 15 ("Negative " ++ period ++ " growth: " ++ p ++ "%")).

(** [scoreInstitutionalSponsorship]: high-volume days in the trailing 20
    bars, thresholds scaled by the window. *)
Definition scoreInstitutionalSponsorship (volume : num) (bars : list Bar.bar)
  : js FactorScore :=
  if (List.length bars <? 1)%nat then ret (fs 0 10 "Insufficient data")
  else
    let recentBars :=
      filter (fun b => negb (isNaN (Bar.v b)) && num_ge (Bar.v b) (Fin 0))
        (lastn (Nat.min 20 (List.length bars)) bars) in
    if (List.length recentBars =? 0)%nat then ret (fs 0 10 "No valid volume data")
    else
      let avgVolume := num_div (sumBy Bar.v recentBars) (numN (List.length recentBars)) in
      if num_eqb avgVolume (Fin 0) then ret (fs 0 10 "Zero average volume")
      else
        let highVolumeDays :=
          numN (List.length
                  (filter (fun b => num_gt (Bar.v b) (num_mul avgVolume (Fin (3 # 2))))
                     recentBars)) in
        let scaleFactor := num_div (numN (List.length recentBars)) (numZ 20) in
        if num_ge highVolumeDays (math_ceil (num_mul (numZ 8) scaleFactor))
           && num_gt volume avgVolume then
          ret (fs 10 10 "Strong institutional interest")
        else if num_ge highVolumeDays (math_ceil (num_mul (numZ 5) scaleFactor)) then
          ret (fs 8 10 "Moderate institutional activity")
        else if num_ge highVolumeDays (math_ceil (num_mul (numZ 3) scaleFactor)) then
          ret (fs 6 10 "Some institutional interest")
        else ret (fs 3 10 "Limited institutional sponsorship").

(** [getDefaultScore] *)
Definition getDefaultScore (reason : string) : CANSLIMScore :=
  let defaultScore := fs 0 15 reason in
  {| overallGrade := Grade.F;
     scores := {| Scores.c := defaultScore; Scores.a := defaultScore;
                  Scores.n := defaultScore;
                  Scores.s := fs 0 10 reason; Scores.l := fs 0 10 reason;
                  Scores.i := fs 0 10 reason; Scores.m := fs 0 10 reason |};
     totalScore := 0; maxTotalScore := 85 |}.

(** *** Bar validation with in-place repair *)

(** The fields the validation filter of [calculateScore] writes back into
    a kept bar. *)
Definition repairBar (bar : Bar.bar) : Bar.bar :=
  let c := Bar.c bar in
  {| Bar.o := if isNaN (Bar.o bar) then c else Bar.o bar;
     Bar.h := if isNaN (Bar.h bar) then c else Bar.h bar;
     Bar.l := if isNaN (Bar.l bar) then c else Bar.l bar;
     Bar.c := c;
     Bar.v := if isNaN (Bar.v bar) || num_lt (Bar.v bar) (Fin 0)
              then Fin 0 else Bar.v bar;
     Bar.t := Bar.t bar |}.

Fixpoint heap_set (hp : heap) (x : loc) (b : Bar.bar) : heap :=
  match hp, x with
  | [], _ => []
  | _ :: rest, O => b :: rest
  | y :: rest, S x' => y :: heap_set rest x' b
  end.

(** [historicalBars.filter(bar => ...)]: the callback repairs each kept bar
    object in the heap. *)
Fixpoint filterValid (hp : heap) (bars : list loc) : heap * list loc :=
  match bars with
  | [] => (hp, [])
  | x :: rest =>
      match nth_error hp x with
      | None => filterValid hp rest
      | Some bar =>
          if isNaN (Bar.c bar) || num_le (Bar.c bar) (Fin 0) then filterValid hp rest
          else
            let '(hp', kept) := filterValid (heap_set hp x (repairBar bar)) rest in
            (hp', x :: kept)
      end
  end.

Definition deref (hp : heap) (bars : list loc) : list Bar.bar :=
  flat_map (fun x => match nth_error hp x with Some b => [b] | None => [] end) bars.


(** [finnhub?.financials?.metric]: the financials when the metric object is
    present. *)
Definition finnhubFinancials (finnhub : option FinnhubFundamentals.t)
  : option FinnhubBasicFinancials.t :=
  match option_map FinnhubFundamentals.financials finnhub with
  | Some (Some fin) =>
      match FinnhubBasicFinancials.metric fin with Some _ => Some fin | None => None end
  | _ => None
  end.

(** [finnhub?.profile?.shareOutstanding] when truthy. *)
Definition finnhubShares (finnhub : option FinnhubFundamentals.t) : option num :=
  match option_map FinnhubFundamentals.profile finnhub with
  | Some (Some p) =>
      match FinnhubCompanyProfile.shareOutstanding p with
      | Some so => if truthy so then Some so else None
      | None => None
      end
  | _ => None
  end.

(** [fundamentals?.earnings] *)
Definition avEarnings (fundamentals : option Fundamentals.t) : option EarningsData.t :=
  match fundamentals with Some f => Fundamentals.earnings f | None => None end.

(** [fundamentals?.overview?.SharesOutstanding] when truthy. *)
Definition avShares (fundamentals : option Fundamentals.t) : option num :=
  match option_map Fundamentals.overview fundamentals with
  | Some (Some ov) => CompanyOverview.SharesOutstanding ov
  | _ => None
  end.

(** [Object.values(scores)] *)
Definition values (sc : Scores.scores) : list FactorScore :=
  [Scores.c sc; Scores.a sc; Scores.n sc; Scores.s sc;
   Scores.l sc; Scores.i sc; Scores.m sc].

Definition gradeOf (percentage : num) : Grade.grade :=
  if num_ge percentage (numZ 85) then Grade.A
  else if num_ge percentage (numZ 70) then Grade.B
  else if num_ge percentage (numZ 55) then Grade.C
  else if num_ge percentage (numZ 40) then Grade.D
  else Grade.F.

(** [computeScores]: the [scores] object of [calculateScore], from the
    ordered bars. *)
Definition computeScores (currentPrice : num) (sortedBars : list Bar.bar)
  (volume : num) (fundamentals : option Fundamentals.t)
  (finnhub : option FinnhubFundamentals.t) : js Scores.scores :=
  let noEarnings := fs 0 15 "N/A - No earnings data (configure Finnhub API)" in
  let* c :=
    match finnhubFinancials finnhub with
    | Some fin =>
        scoreCurrentQuarterlyEarningsWithFinnhub fin
          (match finnhub with Some f => FinnhubFundamentals.earnings f | None => None end)
    | None =>
        match avEarnings fundamentals with
        | Some e => scoreCurrentQuarterlyEarningsWithData e
        | None => ret noEarnings
        end
    end in
  let* a :=
    match finnhubFinancials finnhub with
    | Some fin => scoreAnnualEarningsGrowthWithFinnhub fin
    | None =>
        match avEarnings fundamentals with
        | Some e => scoreAnnualEarningsGrowthWithData e
        | None => ret noEarnings
        end
    end in
  let* n :=
    match finnhubFinancials finnhub with
    | Some fin => scoreNewHighsWithFinnhub currentPrice fin
    | None => scoreNewHighs currentPrice sortedBars
    end in
  let* s :=
    match finnhubShares finnhub with
    | Some so => scoreSupplyAndDemandWithFinnhub volume sortedBars so
    | None =>
        match avShares fundamentals with
        | Some so => scoreSupplyAndDemandWithData volume sortedBars so
        | None => ret (fs 0 10 "N/A - No shares data (configure Finnhub API)")
        end
    end in
  let* l :=
    match finnhubFinancials finnhub with
    | Some fin => scoreLeaderOrLaggardWithFinnhub fin
    | None => scoreLeaderOrLaggard sortedBars
    end in
  let i := fs 0 10 "N/A - Institutional data requires premium API" in
  let* m :=
    match finnhubFinancials finnhub with
    | Some fin => scoreMarketDirectionWithFinnhub fin
    | None => scoreMarketDirection sortedBars
    end in
  ret {| Scores.c := c; Scores.a := a; Scores.n := n; Scores.s := s;
         Scores.l := l; Scores.i := i; Scores.m := m |}.

(** [calculateScore]: the result, or [None] when it throws, together with
    the caller's bar objects after the call. *)
Definition calculateScore (currentPrice : num) (historicalBars : list loc)
  (volume : num) (fundamentals : option Fundamentals.t)
  (finnhub : option FinnhubFundamentals.t) (hp : heap) : js CANSLIMScore * heap :=
  match historicalBars with
  | [] => (ret (getDefaultScore "No historical data available"), hp)
  | _ =>
      let '(hp', kept) := filterValid hp historicalBars in
      let validBars := deref hp' kept in
      match validBars with
      | [] => (ret (getDefaultScore "No valid price data available"), hp')
      | _ =>
          let sortedBars := orderBars validBars in
          (let* sc := computeScores currentPrice sortedBars volume fundamentals finnhub in
           let totalScore := fold_left (fun sum f => sum + score f) (values sc) 0 in
           let maxTotalScore := fold_left (fun sum f => sum + maxScore f) (values sc) 0 in
           let percentage := num_mul (num_div (numZ totalScore) (numZ maxTotalScore)) Q100 in
           ret {| overallGrade := gradeOf percentage; scores := sc;
                  totalScore := totalScore; maxTotalScore := maxTotalScore |},
           hp')
      end
  end%Z.

End CANSLIMService.

(** ** The Alpha Vantage-only [CANSLIMService] (part_009): the same bar
    validation, ordering, grading and scoring methods as above, with
    price-momentum proxies for C and A when there are no earnings and the
    volume proxy for I. *)

Module CANSLIMServiceAV.
Import CANSLIMService.

(** The [scores] object of [calculateScore], from the ordered bars. *)
Definition computeScores (currentPrice : num) (sortedBars : list Bar.bar)
  (volume : num) (fundamentals : option Fundamentals.t) : js Scores.scores :=
  let* c :=
    match avEarnings fundamentals with
    | Some e => scoreCurrentQuarterlyEarningsWithData e
    | None => scoreCurrentQuarterlyEarnings sortedBars
    end in
  let* a :=
    match avEarnings fundamentals with
    | Some e => scoreAnnualEarningsGrowthWithData e
    | None => scoreAnnualEarningsGrowth sortedBars
    end in
  let* n := scoreNewHighs currentPrice sortedBars in
  let* s :=
    match avShares fundamentals with
    | Some so => scoreSupplyAndDemandWithData volume sortedBars so
    | None => scoreSupplyAndDemand volume sortedBars
    end in
  let* l := scoreLeaderOrLaggard sortedBars in
  let* i := scoreInstitutionalSponsorship volume sortedBars in
  let* m := scoreMarketDirection sortedBars in
  ret {| Scores.c := c; Scores.a := a; Scores.n := n; Scores.s := s;
         Scores.l := l; Scores.i := i; Scores.m := m |}.

(** [calculateScore]: the result, or [None] when it throws, together with
    the caller's bar objects after the call. *)
Definition calculateScore (currentPrice : num) (historicalBars : list loc)
  (volume : num) (fundamentals : option Fundamentals.t) (hp : heap)
  : js CANSLIMScore * heap :=
  match historicalBars with
  | [] => (ret (getDefaultScore "No historical data available"), hp)
  | _ =>
      let '(hp', kept) := filterValid hp historicalBars in
      let validBars := deref hp' kept in
      match validBars with
      | [] => (ret (getDefaultScore "No valid price data available"), hp')
      | _ =>
          let sortedBars := orderBars validBars in
          (let* sc := computeScores currentPrice sortedBars volume fundamentals in
           let totalScore := fold_left (fun sum f => sum + score f) (values sc) 0 in
           let maxTotalScore := fold_left (fun sum f => sum + maxScore f) (values sc) 0 in
           let percentage := num_mul (num_div (numZ totalScore) (numZ maxTotalScore)) Q100 in
           ret {| overallGrade := gradeOf percentage; scores := sc;
                  totalScore := totalScore; maxTotalScore := maxTotalScore |},
           hp')
      end
  end%Z.

End CANSLIMServiceAV.

(** ** The price-only [CANSLIMService] (part_011): the same bar validation,
    ordering and grading, every factor from the bars and the volume. *)

Module CANSLIMServicePriceOnly.
Import CANSLIMService.

Definition computeScores (currentPrice : num) (sortedBars : list Bar.bar)
  (volume : num) : js Scores.scores :=
  let* c := scoreCurrentQuarterlyEarnings sortedBars in
  let* a := scoreAnnualEarningsGrowth sortedBars in
  let* n := scoreNewHighs currentPrice sortedBars in
  let* s := scoreSupplyAndDemand volume sortedBars in
  let* l := scoreLeaderOrLaggard sortedBars in
  let* i := scoreInstitutionalSponsorship volume sortedBars in
  let* m := scoreMarketDirection sortedBars in
  ret {| Scores.c := c; Scores.a := a; Scores.n := n; Scores.s := s;
         Scores.l := l; Scores.i := i; Scores.m := m |}.

(** [calculateScore] *)
Definition calculateScore (currentPrice : num) (historicalBars : list loc)
  (volume : num) (hp : heap) : js CANSLIMScore * heap :=
  match historicalBars with
  | [] => (ret (getDefaultScore "No historical data available"), hp)
  | _ =>
      let '(hp', kept) := filterValid hp historicalBars in
      let validBars := deref hp' kept in
      match validBars with
      | [] => (ret (getDefaultScore "No valid price data available"), hp')
      | _ =>
          let sortedBars := orderBars validBars in
          (let* sc := computeScores currentPrice sortedBars volume in
           let totalScore := fold_left (fun sum f => sum + score f) (values sc) 0 in
           let maxTotalScore := fold_left (fun sum f => sum + maxScore f) (values sc) 0 in
           let percentage := num_mul (num_div (numZ totalScore) (numZ maxTotalScore)) Q100 in
           ret {| overallGrade := gradeOf percentage; scores := sc;
                  totalScore := totalScore; maxTotalScore := maxTotalScore |},
           hp')
      end
  end%Z.

End CANSLIMServicePriceOnly.

(** ** The first [CANSLIMService] of part_010 (lines 23-276): price-only,
    at least 20 bars, no validation; the bars are always sorted by
    [new Date(a.t).getTime() - new Date(b.t).getTime()], whose [NaN] for a
    missing or unparseable timestamp the sort reads as 0, i.e. by
    [compareBarTimes]. *)

Module CANSLIMServiceLegacy.
Import CANSLIMService.

(** The bar objects of the array.  A missing element makes the call throw:
    a [null] one when the comparator reads its [t]; an [undefined] one,
    which the sort moves to the end without comparing it, when the close of
    the last bar is read. *)
Fixpoint derefAll (hp : heap) (bars : list loc) : js (list Bar.bar) :=
  match bars with
  | [] => ret []
  | x :: rest =>
      let* b := nth_error hp x in
      let* bs := derefAll hp rest in
      ret (b :: bs)
  end.

(** [scoreCurrentQuarterlyEarnings] *)
Definition scoreCurrentQuarterlyEarnings (bars : list Bar.bar) : js FactorScore :=
  let recentBars := lastn (Nat.min 60 (List.length bars)) bars in
  if (List.length recentBars <? 20)%nat then
    ret (fs 0 15 "Insufficient data for quarterly analysis")
  else
    let* first := at_ recentBars 0 in
    let* last := at_ recentBars (List.length recentBars - 1) in
    let changePercent := pct (Bar.c last) (Bar.c first) (Bar.c first) in
    let p := toFixed 1 changePercent in
    if num_ge changePercent (numZ 25) then
      ret (fs 15 15 ("Strong quarterly momentum: +" ++ p ++ "%"))
    else if num_ge changePercent (numZ 15) then
      ret (fs 12 15 ("Good quarterly momentum: +" ++ p ++ "%"))
    else if num_ge changePercent (numZ 5) then
      ret (fs 8 15 ("Moderate quarterly momentum: +" ++ p ++ "%"))
    else if num_ge changePercent (numZ 0) then
      ret (fs 5 15 ("Weak quarterly momentum: +" ++ p ++ "%"))
    else ret (fs 2 15 ("Negative quarterly momentum: " ++ p ++ "%")).

(** [scoreAnnualEarningsGrowth] *)
Definition scoreAnnualEarningsGrowth (bars : list Bar.bar) : js FactorScore :=
  let annualBars := lastn (Nat.min 252 (List.length bars)) bars in
  if (List.length annualBars <? 50)%nat then
    ret (fs 0 15 "Insufficient data for annual analysis")
  else
    let* first := at_ annualBars 0 in
    let* last := at_ annualBars (List.length annualBars - 1) in
    let changePercent := pct (Bar.c last) (Bar.c first) (Bar.c first) in
    let p := toFixed 1 changePercent in
    if num_ge changePercent (numZ 25) then
      ret (fs 15 15 ("Strong annual growth: +" ++ p ++ "%"))
    else if num_ge changePercent (numZ 15) then
      ret (fs 12 15 ("Good annual growth: +" ++ p ++ "%"))
    else if num_ge changePercent (numZ 5) then
      ret (fs 8 15 ("Moderate annual growth: +" ++ p ++ "%"))
    else if num_ge changePercent (numZ 0) then
      ret (fs 5 15 ("Weak annual growth: +" ++ p ++ "%"))
    else ret (fs 2 15 ("Negative annual growth: " ++ p ++ "%")).

(** [scoreNewHighs] *)
Definition scoreNewHighs (currentPrice : num) (bars : list Bar.bar) : js FactorScore :=
  if (List.length bars <? 20)%nat then ret (fs 0 15 "Insufficient data")
  else
    let recentHighs := map Bar.h (lastn (Nat.min 60 (List.length bars)) bars) in
    let allTimeHigh := math_max (map Bar.h bars) in
    let recentHigh := math_max recentHighs in
    let percentFromHigh := pct currentPrice allTimeHigh allTimeHigh in
    let isNearHigh := num_ge percentFromHigh (numZ (-5)) in
    if isNearHigh && num_ge currentPrice (num_mul recentHigh (Fin (95 # 100))) then
      ret (fs 15 15 "Trading near new highs")
    else if isNearHigh then ret (fs 12 15 "Approaching new highs")
    else if num_ge percentFromHigh (numZ (-15)) then
      ret (fs 8 15 "Moderate distance from highs")
    else ret (fs 4 15 "Well below highs").

(** [scoreSupplyAndDemand] *)
Definition scoreSupplyAndDemand (volume : num) (bars : list Bar.bar) : js FactorScore :=
  if (List.length bars <? 20)%nat then ret (fs 0 10 "Insufficient data")
  else
    let avgVolume :=
      num_div (sumBy Bar.v (lastn (Nat.min 20 (List.length bars)) bars)) (numZ 20) in
    let volumeRatio := num_div volume avgVolume in
    let recentBars := lastn (Nat.min 20 (List.length bars)) bars in
    let upDays := filter isUp recentBars in
    let avgUpVolume :=
      if (0 <? List.length upDays)%nat
      then num_div (sumBy Bar.v upDays) (numN (List.length upDays))
      else Fin 0 in
    if num_ge volumeRatio (Fin (3 # 2))
       && num_gt avgUpVolume (num_mul avgVolume (Fin (6 # 5))) then
      ret (fs 10 10 "Strong demand, high volume on advances")
    else if num_ge volumeRatio (Fin (6 # 5)) then ret (fs 8 10 "Good volume activity")
    else if num_ge volumeRatio (Fin (4 # 5)) then ret (fs 6 10 "Average volume")
    else ret (fs 3 10 "Low volume, weak demand").

(** [scoreLeaderOrLaggard]: [slice(-30)] and [slice(-60, -30)]. *)
Definition scoreLeaderOrLaggard (bars : list Bar.bar) : js FactorScore :=
  let len := List.length bars in
  if (len <? 60)%nat then ret (fs 0 10 "Insufficient data")
  else
    let recentBars := lastn (Nat.min 30 len) bars in
    let earlierBars := firstn ((len - 30) - (len - 60)) (skipn (len - 60) bars) in
    let* rFirst := at_ recentBars 0 in
    let* rLast := at_ recentBars (List.length recentBars - 1) in
    let recentReturn := pct (Bar.c rLast) (Bar.c rFirst) (Bar.c rFirst) in
    let* earlierReturn :=
      if (0 <? List.length earlierBars)%nat then
        let* eFirst := at_ earlierBars 0 in
        let* eLast := at_ earlierBars (List.length earlierBars - 1) in
        ret (pct (Bar.c eLast) (Bar.c eFirst) (Bar.c eFirst))
      else ret (Fin 0) in
    if num_gt recentReturn (numZ 10) && num_gt recentReturn earlierReturn then
      ret (fs 10 10 "Market leader - strong outperformance")
    else if num_gt recentReturn (numZ 5) then ret (fs 8 10 "Good relative performance")
    else if num_gt recentReturn (numZ 0) then ret (fs 6 10 "Moderate performance")
    else ret (fs 3 10 "Laggard - underperforming").

(** [scoreInstitutionalSponsorship] *)
Definition scoreInstitutionalSponsorship (volume : num) (bars : list Bar.bar)
  : js FactorScore :=
  if (List.length bars <? 20)%nat then ret (fs 0 10 "Insufficient data")
  else
    let recentBars := lastn (Nat.min 20 (List.length bars)) bars in
    let avgVolume := num_div (sumBy Bar.v recentBars) (numZ 20) in
    let highVolumeDays :=
      List.length (filter (fun b => num_gt (Bar.v b) (num_mul avgVolume (Fin (3 # 2))))
                     recentBars) in
    if (8 <=? highVolumeDays)%nat && num_gt volume avgVolume then
      ret (fs 10 10 "Strong institutional interest")
    else if (5 <=? highVolumeDays)%nat then ret (fs 8 10 "Moderate institutional activity")
    else if (3 <=? highVolumeDays)%nat then ret (fs 6 10 "Some institutional interest")
    else ret (fs 3 10 "Limited institutional sponsorship").

(** [scoreMarketDirection] *)
Definition scoreMarketDirection (bars : list Bar.bar) : js FactorScore :=
  if (List.length bars <? 20)%nat then ret (fs 0 10 "Insufficient data")
  else
    let recentBars := lastn (Nat.min 20 (List.length bars)) bars in
    let* first := at_ recentBars 0 in
    let* last := at_ recentBars (List.length recentBars - 1) in
    let trend := pct (Bar.c last) (Bar.c first) (Bar.c first) in
    let upDays := count isUp recentBars in
    let downDays := count isDown recentBars in
    if num_gt trend (numZ 5) && num_gt (numN upDays) (num_mul (numN downDays) (Fin (3 # 2))) then
      ret (fs 10 10 "Strong uptrend")
    else if num_gt trend (numZ 2) && (downDays <? upDays)%nat then
      ret (fs 8 10 "Moderate uptrend")
    else if num_gt trend (numZ 0) then ret (fs 6 10 "Slight uptrend")
    else if num_gt trend (numZ (-5)) then ret (fs 4 10 "Sideways/weak trend")
    else ret (fs 2 10 "Downtrend").

Definition computeScores (currentPrice : num) (sortedBars : list Bar.bar)
  (volume : num) : js Scores.scores :=
  let* c := scoreCurrentQuarterlyEarnings sortedBars in
  let* a := scoreAnnualEarningsGrowth sortedBars in
  let* n := scoreNewHighs currentPrice sortedBars in
  let* s := scoreSupplyAndDemand volume sortedBars in
  let* l := scoreLeaderOrLaggard sortedBars in
  let* i := scoreInstitutionalSponsorship volume sortedBars in
  let* m := scoreMarketDirection sortedBars in
  ret {| Scores.c := c; Scores.a := a; Scores.n := n; Scores.s := s;
         Scores.l := l; Scores.i := i; Scores.m := m |}.

(** [calculateScore]; its [getDefaultScore] is the same as the second
    class's.  It writes no bar. *)
Definition calculateScore (currentPrice : num) (historicalBars : list loc)
  (volume : num) (hp : heap) : js CANSLIMScore :=
  if (List.length historicalBars <? 20)%nat then
    ret (getDefaultScore "Insufficient historical data")
  else
    (let* bars := derefAll hp historicalBars in
     let sortedBars := sortBars bars in
     let* sc := computeScores currentPrice sortedBars volume in
     let totalScore := fold_left (fun sum f => sum + score f) (values sc) 0 in
     let maxTotalScore := fold_left (fun sum f => sum + maxScore f) (values sc) 0 in
     let percentage := num_mul (num_div (numZ totalScore) (numZ maxTotalScore)) Q100 in
     ret {| overallGrade := gradeOf percentage; scores := sc;
            totalScore := totalScore; maxTotalScore := maxTotalScore |})%Z.

End CANSLIMServiceLegacy.

(** ** [WeinsteinService] *)

Module WeinsteinService.

Inductive WeinsteinStage : Type := Stage1 | Stage2 | Stage3 | Stage4.

Inductive TrendStrength : Type := Strong | Moderate | Weak.

Inductive VolatilityLevel : Type := High | Medium | Low.

Record WeinsteinAnalysis : Type := mkAnalysis {
  stage : WeinsteinStage;
  stageName : string;
  description : string;
  thirtyWeekMA : num;
  currentPrice : num;
  priceVsMA : num;
  trendStrength : TrendStrength;
  volatility : VolatilityLevel
}.

Definition closeSum (bars : list Bar.bar) : num :=
  fold_left (fun acc b => num_add acc (Bar.c b)) bars (Fin 0).

(** [calculate30WeekMA]: mean close over the trailing [min(150, n)] bars,
    [0] below 10 bars. *)
Definition calculate30WeekMA (bars : list Bar.bar) : num :=
  if (List.length bars <? 10)%nat then Fin 0
  else
    let relevantBars := lastn (Nat.min 150 (List.length bars)) bars in
    num_div (closeSum relevantBars) (numZ (Z.of_nat (List.length relevantBars))).

Fixpoint stepReturns (prev : Bar.bar) (rest : list Bar.bar) : list num :=
  match rest with
  | [] => []
  | bar :: rest' =>
      num_div (num_sub (Bar.c bar) (Bar.c prev)) (Bar.c prev) :: stepReturns bar rest'
  end.

(** [recentBars.map((bar, index) => index === 0 ? 0 : ...)] *)
Definition simpleReturns (recentBars : list Bar.bar) : list num :=
  match recentBars with
  | [] => []
  | b0 :: rest => Fin 0 :: stepReturns b0 rest
  end.

(** [calculateVolatility] returns [Math.sqrt(variance) * 100]; the model
    keeps the variance, and [volatilityAbove] below compares
    [Math.sqrt(variance) * 100] with a bound through it. *)
Definition calculateVolatilityVariance (bars : list Bar.bar) : num :=
  if (List.length bars <? 5)%nat then Fin 0
  else
    let recentBars := lastn (Nat.min 20 (List.length bars)) bars in
    let returns := simpleReturns recentBars in
    let len := numZ (Z.of_nat (List.length returns)) in
    let mean := num_div (fold_left num_add returns (Fin 0)) len in
    num_div
      (fold_left (fun sum r => num_add sum (num_mul (num_sub r mean) (num_sub r mean)))
         returns (Fin 0))
      len.

(** [Math.sqrt(variance) * 100 > k] for [k >= 0]: [variance > (k/100)^2]
    (a variance is non-negative, [+Infinity] or [NaN]). *)
Definition volatilityAbove (variance : num) (k : Q) : bool :=
  num_gt variance (Fin ((k / 100) * (k / 100))).

(** [analyzeTrend] *)
Definition analyzeTrend (bars : list Bar.bar) : js num :=
  if (List.length bars <? 10)%nat then ret (Fin 0)
  else
    let* first := at_ bars 0 in
    let* last := at_ bars (List.length bars - 1) in
    let startPrice := Bar.c first in
    if negb (truthy startPrice) || num_eqb startPrice (Fin 0) then ret (Fin 0)
    else ret (num_mul (num_div (num_sub (Bar.c last) startPrice) startPrice) (numZ 100)).

(** [getTrendStrength] *)
Definition getTrendStrength (trend : num) : TrendStrength :=
  if num_gt (num_abs trend) (numZ 10) then Strong
  else if num_gt (num_abs trend) (numZ 5) then Moderate
  else Weak.

(** [determineStage]: first matching rule wins. *)
Definition determineStage (currentPrice ma30 priceVsMA trend : num)
  (volatility : VolatilityLevel) (recentBars : list Bar.bar) : WeinsteinStage :=
  let upDays := numZ (Z.of_nat (count isUp recentBars)) in
  let downDays := numZ (Z.of_nat (count isDown recentBars)) in
  if num_gt priceVsMA (Fin 0) && num_gt trend (numZ 2)
     && num_gt upDays (num_mul downDays (Fin (6 # 5))) then Stage2
  else if num_lt priceVsMA (Fin 0) && num_lt trend (numZ (-2))
     && num_gt downDays (num_mul upDays (Fin (6 # 5))) then Stage4
  else if match volatility with High => true | _ => false end
          && num_gt priceVsMA (numZ (-5))
          && num_ge currentPrice (num_mul (math_max (map Bar.h recentBars)) (Fin (95 # 100)))
          && num_lt trend (numZ 3) && num_gt trend (numZ (-3)) then Stage3
  else Stage1.

(** [getStageName] *)
Definition getStageName (s : WeinsteinStage) : string :=
  match s with
  | Stage1 => "Stage 1: Accumulation"
  | Stage2 => "Stage 2: Advancing"
  | Stage3 => "Stage 3: Distribution"
  | Stage4 => "Stage 4: Declining"
  end.

Definition toLowerCase (ts : TrendStrength) : string :=
  match ts with Strong => "strong" | Moderate => "moderate" | Weak => "weak" end.

(** [getStageDescription] *)
Definition getStageDescription (s : WeinsteinStage) (priceVsMA : num)
  (ts : TrendStrength) (barsAvailable : nat) : string :=
  let maLabel :=
    if (150 <=? barsAvailable)%nat then "30-week MA"
    else string_of_nat barsAvailable ++ "-day MA" in
  let dataNote :=
    if (barsAvailable <? 150)%nat
    then " (Based on " ++ string_of_nat barsAvailable ++ " days of data)" else "" in
  match s with
  | Stage1 =>
      "Base building phase. Price is consolidating with " ++ toLowerCase ts
      ++ " trend. Look for accumulation patterns before potential breakout." ++ dataNote
  | Stage2 =>
      "Uptrend phase. Price is " ++ toFixed 1 priceVsMA ++ "% above " ++ maLabel
      ++ " with " ++ toLowerCase ts
      ++ " momentum. This is typically the best time to buy." ++ dataNote
  | Stage3 =>
      "Distribution phase. High volatility and topping pattern detected. Price may be near highs but showing weakening momentum. Consider taking profits." ++ dataNote
  | Stage4 =>
      "Downtrend phase. Price is " ++ toFixed 1 (num_abs priceVsMA) ++ "% below " ++ maLabel
      ++ " with " ++ toLowerCase ts
      ++ " downward momentum. Avoid buying, consider shorting or waiting." ++ dataNote
  end.

Definition insufficient (currentPrice : num) (why : string) : WeinsteinAnalysis :=
  {| stage := Stage1; stageName := "Insufficient Data"; description := why;
     thirtyWeekMA := Fin 0; currentPrice := currentPrice; priceVsMA := Fin 0;
     trendStrength := Weak; volatility := Low |}.

(** [analyzeStage] *)
Definition analyzeStage (currentPrice : num) (historicalBars : list Bar.bar)
  : js WeinsteinAnalysis :=
  match historicalBars with
  | [] => ret (insufficient currentPrice "No historical data available for stage analysis")
  | _ =>
  let validBars :=
    filter (fun b => negb (isNaN (Bar.c b)) && num_gt (Bar.c b) (Fin 0)) historicalBars in
  let nValid := List.length validBars in
  if (nValid =? 0)%nat then
    ret (insufficient currentPrice "No valid price data available for stage analysis")
  else if (nValid <? 5)%nat then
    let avgPrice := num_div (closeSum validBars) (numZ (Z.of_nat nValid)) in
    let priceVsMA :=
      if num_gt avgPrice (Fin 0)
      then num_mul (num_div (num_sub currentPrice avgPrice) avgPrice) (numZ 100)
      else Fin 0 in
    let isAbove := num_gt priceVsMA (Fin 0) in
    ret {| stage := if isAbove then Stage2 else Stage4;
           stageName := if isAbove then "Stage 2: Advancing (Limited Data)"
                        else "Stage 4: Declining (Limited Data)";
           description :=
             "Limited data analysis (" ++ string_of_nat nValid
             ++ " day(s) available). Price is " ++ (if isAbove then "above" else "below")
             ++ " average by " ++ toFixed 1 (num_abs priceVsMA)
             ++ "%. More data needed for accurate stage determination.";
           thirtyWeekMA := avgPrice;
           currentPrice := currentPrice;
           priceVsMA := priceVsMA;
           trendStrength := if num_gt (num_abs priceVsMA) (numZ 5) then Moderate else Weak;
           volatility := Low |}
  else
    let sortedBars := orderBars validBars in
    let thirtyWeekMA := calculate30WeekMA sortedBars in
    let priceVsMA :=
      if num_gt thirtyWeekMA (Fin 0)
      then num_mul (num_div (num_sub currentPrice thirtyWeekMA) thirtyWeekMA) (numZ 100)
      else Fin 0 in
    let variance := calculateVolatilityVariance sortedBars in
    let trendBars := lastn (Nat.min 30 (List.length sortedBars)) sortedBars in
    let* trend := analyzeTrend trendBars in
    let trendStrength := getTrendStrength trend in
    let volatilityLevel :=
      if volatilityAbove variance 3 then High
      else if volatilityAbove variance (3 # 2) then Medium else Low in
    let s := determineStage currentPrice thirtyWeekMA priceVsMA trend volatilityLevel trendBars in
    let dataQuality := if (150 <=? List.length sortedBars)%nat then "" else " (Estimated)" in
    ret {| stage := s;
           stageName := getStageName s ++ dataQuality;
           description := getStageDescription s priceVsMA trendStrength (List.length sortedBars);
           thirtyWeekMA := thirtyWeekMA;
           currentPrice := currentPrice;
           priceVsMA := priceVsMA;
           trendStrength := trendStrength;
           volatility := volatilityLevel |}
  end.

End WeinsteinService.

(** ** Definitions used by the properties *)

Definition factorOK (mx : Z) (f : FactorScore) : Prop :=
  maxScore f = mx /\ (0 <= score f <= mx)%Z.

(** A bar that [filterValid] keeps: its close is a positive number. *)
Definition usable (b : Bar.bar) : bool :=
  negb (isNaN (Bar.c b) || num_le (Bar.c b) (Fin 0)).

(** A caller array slot that [filterValid] keeps. *)
Definition okAt (hp : heap) (x : loc) : bool :=
  match nth_error hp x with Some b => usable b | None => false end.

Definition sumScores (sc : Scores.scores) : Z :=
  fold_left (fun s f => s + score f)%Z (CANSLIMService.values sc) 0%Z.

Definition sumMax (sc : Scores.scores) : Z :=
  fold_left (fun s f => s + maxScore f)%Z (CANSLIMService.values sc) 0%Z.

(** Concrete inputs: a bar with the given open and close (high = close,
    low = open), volume 1000 unless given, and no timestamp. *)
Definition bar_ocv (o c v : Q) : Bar.bar :=
  Bar.mkBar (Fin o) (Fin c) (Fin o) (Fin c) (Fin v) None.

Definition bar_oc (o c : Q) : Bar.bar := bar_ocv o c 1000.

(** Strictly increasing numbers. *)
Fixpoint increasingb (xs : list num) : bool :=
  match xs with
  | x :: ((y :: _) as rest) => num_lt x y && increasingb rest
  | _ => true
  end.

(** A Finnhub snapshot carrying only a quarterly EPS growth figure. *)
Definition metricWithQuarterlyGrowth (g : num) : FinnhubMetric.t :=
  FinnhubMetric.mk (Some g) None None None None None None None None.

Definition finnhubWithMetric (mt : FinnhubMetric.t) : FinnhubFundamentals.t :=
  FinnhubFundamentals.mk None (Some (FinnhubBasicFinancials.mk (Some mt))) None.

(** Five up-day bars closing at 10, 10.5, 11, 11.5, 12. *)
Definition closes5 : list Q := [10; 21 # 2; 11; 23 # 2; 12].

Definition bars5 : list Bar.bar := map (fun c => bar_oc (c - (1 # 10)) c) closes5.

(** Thirty up-day bars closing at 100.00, 100.01, ..., 100.29. *)
Definition inc30 : list Bar.bar :=
  map (fun k => bar_oc ((9999 + Z.of_nat k) # 100) ((10000 + Z.of_nat k) # 100))
      (seq 0 30).

(** Thirty up-day bars closing at 100, 101, ..., 129. *)
Definition closesRise : list Q := map (fun k => inject_Z (100 + Z.of_nat k)) (seq 0 30).

Definition barsRise : list Bar.bar := map (fun c => bar_oc (c - (1 # 2)) c) closesRise.

(** Twenty bars at close 10, whose volumes are 1000 and then [v] for the
    last ten. *)
Definition volumeBars (v : Q) : heap :=
  map (fun k => bar_ocv (99 # 10) 10 (if (k <? 10)%nat then 1000 else v)) (seq 0 20).

(** A bar with close [c], open [c - 1] and timestamp [ms]. *)
Definition bar_t (c : Q) (ms : Z) : Bar.bar :=
  Bar.mkBar (Fin (c - 1)) (Fin c) (Fin (c - 1)) (Fin c) (Fin 1000) (Some (TsTime ms)).

(** Time order of two bars, and a bar with a parseable timestamp. *)
Definition timeLe (a b : Bar.bar) : Prop := (compareBarTimes a b <= 0)%Z.

Definition timed (b : Bar.bar) : Prop := exists ms, Bar.t b = Some (TsTime ms).

(** [n] up-day bars closing at [c] (open [c - 1]). *)
Definition flatBars (n : nat) (c : Q) : list Bar.bar := repeat (bar_oc (c - 1) c) n.

(** Twenty bars closing at 10, 11, ..., 29 with timestamps 0, ..., 19. *)
Definition legacyHeap : heap := map (fun k => bar_t (10 + inject_Z (Z.of_nat k)) (Z.of_nat k)) (seq 0 20).

(** * Properties *)

(** ** Helper lemmas *)


Lemma at_lt {A} (xs : list A) (i : nat) :
  (i < List.length xs)%nat -> exists x, at_ xs i = Some x.
Proof.
  intros H. unfold at_. destruct (nth_error xs i) eqn:E; eauto.
  apply nth_error_None in E. lia.
Qed.

Lemma lastn_length {A} (k : nat) (xs : list A) :
  (k <= List.length xs)%nat -> List.length (lastn k xs) = k.
Proof. intros H. unfold lastn. rewrite length_skipn. lia. Qed.

Ltac factor_done :=
  eexists; split; [reflexivity | unfold factorOK; cbn; lia].

(** Case analysis on the guards of a scoring method. *)
Ltac split_guards :=
  repeat match goal with
  | |- context [if ?b then _ else _] =>
      let E := fresh "E" in destruct b eqn:E
  end.

Lemma gradeEarningsGrowth_ok (g : num) (label : string) :
  factorOK 15 (CANSLIMService.gradeEarningsGrowth g label 15).
Proof.
  unfold CANSLIMService.gradeEarningsGrowth, factorOK.
  split_guards; cbn; vm_compute; split; try reflexivity; split; discriminate.
Qed.

Section FinnhubScorers.

Variable fin : FinnhubBasicFinancials.t.
Variable mt : FinnhubMetric.t.
Hypothesis Hmetric : FinnhubBasicFinancials.metric fin = Some mt.

Lemma scoreCurrentQuarterlyEarningsWithFinnhub_ok (e : option FinnhubEarnings.t) :
  exists f, CANSLIMService.scoreCurrentQuarterlyEarningsWithFinnhub fin e = Some f
            /\ factorOK 15 f.
Proof.
  unfold CANSLIMService.scoreCurrentQuarterlyEarningsWithFinnhub.
  rewrite Hmetric; cbn [bind].
  assert (Hfb : exists f,
    (match option_map FinnhubEarnings.earnings e with
     | Some (Some es) =>
         if (2 <=? List.length es)%nat then
           let* current := at_ es 0 in
           let* previous := at_ es 1 in
           match FinnhubEarnings.actual current, FinnhubEarnings.actual previous with
           | Some ca, Some pa =>
               if truthy ca && truthy pa && negb (num_eqb pa (Fin 0)) then
                 ret (CANSLIMService.gradeEarningsGrowth
                        (num_mul (num_div (num_sub ca pa) (num_abs pa)) CANSLIMService.Q100)
                        "Quarterly EPS" 15)
               else ret (CANSLIMService.fs 0 15 "N/A - Quarterly EPS data unavailable")
           | _, _ => ret (CANSLIMService.fs 0 15 "N/A - Quarterly EPS data unavailable")
           end
         else ret (CANSLIMService.fs 0 15 "N/A - Quarterly EPS data unavailable")
     | _ => ret (CANSLIMService.fs 0 15 "N/A - Quarterly EPS data unavailable")
     end) = Some f /\ factorOK 15 f).
  { destruct e as [[[es|]]|]; cbn [option_map]; try factor_done.
    destruct es as [|x [|y rest]]; cbn; try factor_done.
    destruct (FinnhubEarnings.actual x), (FinnhubEarnings.actual y); try factor_done.
    split_guards; try factor_done.
    eexists; split; [reflexivity | apply gradeEarningsGrowth_ok]. }
  destruct (FinnhubMetric.epsGrowthQuarterlyYoy mt) as [g|]; [|exact Hfb].
  destruct (isNaN g); [exact Hfb|].
  eexists; split; [reflexivity | apply gradeEarningsGrowth_ok].
Qed.

Lemma scoreAnnualEarningsGrowthWithFinnhub_ok :
  exists f, CANSLIMService.scoreAnnualEarningsGrowthWithFinnhub fin = Some f
            /\ factorOK 15 f.
Proof.
  unfold CANSLIMService.scoreAnnualEarningsGrowthWithFinnhub.
  rewrite Hmetric; cbn [bind].
  destruct (FinnhubMetric.epsGrowth3Y mt) as [g3|]; [destruct (isNaN g3)|];
  destruct (FinnhubMetric.epsGrowth5Y mt) as [g5|]; try destruct (isNaN g5);
  destruct (FinnhubMetric.epsGrowthTTMYoy mt) as [gt|]; try destruct (isNaN gt);
  cbn; first [factor_done | eexists; split; [reflexivity | apply gradeEarningsGrowth_ok]].
Qed.

Lemma scoreNewHighsWithFinnhub_ok (cp : num) :
  exists f, CANSLIMService.scoreNewHighsWithFinnhub cp fin = Some f /\ factorOK 15 f.
Proof.
  unfold CANSLIMService.scoreNewHighsWithFinnhub.
  rewrite Hmetric; cbn [bind].
  destruct (FinnhubMetric.x52WeekHigh mt); [|factor_done].
  split_guards; factor_done.
Qed.

Lemma scoreLeaderOrLaggardWithFinnhub_ok :
  exists f, CANSLIMService.scoreLeaderOrLaggardWithFinnhub fin = Some f /\ factorOK 10 f.
Proof.
  unfold CANSLIMService.scoreLeaderOrLaggardWithFinnhub.
  rewrite Hmetric; cbn [bind].
  destruct (FinnhubMetric.priceRelativeToSP50052Week mt);
  destruct (FinnhubMetric.x52WeekPriceReturnDaily mt); split_guards; factor_done.
Qed.

Lemma scoreMarketDirectionWithFinnhub_ok :
  exists f, CANSLIMService.scoreMarketDirectionWithFinnhub fin = Some f /\ factorOK 10 f.
Proof.
  unfold CANSLIMService.scoreMarketDirectionWithFinnhub.
  rewrite Hmetric; cbn [bind].
  destruct (FinnhubMetric.priceRelativeToSP5004Week mt);
  destruct (FinnhubMetric.priceRelativeToSP50013Week mt);
  destruct (FinnhubMetric.x52WeekPriceReturnDaily mt); split_guards; factor_done.
Qed.

End FinnhubScorers.

Lemma scoreSupplyAndDemandWithFinnhub_ok vol bars so :
  exists f, CANSLIMService.scoreSupplyAndDemandWithFinnhub vol bars so = Some f
            /\ factorOK 10 f.
Proof.
  unfold CANSLIMService.scoreSupplyAndDemandWithFinnhub. split_guards; factor_done.
Qed.

Lemma scoreWithData_ok (e : EarningsData.t) :
  (exists f, CANSLIMService.scoreCurrentQuarterlyEarningsWithData e = Some f
             /\ factorOK 15 f) /\
  (exists f, CANSLIMService.scoreAnnualEarningsGrowthWithData e = Some f
             /\ factorOK 15 f).
Proof.
  unfold CANSLIMService.scoreCurrentQuarterlyEarningsWithData,
         CANSLIMService.scoreAnnualEarningsGrowthWithData,
         CANSLIMService.gradeEPSGrowth.
  split.
  - destruct (EarningsData.quarterlyEarnings e) as [qs|]; [|factor_done].
    destruct qs as [|x [|y rest]]; cbn; split_guards; factor_done.
  - destruct (EarningsData.annualEarnings e) as [ys|]; [|factor_done].
    destruct ys as [|x [|y rest]]; cbn; split_guards; factor_done.
Qed.

Ltac nat_guards :=
  repeat match goal with
  | H : (_ <? _)%nat = true |- _ => apply Nat.ltb_lt in H
  | H : (_ <? _)%nat = false |- _ => apply Nat.ltb_ge in H
  | H : (_ <=? _)%nat = true |- _ => apply Nat.leb_le in H
  | H : (_ <=? _)%nat = false |- _ => apply Nat.leb_gt in H
  | H : (_ =? _)%nat = true |- _ => apply Nat.eqb_eq in H
  | H : (_ =? _)%nat = false |- _ => apply Nat.eqb_neq in H
  end.

(** Discharge an array read [at_ l i] that the guards put in range. *)
Ltac use_at :=
  match goal with
  | |- context [at_ ?xs ?i] =>
      let x := fresh "x" in
      let Hx := fresh "Hx" in
      destruct (at_lt xs i) as [x Hx]; [nat_guards; lia | rewrite Hx; cbn [bind ret]]
  end.

Lemma scoreNewHighs_ok cp bars :
  exists f, CANSLIMService.scoreNewHighs cp bars = Some f /\ factorOK 15 f.
Proof.
  unfold CANSLIMService.scoreNewHighs.
  destruct (List.length bars <? 1)%nat; [factor_done|].
  set (vb := filter _ bars).
  destruct vb as [|x [|y rest]]; cbn; split_guards; factor_done.
Qed.

Lemma scoreSupplyAndDemand_ok vol bars :
  exists f, CANSLIMService.scoreSupplyAndDemand vol bars = Some f /\ factorOK 10 f.
Proof.
  unfold CANSLIMService.scoreSupplyAndDemand. split_guards; factor_done.
Qed.

Lemma scoreSupplyAndDemandWithData_ok vol bars so :
  exists f, CANSLIMService.scoreSupplyAndDemandWithData vol bars so = Some f
            /\ factorOK 10 f.
Proof.
  unfold CANSLIMService.scoreSupplyAndDemandWithData.
  destruct (isNaN so || num_le so (Fin 0)); [apply scoreSupplyAndDemand_ok|].
  split_guards; cbn; split_guards; factor_done.
Qed.

Ltac destruct_one_if :=
  match goal with
  | |- context [if ?b then _ else _] => let E := fresh "E" in destruct b eqn:E
  end.

(** Walk a method's control flow: array reads first when in range, then
    the next guard. *)
Ltac js_solve :=
  repeat (first [use_at | destruct_one_if | progress cbn [bind ret]]);
  try factor_done.

Lemma scoreLeaderOrLaggard_ok bars :
  exists f, CANSLIMService.scoreLeaderOrLaggard bars = Some f /\ factorOK 10 f.
Proof.
  unfold CANSLIMService.scoreLeaderOrLaggard.
  set (len := List.length bars).
  set (half := Nat.max 1 (Nat.div len 2)).
  set (rb := lastn half bars).
  set (eb := firstn (len - half) bars).
  js_solve.
Qed.

Lemma scoreMarketDirection_ok bars :
  exists f, CANSLIMService.scoreMarketDirection bars = Some f /\ factorOK 10 f.
Proof.
  unfold CANSLIMService.scoreMarketDirection.
  set (rb := filter _ _).
  js_solve.
Qed.

Lemma finnhubFinancials_metric fh fin :
  CANSLIMService.finnhubFinancials fh = Some fin ->
  exists mt, FinnhubBasicFinancials.metric fin = Some mt.
Proof.
  unfold CANSLIMService.finnhubFinancials.
  destruct fh as [f|]; cbn; [|discriminate].
  destruct (FinnhubFundamentals.financials f) as [fin'|]; [|discriminate].
  destruct (FinnhubBasicFinancials.metric fin') eqn:E; [|discriminate].
  intros H; injection H as <-; eauto.
Qed.

(** Every factor of [computeScores] is computed without throwing, within
    its bounds. *)
Lemma computeScores_ok cp sb vol fund fh :
  exists sc, CANSLIMService.computeScores cp sb vol fund fh = Some sc /\
    factorOK 15 (Scores.c sc) /\ factorOK 15 (Scores.a sc) /\
    factorOK 15 (Scores.n sc) /\ factorOK 10 (Scores.s sc) /\
    factorOK 10 (Scores.l sc) /\ factorOK 10 (Scores.i sc) /\
    factorOK 10 (Scores.m sc).
Proof.
  unfold CANSLIMService.computeScores.
  destruct (CANSLIMService.finnhubFinancials fh) as [fin|] eqn:Efin.
  - destruct (finnhubFinancials_metric _ _ Efin) as [mt Hmt].
    destruct (scoreCurrentQuarterlyEarningsWithFinnhub_ok fin mt Hmt
                (match fh with Some f => FinnhubFundamentals.earnings f | None => None end))
      as [c [-> Hc]].
    destruct (scoreAnnualEarningsGrowthWithFinnhub_ok fin mt Hmt) as [a [-> Ha]].
    destruct (scoreNewHighsWithFinnhub_ok fin mt Hmt cp) as [n [-> Hn]].
    cbn [bind].
    assert (Hs : exists s,
      match CANSLIMService.finnhubShares fh with
      | Some so => CANSLIMService.scoreSupplyAndDemandWithFinnhub vol sb so
      | None =>
          match CANSLIMService.avShares fund with
          | Some so => CANSLIMService.scoreSupplyAndDemandWithData vol sb so
          | None => ret (CANSLIMService.fs 0 10 "N/A - No shares data (configure Finnhub API)")
          end
      end = Some s /\ factorOK 10 s).
    { destruct (CANSLIMService.finnhubShares fh); [apply scoreSupplyAndDemandWithFinnhub_ok|].
      destruct (CANSLIMService.avShares fund);
        [apply scoreSupplyAndDemandWithData_ok | factor_done]. }
    destruct Hs as [s [-> Hs]]; cbn [bind].
    destruct (scoreLeaderOrLaggardWithFinnhub_ok fin mt Hmt) as [l [-> Hl]].
    destruct (scoreMarketDirectionWithFinnhub_ok fin mt Hmt) as [m [-> Hm]].
    cbn; eexists; split; [reflexivity|].
    repeat split; try assumption; try apply Hc; try apply Ha; try apply Hn;
      try apply Hs; try apply Hl; try apply Hm; cbn; lia.
  - assert (Hca : (exists c,
      match CANSLIMService.avEarnings fund with
      | Some e => CANSLIMService.scoreCurrentQuarterlyEarningsWithData e
      | None => ret (CANSLIMService.fs 0 15 "N/A - No earnings data (configure Finnhub API)")
      end = Some c /\ factorOK 15 c) /\
      (exists a,
      match CANSLIMService.avEarnings fund with
      | Some e => CANSLIMService.scoreAnnualEarningsGrowthWithData e
      | None => ret (CANSLIMService.fs 0 15 "N/A - No earnings data (configure Finnhub API)")
      end = Some a /\ factorOK 15 a)).
    { destruct (CANSLIMService.avEarnings fund);
        [apply scoreWithData_ok | split; factor_done]. }
    destruct Hca as [[c [-> Hc]] [a [-> Ha]]].
    destruct (scoreNewHighs_ok cp sb) as [n [-> Hn]].
    cbn [bind].
    assert (Hs : exists s,
      match CANSLIMService.finnhubShares fh with
      | Some so => CANSLIMService.scoreSupplyAndDemandWithFinnhub vol sb so
      | None =>
          match CANSLIMService.avShares fund with
          | Some so => CANSLIMService.scoreSupplyAndDemandWithData vol sb so
          | None => ret (CANSLIMService.fs 0 10 "N/A - No shares data (configure Finnhub API)")
          end
      end = Some s /\ factorOK 10 s).
    { destruct (CANSLIMService.finnhubShares fh); [apply scoreSupplyAndDemandWithFinnhub_ok|].
      destruct (CANSLIMService.avShares fund);
        [apply scoreSupplyAndDemandWithData_ok | factor_done]. }
    destruct Hs as [s [-> Hs]]; cbn [bind].
    destruct (scoreLeaderOrLaggard_ok sb) as [l [-> Hl]].
    destruct (scoreMarketDirection_ok sb) as [m [-> Hm]].
    cbn; eexists; split; [reflexivity|].
    repeat split; try assumption; try apply Hc; try apply Ha; try apply Hn;
      try apply Hs; try apply Hl; try apply Hm; cbn; lia.
Qed.

(** ** The heap effect of bar validation *)


Lemma heap_set_nth hp x b y :
  nth_error (CANSLIMService.heap_set hp x b) y =
  if Nat.eqb x y then option_map (fun _ => b) (nth_error hp y) else nth_error hp y.
Proof.
  revert x y; induction hp as [|z hp IH]; intros x y.
  - destruct x, y; cbn; try reflexivity; destruct (Nat.eqb x y); reflexivity.
  - destruct x as [|x], y as [|y]; cbn; try reflexivity.
    apply IH.
Qed.

Lemma repairBar_c b : Bar.c (CANSLIMService.repairBar b) = Bar.c b.
Proof. reflexivity. Qed.

Lemma repairBar_idem b :
  CANSLIMService.repairBar (CANSLIMService.repairBar b) = CANSLIMService.repairBar b.
Proof.
  destruct b as [o h l c v t]; unfold CANSLIMService.repairBar; cbn.
  f_equal;
    repeat match goal with
    | |- context [if ?b then _ else _] => destruct b eqn:?
    end;
    cbn in *; try reflexivity; try congruence;
    repeat match goal with
    | H : _ || _ = _ |- _ => apply orb_true_iff in H || apply orb_false_iff in H
    | H : _ /\ _ |- _ => destruct H
    | H : _ \/ _ |- _ => destruct H
    end; try congruence; destruct c, v; cbn in *; congruence.
Qed.

(** Each caller bar after [filterValid]: repaired when it is one of the
    kept bars, untouched otherwise. *)
Lemma filterValid_heap hp hb y :
  nth_error (fst (CANSLIMService.filterValid hp hb)) y =
  option_map (fun b => if existsb (Nat.eqb y) hb && usable b
                       then CANSLIMService.repairBar b else b)
             (nth_error hp y).
Proof.
  revert hp; induction hb as [|x rest IH]; intros hp; cbn.
  - destruct (nth_error hp y); reflexivity.
  - destruct (nth_error hp x) as [bar|] eqn:Ex.
    + destruct (isNaN (Bar.c bar) || num_le (Bar.c bar) (Fin 0)) eqn:Eu.
      * rewrite IH. destruct (Nat.eqb y x) eqn:Eyx; cbn; [|reflexivity].
        apply Nat.eqb_eq in Eyx; subst. rewrite Ex; cbn.
        unfold usable; rewrite Eu, andb_false_r; reflexivity.
      * destruct (CANSLIMService.filterValid
                    (CANSLIMService.heap_set hp x (CANSLIMService.repairBar bar)) rest)
          as [hp' kept] eqn:Ef; cbn.
        change hp' with (fst (hp', kept)); rewrite <- Ef, IH, heap_set_nth.
        destruct (Nat.eqb x y) eqn:Exy.
        -- apply Nat.eqb_eq in Exy; subst. rewrite Ex, Nat.eqb_refl; cbn.
           unfold usable; rewrite repairBar_c, Eu, andb_true_r.
           destruct (existsb (Nat.eqb y) rest); cbn; [rewrite repairBar_idem|]; reflexivity.
        -- rewrite Nat.eqb_sym, Exy; reflexivity.
    + rewrite IH. destruct (Nat.eqb y x) eqn:Eyx; cbn; [|reflexivity].
      apply Nat.eqb_eq in Eyx; subst. rewrite Ex; reflexivity.
Qed.

Lemma calculateScore_heap cp hb vol fund fh hp :
  snd (CANSLIMService.calculateScore cp hb vol fund fh hp) =
  match hb with [] => hp | _ => fst (CANSLIMService.filterValid hp hb) end.
Proof.
  unfold CANSLIMService.calculateScore.
  destruct hb as [|x rest]; [reflexivity|].
  destruct (CANSLIMService.filterValid hp (x :: rest)) as [hp' kept].
  destruct (CANSLIMService.deref hp' kept); reflexivity.
Qed.



(** The three ways [calculateScore] returns. *)
Lemma calculateScore_shape cp hb vol fund fh hp :
  (hb = [] /\ fst (CANSLIMService.calculateScore cp hb vol fund fh hp) =
              Some (CANSLIMService.getDefaultScore "No historical data available")) \/
  (fst (CANSLIMService.calculateScore cp hb vol fund fh hp) =
     Some (CANSLIMService.getDefaultScore "No valid price data available")) \/
  (exists vb sc,
     vb <> [] /\
     CANSLIMService.computeScores cp (orderBars vb) vol fund fh = Some sc /\
     fst (CANSLIMService.calculateScore cp hb vol fund fh hp) =
       Some {| overallGrade :=
                 CANSLIMService.gradeOf
                   (num_mul (num_div (numZ (sumScores sc)) (numZ (sumMax sc)))
                      CANSLIMService.Q100);
               scores := sc; totalScore := sumScores sc; maxTotalScore := sumMax sc |}).
Proof.
  unfold CANSLIMService.calculateScore.
  destruct hb as [|x rest]; [left; split; reflexivity|right].
  destruct (CANSLIMService.filterValid hp (x :: rest)) as [hp' kept].
  destruct (CANSLIMService.deref hp' kept) as [|b vb] eqn:Ev; [left; reflexivity|right].
  destruct (computeScores_ok cp (orderBars (b :: vb)) vol fund fh) as [sc [Hsc _]].
  exists (b :: vb), sc; split; [discriminate|split; [exact Hsc|]].
  cbn [fst]; rewrite Hsc; reflexivity.
Qed.

Lemma factorOK_sum sc :
  factorOK 15 (Scores.c sc) -> factorOK 15 (Scores.a sc) ->
  factorOK 15 (Scores.n sc) -> factorOK 10 (Scores.s sc) ->
  factorOK 10 (Scores.l sc) -> factorOK 10 (Scores.i sc) ->
  factorOK 10 (Scores.m sc) ->
  sumMax sc = 85%Z /\ (0 <= sumScores sc <= 85)%Z.
Proof.
  destruct sc as [c a n s l i m]; unfold sumMax, sumScores, factorOK; cbn.
  intros [-> Hc] [-> Ha] [-> Hn] [-> Hs] [-> Hl] [-> Hi] [-> Hm]. lia.
Qed.


Lemma okAt_heap_set hp x b y :
  nth_error hp x = Some b ->
  okAt (CANSLIMService.heap_set hp x (CANSLIMService.repairBar b)) y = okAt hp y.
Proof.
  intros Hx; unfold okAt; rewrite heap_set_nth.
  destruct (Nat.eqb x y) eqn:Exy; [|reflexivity].
  apply Nat.eqb_eq in Exy; subst; rewrite Hx; reflexivity.
Qed.

Lemma filterValid_kept hp hb :
  snd (CANSLIMService.filterValid hp hb) = filter (okAt hp) hb.
Proof.
  revert hp; induction hb as [|x rest IH]; intros hp; [reflexivity|].
  cbn [CANSLIMService.filterValid filter].
  assert (Hok : okAt hp x =
    match nth_error hp x with Some b => usable b | None => false end) by reflexivity.
  rewrite Hok; destruct (nth_error hp x) as [bar|] eqn:Ex; [|apply IH].
  unfold usable; destruct (isNaN (Bar.c bar) || num_le (Bar.c bar) (Fin 0)); cbn [negb].
  - apply IH.
  - destruct (CANSLIMService.filterValid
                (CANSLIMService.heap_set hp x (CANSLIMService.repairBar bar)) rest)
      as [hp' kept] eqn:Ef; cbn [snd]; f_equal.
    change kept with (snd (hp', kept)); rewrite <- Ef, IH.
    apply filter_ext; intros y; apply okAt_heap_set, Ex.
Qed.

Lemma deref_nonempty hp hb :
  existsb (okAt hp) hb = true ->
  CANSLIMService.deref (fst (CANSLIMService.filterValid hp hb))
                       (snd (CANSLIMService.filterValid hp hb)) <> [].
Proof.
  intros Hex. apply existsb_exists in Hex as [x [Hin Hok]].
  assert (Hk : In x (snd (CANSLIMService.filterValid hp hb))).
  { rewrite filterValid_kept; apply filter_In; auto. }
  unfold okAt in Hok; destruct (nth_error hp x) as [b|] eqn:Eb; [|discriminate].
  pose proof (filterValid_heap hp hb x) as Hh; rewrite Eb in Hh; cbn in Hh.
  unfold CANSLIMService.deref; intros Hnil.
  match type of Hh with _ = Some ?b' =>
    assert (Hb' : In b' (flat_map (fun x0 => match nth_error
      (fst (CANSLIMService.filterValid hp hb)) x0 with Some b => [b] | None => [] end)
      (snd (CANSLIMService.filterValid hp hb)))) end.
  { apply in_flat_map; exists x; split; [exact Hk|]; rewrite Hh; left; reflexivity. }
  rewrite Hnil in Hb'; destruct Hb'.
Qed.

(** With a usable bar, [calculateScore] runs its scoring methods. *)
Lemma calculateScore_full cp hb vol fund fh hp :
  existsb (okAt hp) hb = true ->
  exists vb sc,
     vb <> [] /\
     CANSLIMService.computeScores cp (orderBars vb) vol fund fh = Some sc /\
     fst (CANSLIMService.calculateScore cp hb vol fund fh hp) =
       Some {| overallGrade :=
                 CANSLIMService.gradeOf
                   (num_mul (num_div (numZ (sumScores sc)) (numZ (sumMax sc)))
                      CANSLIMService.Q100);
               scores := sc; totalScore := sumScores sc; maxTotalScore := sumMax sc |}.
Proof.
  intros Hex. pose proof (deref_nonempty hp hb Hex) as Hne.
  unfold CANSLIMService.calculateScore.
  destruct hb as [|x rest]; [discriminate|].
  destruct (CANSLIMService.filterValid hp (x :: rest)) as [hp' kept].
  cbn [fst snd] in Hne.
  destruct (CANSLIMService.deref hp' kept) as [|b vb]; [congruence|].
  destruct (computeScores_ok cp (orderBars (b :: vb)) vol fund fh) as [sc [Hsc _]].
  exists (b :: vb), sc; split; [discriminate|split; [exact Hsc|]].
  cbn [fst]; rewrite Hsc; reflexivity.
Qed.

Lemma analyzeTrend_ok bars :
  exists t, WeinsteinService.analyzeTrend bars = Some t.
Proof.
  unfold WeinsteinService.analyzeTrend.
  destruct (List.length bars <? 10)%nat eqn:Hl; [eauto|].
  apply Nat.ltb_ge in Hl.
  destruct (at_lt bars 0) as [x Hx]; [lia|].
  destruct (at_lt bars (List.length bars - 1)) as [y Hy]; [lia|].
  rewrite Hx, Hy; cbn [bind].
  destruct (_ || _); eauto.
Qed.

Lemma analyzeStage_ok cp bars :
  exists a, WeinsteinService.analyzeStage cp bars = Some a.
Proof.
  unfold WeinsteinService.analyzeStage.
  destruct bars as [|b rest]; [eauto|].
  destruct (_ =? 0)%nat; [eauto|].
  destruct (_ <? 5)%nat; [eauto|].
  match goal with |- context [WeinsteinService.analyzeTrend ?tb] =>
    destruct (analyzeTrend_ok tb) as [t Ht]; rewrite Ht end.
  cbn [bind]; eauto.
Qed.

(** Run the binds of a hypothesis [m = Some v] down to the record it
    returns. *)
Ltac js_inv H :=
  unfold bind, ret in H;
  repeat (cbn beta iota in H;
          match type of H with
          | context [match ?e with Some _ => _ | None => _ end] =>
              let E := fresh "E" in destruct e eqn:E; try discriminate H
          end);
  injection H as <-.

Lemma computeScores_i cp sb vol fund fh sc :
  CANSLIMService.computeScores cp sb vol fund fh = Some sc ->
  Scores.i sc = CANSLIMService.fs 0 10 "N/A - Institutional data requires premium API".
Proof.
  unfold CANSLIMService.computeScores; intros H; js_inv H; reflexivity.
Qed.

Lemma computeScores_no_earnings cp sb vol fund fh sc :
  CANSLIMService.finnhubFinancials fh = None ->
  CANSLIMService.avEarnings fund = None ->
  CANSLIMService.computeScores cp sb vol fund fh = Some sc ->
  Scores.c sc = CANSLIMService.fs 0 15 "N/A - No earnings data (configure Finnhub API)" /\
  Scores.a sc = CANSLIMService.fs 0 15 "N/A - No earnings data (configure Finnhub API)".
Proof.
  unfold CANSLIMService.computeScores; intros Hf He H.
  rewrite Hf, He in H; js_inv H; split; reflexivity.
Qed.

Lemma computeScores_no_shares cp sb vol fund fh sc :
  CANSLIMService.finnhubShares fh = None ->
  CANSLIMService.avShares fund = None ->
  CANSLIMService.computeScores cp sb vol fund fh = Some sc ->
  Scores.s sc = CANSLIMService.fs 0 10 "N/A - No shares data (configure Finnhub API)".
Proof.
  unfold CANSLIMService.computeScores; intros Hf Ha H.
  rewrite Hf, Ha in H; js_inv H; reflexivity.
Qed.

Lemma computeScores_c_finnhub cp sb vol fund fh fin sc :
  CANSLIMService.finnhubFinancials fh = Some fin ->
  CANSLIMService.computeScores cp sb vol fund fh = Some sc ->
  CANSLIMService.scoreCurrentQuarterlyEarningsWithFinnhub fin
    (match fh with Some f => FinnhubFundamentals.earnings f | None => None end)
  = Some (Scores.c sc).
Proof.
  unfold CANSLIMService.computeScores; intros Hf H.
  rewrite Hf in H; js_inv H; cbn in *; congruence.
Qed.

(** A total of at most 35 of 85 grades D or F. *)
Lemma gradeOf_low (t : Z) :
  (0 <= t <= 35)%Z ->
  CANSLIMService.gradeOf
    (num_mul (num_div (numZ t) (numZ 85)) CANSLIMService.Q100) = Grade.D \/
  CANSLIMService.gradeOf
    (num_mul (num_div (numZ t) (numZ 85)) CANSLIMService.Q100) = Grade.F.
Proof.
  intros Ht.
  assert (Hk : exists k, t = Z.of_nat k /\ (k <= 35)%nat)
    by (exists (Z.to_nat t); split; lia).
  destruct Hk as [k [-> Hk]].
  do 36 (destruct k as [|k]; [vm_compute; auto|]). lia.
Qed.

(** ** Rising close series *)

Definition sumQ (l : list Q) : Q := fold_right Qplus 0 l.

Lemma fold_left_Qplus l a : fold_left Qplus l a == a + sumQ l.
Proof.
  revert a; induction l as [|x l IH]; intros a; cbn; [ring|].
  rewrite IH; unfold sumQ; ring.
Qed.

Lemma sumQ_le l L :
  (forall x, In x l -> x <= L) -> sumQ l <= inject_Z (Z.of_nat (List.length l)) * L.
Proof.
  induction l as [|x l IH]; intros H; cbn [sumQ fold_right List.length].
  - unfold Qle; cbn; lia.
  - rewrite Nat2Z.inj_succ, <- Z.add_1_r, inject_Z_plus.
    assert (Hx : x <= L) by (apply H; left; reflexivity).
    assert (Hl : sumQ l <= inject_Z (Z.of_nat (List.length l)) * L)
      by (apply IH; intros y Hy; apply H; right; exact Hy).
    unfold sumQ in *; cbn [fold_right]. 
    setoid_replace ((inject_Z (Z.of_nat (List.length l)) + inject_Z 1) * L)
      with (L + inject_Z (Z.of_nat (List.length l)) * L) by (cbn; ring).
    apply Qplus_le_compat; assumption.
Qed.

Lemma sumQ_lt x l L :
  x < L -> (forall y, In y l -> y <= L) ->
  sumQ (x :: l) < inject_Z (Z.of_nat (List.length (x :: l))) * L.
Proof.
  intros Hx Hl. pose proof (sumQ_le l L Hl) as Hs.
  cbn [sumQ fold_right List.length] in *.
  rewrite Nat2Z.inj_succ, <- Z.add_1_r, inject_Z_plus.
  setoid_replace ((inject_Z (Z.of_nat (List.length l)) + inject_Z 1) * L)
    with (L + inject_Z (Z.of_nat (List.length l)) * L) by (cbn; ring).
  apply Qplus_lt_le_compat; assumption.
Qed.

Lemma sumQ_pos l : Forall (Qlt 0) l -> l <> [] -> 0 < sumQ l.
Proof.
  induction l as [|x l IH]; intros Hp Hne; [congruence|].
  inversion Hp as [|? ? Hx Hr]; subst. cbn [sumQ fold_right].
  destruct l as [|y l].
  - cbn; lra.
  - assert (0 < sumQ (y :: l)) by (apply IH; [exact Hr | discriminate]).
    unfold sumQ in *; lra.
Qed.

Lemma in_skipn {A} n (l : list A) x : In x (skipn n l) -> In x l.
Proof.
  intros H; rewrite <- (firstn_skipn n l); apply in_or_app; right; exact H.
Qed.

Lemma StronglySorted_skipn {A} (R : A -> A -> Prop) n l :
  StronglySorted R l -> StronglySorted R (skipn n l).
Proof.
  revert l; induction n as [|n IH]; intros l H; [exact H|].
  destruct l as [|x l]; [constructor|]. apply IH. apply StronglySorted_inv in H; tauto.
Qed.

Lemma last_cons_cons {A} (x y : A) l d : last (x :: y :: l) d = last (y :: l) d.
Proof. reflexivity. Qed.

Lemma last_in {A} (l : list A) d : l <> [] -> In (last l d) l.
Proof.
  induction l as [|x [|y l] IH]; intros H; [congruence | left; reflexivity|].
  rewrite last_cons_cons; right; apply IH; discriminate.
Qed.

Lemma last_skipn {A} n (l : list A) d :
  (n < List.length l)%nat -> last (skipn n l) d = last l d.
Proof.
  revert l; induction n as [|n IH]; intros l H; [reflexivity|].
  destruct l as [|x [|y l]]; cbn in H; try lia.
  cbn [skipn]; rewrite last_cons_cons; apply IH; cbn; lia.
Qed.

Lemma nth_error_last {A} (l : list A) d :
  l <> [] -> nth_error l (List.length l - 1) = Some (last l d).
Proof.
  induction l as [|x [|y l] IH]; intros H; [congruence | reflexivity|].
  rewrite last_cons_cons, <- IH by discriminate.
  cbn [List.length]. replace (S (S (List.length l)) - 1)%nat
    with (S (S (List.length l) - 1)) by lia. reflexivity.
Qed.

(** In a strictly increasing list every element is at most the last one,
    and the first is below it. *)
Lemma sorted_le_last l d x :
  StronglySorted Qlt l -> In x l -> x <= last l d.
Proof.
  induction l as [|a l IH]; intros Hs Hin; [destruct Hin|].
  apply StronglySorted_inv in Hs as [Hs Ha].
  destruct l as [|b l].
  - destruct Hin as [<-|[]]; apply Qle_refl.
  - rewrite last_cons_cons. destruct Hin as [<-|Hin]; [|apply IH; assumption].
    apply Qlt_le_weak. rewrite Forall_forall in Ha; apply Ha, last_in; discriminate.
Qed.

Lemma sorted_hd_lt_last a b l d :
  StronglySorted Qlt (a :: b :: l) -> a < last (a :: b :: l) d.
Proof.
  intros Hs; apply StronglySorted_inv in Hs as [_ Ha].
  rewrite last_cons_cons. rewrite Forall_forall in Ha; apply Ha, last_in; discriminate.
Qed.

Lemma Qlt_bool_iff x y : Qlt_bool x y = true <-> x < y.
Proof.
  unfold Qlt_bool; rewrite negb_true_iff; split; intros H.
  - apply Qnot_le_lt; intros H'; apply Qle_bool_iff in H'; congruence.
  - destruct (Qle_bool y x) eqn:E; [|reflexivity].
    apply Qle_bool_iff in E; exfalso; exact (Qlt_not_le _ _ H E).
Qed.

Lemma Qeq_bool_pos q : 0 < q -> Qeq_bool q 0 = false.
Proof.
  intros H; destruct (Qeq_bool q 0) eqn:E; [|reflexivity].
  apply Qeq_bool_iff in E; rewrite E in H; discriminate H.
Qed.

Lemma map_c_length bs qs : map Bar.c bs = map Fin qs -> List.length bs = List.length qs.
Proof. intros H; rewrite <- (length_map Bar.c bs), H, length_map; reflexivity. Qed.

Lemma lastn_map_c bs qs k :
  map Bar.c bs = map Fin qs -> map Bar.c (lastn k bs) = map Fin (lastn k qs).
Proof.
  intros H; unfold lastn; rewrite (map_c_length _ _ H).
  rewrite <- skipn_map, H, skipn_map; reflexivity.
Qed.

Lemma closeSum_fin bs qs :
  map Bar.c bs = map Fin qs ->
  WeinsteinService.closeSum bs = Fin (fold_left Qplus qs 0).
Proof.
  unfold WeinsteinService.closeSum; generalize 0.
  revert qs; induction bs as [|b bs IH]; intros [|q qs] a H; try discriminate H.
  - reflexivity.
  - injection H as Hb H; cbn; rewrite Hb; apply IH, H.
Qed.

(** [((x - y) / y) * 100 > t] for positive [y]. *)
Lemma pct_gt (x y t : Q) :
  0 < y -> y * (100 + t) < x * 100 ->
  num_gt (num_mul (num_div (num_sub (Fin x) (Fin y)) (Fin y)) (numZ 100)) (Fin t) = true.
Proof.
  intros Hy H. unfold num_sub, num_gt; cbn [num_neg num_add num_div num_mul num_lt numZ].
  rewrite Qeq_bool_pos by exact Hy. apply Qlt_bool_iff.
  setoid_replace ((x + - y) / y * inject_Z 100) with ((x + - y) * 100 / y)
    by (field; intros E; rewrite E in Hy; discriminate Hy).
  apply Qlt_shift_div_l; [exact Hy|]. lra.
Qed.

Section RisingSeries.

Variables (bs : list Bar.bar) (qs : list Q).
Hypothesis Hc : map Bar.c bs = map Fin qs.
Hypothesis Hs : StronglySorted Qlt qs.
Hypothesis Hp : Forall (Qlt 0) qs.
Hypothesis Hn : (30 <= List.length bs)%nat.

Lemma rising_filter :
  filter (fun b => negb (isNaN (Bar.c b)) && num_gt (Bar.c b) (Fin 0)) bs = bs.
Proof.
  clear Hs Hn. revert qs Hc Hp; induction bs as [|b rest IH]; intros [|q qs'] H Hq;
    try discriminate H; [reflexivity|].
  injection H as Hb H. inversion Hq as [|? ? Hq0 Hr]; subst.
  cbn [filter]; rewrite Hb; cbn [isNaN negb andb num_gt num_lt].
  replace (Qlt_bool 0 q) with true by (symmetry; apply Qlt_bool_iff; exact Hq0).
  f_equal; apply (IH qs'); assumption.
Qed.

(** The window [lastn k] of at least two bars: its mean close lies
    strictly between 0 and the last close. *)
Lemma rising_window_mean k :
  (2 <= k <= List.length bs)%nat ->
  exists m,
    num_div (WeinsteinService.closeSum (lastn k bs)) (numZ (Z.of_nat k)) = Fin m /\
    0 < m /\ m < last qs 0.
Proof.
  intros Hk. pose proof (map_c_length _ _ Hc) as Hl.
  rewrite (closeSum_fin _ _ (lastn_map_c _ _ k Hc)).
  assert (Hk0 : 0 < inject_Z (Z.of_nat k)) by (unfold Qlt; cbn; lia).
  cbn [num_div numZ]. rewrite Qeq_bool_pos by exact Hk0.
  eexists; split; [reflexivity|].
  rewrite fold_left_Qplus.
  assert (Hw : List.length (lastn k qs) = k) by (apply lastn_length; lia).
  assert (Hlast : last (lastn k qs) 0 = last qs 0)
    by (unfold lastn; apply last_skipn; lia).
  assert (Hsw : StronglySorted Qlt (lastn k qs)) by (apply StronglySorted_skipn, Hs).
  assert (Hpw : Forall (Qlt 0) (lastn k qs)).
  { rewrite Forall_forall in *; intros x Hx; apply Hp, (in_skipn _ _ _ Hx). }
  destruct (lastn k qs) as [|a [|b r]] eqn:Ew; cbn in Hw; try lia.
  split.
  - apply Qlt_shift_div_l; [exact Hk0|].
    setoid_replace (0 * inject_Z (Z.of_nat k)) with 0 by ring.
    setoid_replace (0 + sumQ (a :: b :: r)) with (sumQ (a :: b :: r)) by ring.
    apply sumQ_pos; [exact Hpw | discriminate].
  - apply Qlt_shift_div_r; [exact Hk0|].
    setoid_replace (0 + sumQ (a :: b :: r)) with (sumQ (a :: b :: r)) by ring.
    rewrite <- Hlast, <- Hw, Qmult_comm.
    apply sumQ_lt; [apply sorted_hd_lt_last, Hsw|].
    intros y Hy; apply sorted_le_last; [exact Hsw | right; exact Hy].
Qed.

End RisingSeries.

Lemma rising_ma bs qs :
  map Bar.c bs = map Fin qs -> StronglySorted Qlt qs -> Forall (Qlt 0) qs ->
  (30 <= List.length bs)%nat ->
  exists m, WeinsteinService.calculate30WeekMA bs = Fin m /\ 0 < m /\ m < last qs 0.
Proof.
  intros Hc Hs Hp Hn. unfold WeinsteinService.calculate30WeekMA.
  replace (List.length bs <? 10)%nat with false by (symmetry; apply Nat.ltb_ge; lia).
  cbv zeta. rewrite lastn_length by lia.
  apply (rising_window_mean bs qs); auto; lia.
Qed.

Lemma rising_trend bs qs :
  map Bar.c bs = map Fin qs -> Forall (Qlt 0) qs -> (30 <= List.length bs)%nat ->
  hd 0 (lastn 30 qs) * (102 # 100) < last qs 0 ->
  exists t, WeinsteinService.analyzeTrend (lastn 30 bs) = Some t /\
            num_gt t (numZ 2) = true.
Proof.
  intros Hc Hp Hn Htr.
  pose proof (lastn_map_c _ _ 30 Hc) as Hw.
  assert (Hlb : List.length (lastn 30 bs) = 30%nat) by (apply lastn_length; lia).
  assert (Hlq : List.length (lastn 30 qs) = 30%nat)
    by (apply lastn_length; rewrite <- (map_c_length _ _ Hc); lia).
  assert (Hlast : last (lastn 30 qs) 0 = last qs 0)
    by (unfold lastn; apply last_skipn; rewrite <- (map_c_length _ _ Hc) in *; lia).
  assert (Hpw : Forall (Qlt 0) (lastn 30 qs)).
  { rewrite Forall_forall in *; intros x Hx; apply Hp, (in_skipn _ _ _ Hx). }
  unfold WeinsteinService.analyzeTrend. rewrite Hlb; cbn [Nat.ltb Nat.leb].
  destruct (at_lt (lastn 30 bs) 0) as [x Hx]; [lia|].
  destruct (at_lt (lastn 30 bs) 29) as [y Hy]; [lia|].
  replace (30 - 1)%nat with 29%nat by reflexivity.
  rewrite Hx, Hy; cbn [bind].
  destruct (lastn 30 qs) as [|s0 r] eqn:Ew; [discriminate Hlq|].
  inversion Hpw as [|? ? Hs0 _]; subst.
  assert (Hcx : Bar.c x = Fin s0).
  { pose proof (f_equal (fun l => nth_error l 0) Hw) as E; cbn beta in E.
    rewrite nth_error_map in E; unfold at_ in Hx; rewrite Hx in E.
    cbn in E; injection E as E; exact E. }
  assert (Hcy : Bar.c y = Fin (last qs 0)).
  { pose proof (f_equal (fun l => nth_error l 29) Hw) as E; cbn beta in E.
    rewrite nth_error_map, nth_error_map in E; unfold at_ in Hy; rewrite Hy in E.
    replace 29%nat with (List.length (s0 :: r) - 1)%nat in E by (rewrite Hlq; reflexivity).
    rewrite (nth_error_last _ 0) in E by discriminate.
    cbn [option_map] in E; injection E as E; rewrite E, <- Hlast; reflexivity. }
  rewrite Hcx, Hcy. cbn [truthy num_eqb negb orb].
  rewrite Qeq_bool_pos by exact Hs0; cbn [negb orb].
  eexists; split; [reflexivity|].
  change (numZ 2) with (Fin (inject_Z 2)).
  apply pct_gt; [exact Hs0|]. cbn [hd] in Htr.
  change (inject_Z 2) with (2 # 1). lra.
Qed.

Lemma updays_dominate (u d : nat) :
  (6 * d < 5 * u)%nat ->
  num_gt (numZ (Z.of_nat u)) (num_mul (numZ (Z.of_nat d)) (Fin (6 # 5))) = true.
Proof.
  intros H; unfold num_gt; cbn [num_mul numZ num_lt]. apply Qlt_bool_iff.
  unfold Qlt, inject_Z; cbn. lia.
Qed.

Lemma determineStage_not_stage2 cp ma pv tr vol tb :
  num_gt tr (numZ 2) = false ->
  WeinsteinService.determineStage cp ma pv tr vol tb <> WeinsteinService.Stage2.
Proof.
  intros H; unfold WeinsteinService.determineStage; cbv zeta.
  rewrite H, andb_false_r; cbn [andb].
  split_guards; discriminate.
Qed.

(** From five usable bars on, the stage is [determineStage] of the moving
    average, [priceVsMA], the trend and some volatility level. *)
Lemma analyzeStage_full cp bars :
  let vb := filter (fun b => negb (isNaN (Bar.c b)) && num_gt (Bar.c b) (Fin 0)) bars in
  let sb := orderBars vb in
  let ma := WeinsteinService.calculate30WeekMA sb in
  let pv := if num_gt ma (Fin 0)
            then num_mul (num_div (num_sub cp ma) ma) (numZ 100) else Fin 0 in
  let tb := lastn (Nat.min 30 (List.length sb)) sb in
  (5 <= List.length vb)%nat ->
  exists a tr vol,
    WeinsteinService.analyzeStage cp bars = Some a /\
    WeinsteinService.analyzeTrend tb = Some tr /\
    WeinsteinService.stage a = WeinsteinService.determineStage cp ma pv tr vol tb /\
    WeinsteinService.priceVsMA a = pv.
Proof.
  intros vb sb ma pv tb H.
  destruct (analyzeTrend_ok tb) as [tr Htr].
  unfold WeinsteinService.analyzeStage.
  destruct bars as [|b rest]; [cbn in H; lia|].
  fold vb. replace (List.length vb =? 0)%nat with false by (symmetry; apply Nat.eqb_neq; lia).
  replace (List.length vb <? 5)%nat with false by (symmetry; apply Nat.ltb_ge; lia).
  fold sb ma pv tb. rewrite Htr; cbn [bind].
  do 3 eexists; split; [reflexivity|]; split; [reflexivity|]; split; reflexivity.
Qed.

(** * Properties of the scorer and the stage classifier *)

(** C6: [CANSLIMService.calculateScore] and [WeinsteinService.analyzeStage]
    return a result record, never throwing, for every bar array (any
    numeric fields, absent or null elements included), current price,
    volume and fundamentals. *)
Theorem scorer_and_classifier_total cp hb vol fund fh hp bars :
  (exists r, fst (CANSLIMService.calculateScore cp hb vol fund fh hp) = Some r) /\
  (exists a, WeinsteinService.analyzeStage cp bars = Some a).
Proof.
  split; [|apply analyzeStage_ok].
  destruct (calculateScore_shape cp hb vol fund fh hp)
    as [[_ ->] | [-> | (vb & sc & _ & _ & ->)]]; eauto.
Qed.

(** C7: for every input, the returned score's [totalScore] is the sum of
    the seven factor scores, and the seven [maxScore]s sum to 85, which is
    [maxTotalScore]. *)
Theorem totalScore_is_sum cp hb vol fund fh hp :
  exists r, fst (CANSLIMService.calculateScore cp hb vol fund fh hp) = Some r /\
    let sc := scores r in
    totalScore r = (score (Scores.c sc) + score (Scores.a sc) + score (Scores.n sc)
                    + score (Scores.s sc) + score (Scores.l sc) + score (Scores.i sc)
                    + score (Scores.m sc))%Z /\
    (maxScore (Scores.c sc) + maxScore (Scores.a sc) + maxScore (Scores.n sc)
     + maxScore (Scores.s sc) + maxScore (Scores.l sc) + maxScore (Scores.i sc)
     + maxScore (Scores.m sc))%Z = 85%Z /\
    maxTotalScore r = 85%Z.
Proof.
  destruct (calculateScore_shape cp hb vol fund fh hp)
    as [[_ ->] | [-> | (vb & sc & _ & Hsc & ->)]].
  - eexists; split; [reflexivity|]; cbn; lia.
  - eexists; split; [reflexivity|]; cbn; lia.
  - eexists; split; [reflexivity|]; cbn zeta.
    destruct (computeScores_ok cp (orderBars vb) vol fund fh)
      as [sc' [Hsc' (Hc & Ha & Hn & Hs & Hl & Hi & Hm)]].
    rewrite Hsc in Hsc'; injection Hsc' as <-.
    destruct (factorOK_sum sc Hc Ha Hn Hs Hl Hi Hm) as [Hmax _].
    cbn [scores totalScore maxTotalScore]; rewrite Hmax.
    revert Hmax; unfold sumMax, sumScores; destruct sc; cbn. lia.
Qed.

(** C9: for an empty bar array the scorer returns grade F, total 0 and
    every factor described as "No historical data available" (leaving the
    caller's bars alone), and the stage classifier returns "Insufficient
    Data" with a zero moving average and a zero [priceVsMA]. *)
Theorem empty_input_results cp vol fund fh hp :
  (exists r, CANSLIMService.calculateScore cp [] vol fund fh hp = (Some r, hp) /\
     overallGrade r = Grade.F /\ totalScore r = 0%Z /\
     Forall (fun f => description f = "No historical data available")
       (CANSLIMService.values (scores r))) /\
  (exists a, WeinsteinService.analyzeStage cp [] = Some a /\
     WeinsteinService.stageName a = "Insufficient Data" /\
     WeinsteinService.thirtyWeekMA a = Fin 0 /\
     WeinsteinService.priceVsMA a = Fin 0).
Proof.
  split; eexists; split; try reflexivity; cbn; repeat split; repeat constructor.
Qed.




(** C2 (as the code has it): when the Finnhub metric carries a quarterly
    EPS growth figure and some bar is usable, factor C is
    [gradeEarningsGrowth] of that figure at max 15: 25.0% scores 14 of 15
    and 24.99% scores 11 of 15. *)
Theorem quarterly_growth_boundary cp hb vol fund fh hp fin mt g
  (Hok : existsb (okAt hp) hb = true)
  (Hf : CANSLIMService.finnhubFinancials fh = Some fin)
  (Hm : FinnhubBasicFinancials.metric fin = Some mt)
  (Hg : FinnhubMetric.epsGrowthQuarterlyYoy mt = Some g)
  (Hn : isNaN g = false) :
  exists r, fst (CANSLIMService.calculateScore cp hb vol fund fh hp) = Some r /\
    Scores.c (scores r) = CANSLIMService.gradeEarningsGrowth g "Quarterly EPS YoY" 15 /\
    (g = numZ 25 -> score (Scores.c (scores r)) = 14%Z /\
                    maxScore (Scores.c (scores r)) = 15%Z) /\
    (g = Fin (2499 # 100) -> score (Scores.c (scores r)) = 11%Z /\
                             maxScore (Scores.c (scores r)) = 15%Z).
Proof.
  destruct (calculateScore_full cp hb vol fund fh hp Hok) as (vb & sc & _ & Hsc & ->).
  pose proof (computeScores_c_finnhub _ _ _ _ _ _ _ Hf Hsc) as Hc.
  unfold CANSLIMService.scoreCurrentQuarterlyEarningsWithFinnhub in Hc.
  rewrite Hm in Hc; cbn [bind] in Hc; rewrite Hg, Hn in Hc.
  injection Hc as Hc.
  eexists; split; [reflexivity|]; cbn [scores]; rewrite <- Hc.
  split; [reflexivity|]; split; intros ->; split; vm_compute; reflexivity.
Qed.

Lemma quarterly_growth_boundary_witness :
  (existsb (okAt [bar_oc 9 10]) [0]%nat = true /\
   CANSLIMService.finnhubFinancials
     (Some (finnhubWithMetric (metricWithQuarterlyGrowth (numZ 25)))) =
     Some (FinnhubBasicFinancials.mk (Some (metricWithQuarterlyGrowth (numZ 25)))) /\
   FinnhubBasicFinancials.metric
     (FinnhubBasicFinancials.mk (Some (metricWithQuarterlyGrowth (numZ 25)))) =
     Some (metricWithQuarterlyGrowth (numZ 25)) /\
   FinnhubMetric.epsGrowthQuarterlyYoy (metricWithQuarterlyGrowth (numZ 25)) =
     Some (numZ 25) /\
   isNaN (numZ 25) = false) /\
  exists r, fst (CANSLIMService.calculateScore (Fin 10) [0]%nat (Fin 1000) None
                   (Some (finnhubWithMetric (metricWithQuarterlyGrowth (numZ 25))))
                   [bar_oc 9 10]) = Some r /\
    Scores.c (scores r) =
      CANSLIMService.gradeEarningsGrowth (numZ 25) "Quarterly EPS YoY" 15 /\
    (numZ 25 = numZ 25 -> score (Scores.c (scores r)) = 14%Z /\
                          maxScore (Scores.c (scores r)) = 15%Z) /\
    (numZ 25 = Fin (2499 # 100) -> score (Scores.c (scores r)) = 11%Z /\
                                   maxScore (Scores.c (scores r)) = 15%Z).
Proof.
  split; [repeat split; reflexivity|].
  apply (quarterly_growth_boundary (Fin 10) [0]%nat (Fin 1000) None
           (Some (finnhubWithMetric (metricWithQuarterlyGrowth (numZ 25))))
           [bar_oc 9 10]
           (FinnhubBasicFinancials.mk (Some (metricWithQuarterlyGrowth (numZ 25))))
           (metricWithQuarterlyGrowth (numZ 25)) (numZ 25)); reflexivity.
Defined.

(** C2 fails: a Finnhub quarterly EPS growth of exactly 25% gives factor C
    14 of 15 (not 15), and 24.99% gives 11 of 15 (not 12). *)
Lemma quarterly_growth_boundary_counterexample :
  option_map (fun r => (score (Scores.c (scores r)), maxScore (Scores.c (scores r))))
    (fst (CANSLIMService.calculateScore (Fin 10) [0]%nat (Fin 1000) None
            (Some (finnhubWithMetric (metricWithQuarterlyGrowth (numZ 25))))
            [bar_oc 9 10])) = Some (14%Z, 15%Z) /\
  option_map (fun r => (score (Scores.c (scores r)), maxScore (Scores.c (scores r))))
    (fst (CANSLIMService.calculateScore (Fin 10) [0]%nat (Fin 1000) None
            (Some (finnhubWithMetric (metricWithQuarterlyGrowth (Fin (2499 # 100)))))
            [bar_oc 9 10])) = Some (11%Z, 15%Z).
Proof. split; vm_compute; reflexivity. Qed.

(** C5 (as the code has it): [calculateScore] writes the repaired bar back
    into every caller bar that passes validation (a NaN open, high or low
    becomes the close, a NaN or negative volume becomes 0) and leaves the
    other caller bars as they were. *)
Theorem calculateScore_repairs_caller_bars cp hb vol fund fh hp x :
  nth_error (snd (CANSLIMService.calculateScore cp hb vol fund fh hp)) x =
  option_map (fun b => if existsb (Nat.eqb x) hb && usable b
                       then CANSLIMService.repairBar b else b)
             (nth_error hp x).
Proof.
  rewrite calculateScore_heap.
  destruct hb as [|y rest]; [|apply filterValid_heap].
  destruct (nth_error hp x); reflexivity.
Qed.

(** C5 fails: a caller bar with a NaN open, high, low and volume comes back
    with open, high and low set to its close and volume 0. *)
Lemma calculateScore_repairs_caller_bars_counterexample :
  snd (CANSLIMService.calculateScore (Fin 10) [0]%nat (Fin 1000) None None
         [Bar.mkBar NaN NaN NaN (Fin 10) NaN None]) =
  [Bar.mkBar (Fin 10) (Fin 10) (Fin 10) (Fin 10) (Fin 0) None].
Proof. vm_compute; reflexivity. Qed.

(** Without a usable slot, [calculateScore] returns the default score:
    "No historical data available" for an empty array, "No valid price
    data available" otherwise. *)
Lemma calculateScore_no_usable cp hb vol fund fh hp :
  existsb (okAt hp) hb = false ->
  fst (CANSLIMService.calculateScore cp hb vol fund fh hp) =
  Some (CANSLIMService.getDefaultScore
          (match hb with
           | [] => "No historical data available"
           | _ => "No valid price data available"
           end)).
Proof.
  intros Hno. pose proof (filterValid_kept hp hb) as Hk.
  assert (Hnil : filter (okAt hp) hb = []).
  { clear Hk. induction hb as [|x rest IH]; [reflexivity|].
    cbn in Hno |- *. destruct (okAt hp x); [discriminate|]. apply IH, Hno. }
  rewrite Hnil in Hk.
  unfold CANSLIMService.calculateScore.
  destruct hb as [|x rest]; [reflexivity|].
  destruct (CANSLIMService.filterValid hp (x :: rest)) as [hp' kept].
  cbn [snd] in Hk; subst kept. reflexivity.
Qed.

(** C8 (as the code has it): factor I is never computed from volumes; it
    is always 0 of 10.  With a usable bar it is the premium-API marker;
    without one the whole result is the default score, with the reason
    "No historical data available" for an empty array and "No valid price
    data available" otherwise. *)
Theorem factor_I_constant cp hb vol fund fh hp :
  exists r, fst (CANSLIMService.calculateScore cp hb vol fund fh hp) = Some r /\
    score (Scores.i (scores r)) = 0%Z /\ maxScore (Scores.i (scores r)) = 10%Z /\
    (existsb (okAt hp) hb = true ->
     Scores.i (scores r) =
       CANSLIMService.fs 0 10 "N/A - Institutional data requires premium API") /\
    (existsb (okAt hp) hb = false ->
     r = CANSLIMService.getDefaultScore
           (match hb with
            | [] => "No historical data available"
            | _ => "No valid price data available"
            end)).
Proof.
  destruct (existsb (okAt hp) hb) eqn:Hex.
  - pose proof (deref_nonempty hp hb Hex) as Hne.
    unfold CANSLIMService.calculateScore.
    destruct hb as [|x rest]; [discriminate|].
    destruct (CANSLIMService.filterValid hp (x :: rest)) as [hp' kept].
    cbn [fst snd] in *.
    destruct (CANSLIMService.deref hp' kept) as [|b vb]; [congruence|].
    destruct (computeScores_ok cp (orderBars (b :: vb)) vol fund fh) as [sc [Hsc _]].
    rewrite Hsc. cbn [bind ret].
    eexists; split; [reflexivity|]. cbn [scores].
    rewrite (computeScores_i _ _ _ _ _ _ Hsc).
    refine (conj eq_refl (conj eq_refl (conj (fun _ => eq_refl) _))); discriminate.
  - rewrite (calculateScore_no_usable cp hb vol fund fh hp Hex).
    eexists; split; [reflexivity|].
    refine (conj eq_refl (conj eq_refl (conj _ (fun _ => eq_refl)))); discriminate.
Qed.

(** C8 fails: twenty bars with ten days at 5000 shares against an average
    of 3000, and twenty bars of flat volume, get the same factor I, a
    zero-score "N/A" that is not marked as a volume proxy. *)
Lemma factor_I_constant_counterexample :
  count (fun b => num_gt (Bar.v b) (num_mul (Fin 3000) (Fin (3 # 2))))
    (volumeBars 5000) = 10%nat /\
  option_map (fun r => Scores.i (scores r))
    (fst (CANSLIMService.calculateScore (Fin 10) (seq 0 20) (Fin 5000) None None
            (volumeBars 5000))) =
  Some (CANSLIMService.fs 0 10 "N/A - Institutional data requires premium API") /\
  option_map (fun r => Scores.i (scores r))
    (fst (CANSLIMService.calculateScore (Fin 10) (seq 0 20) (Fin 5000) None None
            (volumeBars 1000))) =
  Some (CANSLIMService.fs 0 10 "N/A - Institutional data requires premium API").
Proof.
  split; [vm_compute; reflexivity|]. split; vm_compute; reflexivity.
Qed.

(** C10: with no Finnhub financials or shares and no Alpha Vantage
    earnings or shares, factors C, A, S and I score 0, the total is at most
    35 of 85, and the grade is D or F. *)
Theorem no_fundamentals_grade_D_or_F cp hb vol fund fh hp
  (Hf : CANSLIMService.finnhubFinancials fh = None)
  (Hfs : CANSLIMService.finnhubShares fh = None)
  (He : CANSLIMService.avEarnings fund = None)
  (Has : CANSLIMService.avShares fund = None) :
  exists r, fst (CANSLIMService.calculateScore cp hb vol fund fh hp) = Some r /\
    score (Scores.c (scores r)) = 0%Z /\ score (Scores.a (scores r)) = 0%Z /\
    score (Scores.s (scores r)) = 0%Z /\ score (Scores.i (scores r)) = 0%Z /\
    (totalScore r <= 35)%Z /\
    (overallGrade r = Grade.D \/ overallGrade r = Grade.F).
Proof.
  destruct (calculateScore_shape cp hb vol fund fh hp)
    as [[_ ->] | [-> | (vb & sc & _ & Hsc & ->)]].
  - eexists; split; [reflexivity|]; cbn; repeat split; auto; lia.
  - eexists; split; [reflexivity|]; cbn; repeat split; auto; lia.
  - destruct (computeScores_no_earnings _ _ _ _ _ _ Hf He Hsc) as [Hc Ha].
    pose proof (computeScores_no_shares _ _ _ _ _ _ Hfs Has Hsc) as Hs.
    pose proof (computeScores_i _ _ _ _ _ _ Hsc) as Hi.
    destruct (computeScores_ok cp (orderBars vb) vol fund fh) as [sc' [Hsc' Hok]].
    rewrite Hsc in Hsc'; injection Hsc' as <-.
    destruct Hok as (Hc' & Ha' & Hn & Hs' & Hl & Hi' & Hm).
    destruct (factorOK_sum sc Hc' Ha' Hn Hs' Hl Hi' Hm) as [Hmax _].
    assert (Ht : (0 <= sumScores sc <= 35)%Z).
    { revert Hn Hl Hm; unfold sumScores, factorOK; destruct sc; cbn in *.
      rewrite Hc, Ha, Hs, Hi; cbn; lia. }
    eexists; split; [reflexivity|]; cbn [scores totalScore overallGrade].
    rewrite Hc, Ha, Hs, Hi, Hmax; cbn [score CANSLIMService.fs].
    repeat split; try lia. apply gradeOf_low; exact Ht.
Qed.

Lemma no_fundamentals_grade_D_or_F_witness :
  (CANSLIMService.finnhubFinancials None = None /\
   CANSLIMService.finnhubShares None = None /\
   CANSLIMService.avEarnings None = None /\
   CANSLIMService.avShares None = None) /\
  exists r, fst (CANSLIMService.calculateScore (Fin 129) (seq 0 30) (Fin 1000) None None
                   barsRise) = Some r /\
    score (Scores.c (scores r)) = 0%Z /\ score (Scores.a (scores r)) = 0%Z /\
    score (Scores.s (scores r)) = 0%Z /\ score (Scores.i (scores r)) = 0%Z /\
    (totalScore r <= 35)%Z /\
    (overallGrade r = Grade.D \/ overallGrade r = Grade.F).
Proof.
  split; [repeat split; reflexivity|].
  apply no_fundamentals_grade_D_or_F; reflexivity.
Defined.

(** C3 (as the code has it): five bars closing at 10, 10.5, 11, 11.5 and
    12, without timestamps, are past the limited-data branch (1 to 4
    bars): the moving average needs 10 bars and is 0, so [priceVsMA] is 0
    and, whatever the current price, the result is "Stage 1: Accumulation
    (Estimated)". *)
Theorem five_bar_series_stage cp bs
  (Hc : map Bar.c bs = map Fin closes5)
  (Hup : forallb isUp bs = true)
  (Ht : Forall (fun b => Bar.t b = None) bs) :
  exists a, WeinsteinService.analyzeStage cp bs = Some a /\
    WeinsteinService.stage a = WeinsteinService.Stage1 /\
    WeinsteinService.stageName a = "Stage 1: Accumulation (Estimated)" /\
    WeinsteinService.priceVsMA a = Fin 0.
Proof.
  destruct bs as [|b1 [|b2 [|b3 [|b4 [|b5 [|b6 bs]]]]]]; try discriminate Hc.
  injection Hc as H1 H2 H3 H4 H5.
  inversion Ht as [|? ? Ht1 _]; subst.
  destruct b1 as [o1 h1 l1 c1 v1 t1], b2 as [o2 h2 l2 c2 v2 t2],
           b3 as [o3 h3 l3 c3 v3 t3], b4 as [o4 h4 l4 c4 v4 t4],
           b5 as [o5 h5 l5 c5 v5 t5].
  cbn in H1, H2, H3, H4, H5, Ht1; subst.
  eexists; split; [vm_compute; reflexivity|].
  repeat split; reflexivity.
Qed.

Lemma five_bar_series_stage_witness :
  (map Bar.c bars5 = map Fin closes5 /\ forallb isUp bars5 = true /\
   Forall (fun b => Bar.t b = None) bars5) /\
  exists a, WeinsteinService.analyzeStage (Fin 12) bars5 = Some a /\
    WeinsteinService.stage a = WeinsteinService.Stage1 /\
    WeinsteinService.stageName a = "Stage 1: Accumulation (Estimated)" /\
    WeinsteinService.priceVsMA a = Fin 0.
Proof.
  split; [split; [reflexivity | split; [reflexivity | repeat constructor]]|].
  apply five_bar_series_stage; [reflexivity | reflexivity | repeat constructor].
Defined.

(** C3 fails: called with the last close 12, the five bars give a Stage 1
    result without the "(Limited Data)" label and with [priceVsMA] 0. *)
Lemma five_bar_series_stage_counterexample :
  option_map (fun a => (WeinsteinService.stage a, WeinsteinService.stageName a,
                        WeinsteinService.priceVsMA a))
    (WeinsteinService.analyzeStage (Fin 12) bars5) =
  Some (WeinsteinService.Stage1, "Stage 1: Accumulation (Estimated)", Fin 0).
Proof. vm_compute; reflexivity. Qed.

(** C4 (as the code has it): a positive, strictly increasing close series
    of at least 30 bars, in the order [orderBars] keeps, is Stage 2 at its
    last close when, over the trailing 30 bars, the close rose by more than
    2% and up-days exceed 1.2 times the down-days. *)
Theorem increasing_series_stage2 bs qs
  (Hc : map Bar.c bs = map Fin qs)
  (Hs : Sorted Qlt qs)
  (Hp : Forall (Qlt 0) qs)
  (Hn : (30 <= List.length bs)%nat)
  (Ho : orderBars bs = bs)
  (Htr : hd 0 (lastn 30 qs) * (102 # 100) < last qs 0)
  (Hud : (6 * count isDown (lastn 30 bs) < 5 * count isUp (lastn 30 bs))%nat) :
  exists a, WeinsteinService.analyzeStage (Fin (last qs 0)) bs = Some a /\
    WeinsteinService.stage a = WeinsteinService.Stage2.
Proof.
  pose proof (Sorted_StronglySorted Qlt_trans Hs) as Hss.
  pose proof (rising_filter bs qs Hc Hp) as Hf.
  destruct (rising_ma bs qs Hc Hss Hp Hn) as (m & Hma & Hm0 & HmL).
  destruct (rising_trend bs qs Hc Hp Hn Htr) as (t & Ht & Ht2).
  pose proof (updays_dominate _ _ Hud) as Hup.
  assert (Hv0 : (List.length bs =? 0)%nat = false) by (apply Nat.eqb_neq; lia).
  assert (Hv5 : (List.length bs <? 5)%nat = false) by (apply Nat.ltb_ge; lia).
  assert (H30 : Nat.min 30 (List.length bs) = 30%nat) by lia.
  assert (Hpv : num_gt (num_mul (num_div (num_sub (Fin (last qs 0)) (Fin m)) (Fin m))
                          (numZ 100)) (Fin 0) = true)
    by (apply pct_gt; [exact Hm0 | lra]).
  assert (Hm : num_gt (Fin m) (Fin 0) = true)
    by (apply Qlt_bool_iff; exact Hm0).
  unfold WeinsteinService.analyzeStage.
  destruct bs as [|b0 rest]; [cbn in Hn; lia|].
  cbv beta iota zeta. rewrite Hf, Hv0, Hv5, Ho, Hma, H30, Ht, Hm.
  cbn [bind]. eexists; split; [reflexivity|]. cbn [WeinsteinService.stage].
  unfold WeinsteinService.determineStage; cbv zeta.
  rewrite Hpv, Ht2, Hup. reflexivity.
Qed.

Lemma increasing_series_stage2_witness :
  (map Bar.c barsRise = map Fin closesRise /\ Sorted Qlt closesRise /\
   Forall (Qlt 0) closesRise /\ (30 <= List.length barsRise)%nat /\
   orderBars barsRise = barsRise /\
   hd 0 (lastn 30 closesRise) * (102 # 100) < last closesRise 0 /\
   (6 * count isDown (lastn 30 barsRise) < 5 * count isUp (lastn 30 barsRise))%nat) /\
  exists a, WeinsteinService.analyzeStage (Fin (last closesRise 0)) barsRise = Some a /\
    WeinsteinService.stage a = WeinsteinService.Stage2.
Proof.
  assert (Hsort : Sorted Qlt closesRise).
  { unfold closesRise; cbn [seq map].
    repeat (apply Sorted_cons;
            [| first [apply HdRel_nil | apply HdRel_cons; reflexivity]]).
    apply Sorted_nil. }
  assert (Hpos : Forall (Qlt 0) closesRise).
  { unfold closesRise; cbn [seq map].
    repeat (apply Forall_cons; [reflexivity|]). apply Forall_nil. }
  assert (Htr : hd 0 (lastn 30 closesRise) * (102 # 100) < last closesRise 0).
  { unfold Qlt; vm_compute; reflexivity. }
  assert (Hmap : map Bar.c barsRise = map Fin closesRise).
  { unfold barsRise; rewrite map_map; reflexivity. }
  assert (Hlen : (30 <= List.length barsRise)%nat) by (vm_compute; lia).
  assert (Hord : orderBars barsRise = barsRise) by (vm_compute; reflexivity).
  assert (Hud : (6 * count isDown (lastn 30 barsRise) < 5 * count isUp (lastn 30 barsRise))%nat)
    by (vm_compute; lia).
  split.
  - split; [exact Hmap|]. split; [exact Hsort|]. split; [exact Hpos|].
    split; [exact Hlen|]. split; [exact Hord|]. split; [exact Htr|]. exact Hud.
  - apply (increasing_series_stage2 barsRise closesRise Hmap Hsort Hpos Hlen Hord Htr Hud).
Defined.

(** C4 fails: thirty up-day bars with strictly increasing closes from
    100.00 to 100.29, called at the last close, are not Stage 2: the trend
    over the trailing 30 bars is only 0.29%, not above 2%, although
    [priceVsMA] is positive. *)
Lemma increasing_series_stage2_counterexample :
  increasingb (map Bar.c inc30) = true /\ forallb isUp inc30 = true /\
  List.length inc30 = 30%nat /\
  exists a, WeinsteinService.analyzeStage (Fin (10029 # 100)) inc30 = Some a /\
    WeinsteinService.stage a <> WeinsteinService.Stage2 /\
    num_gt (WeinsteinService.priceVsMA a) (Fin 0) = true.
Proof.
  split; [vm_compute; reflexivity|]. split; [vm_compute; reflexivity|].
  split; [reflexivity|].
  destruct (analyzeStage_full (Fin (10029 # 100)) inc30) as (a & tr & vol & Ha & Htr & Hst & Hpv);
    [vm_compute; lia|].
  exists a; split; [exact Ha|]; split.
  - rewrite Hst; apply determineStage_not_stage2.
    vm_compute in Htr; injection Htr as <-; vm_compute; reflexivity.
  - rewrite Hpv; vm_compute; reflexivity.
Qed.

(** * Further properties of the scorer and the stage classifier *)

(** ** Helper lemmas *)

Lemma usable_repair b : usable (CANSLIMService.repairBar b) = usable b.
Proof. reflexivity. Qed.

Lemma okAt_filterValid hp hb y :
  okAt (fst (CANSLIMService.filterValid hp hb)) y = okAt hp y.
Proof.
  unfold okAt; rewrite filterValid_heap.
  destruct (nth_error hp y) as [b|]; cbn [option_map]; [|reflexivity].
  destruct (existsb (Nat.eqb y) hb && usable b); reflexivity.
Qed.

(** Validating the repaired bars again repairs nothing more. *)
Lemma filterValid_rerun hp hb :
  CANSLIMService.filterValid (fst (CANSLIMService.filterValid hp hb)) hb =
  CANSLIMService.filterValid hp hb.
Proof.
  apply injective_projections.
  - apply nth_error_ext; intros y. rewrite !filterValid_heap.
    destruct (nth_error hp y) as [b|]; cbn [option_map]; [|reflexivity].
    destruct (existsb (Nat.eqb y) hb) eqn:E1, (usable b) eqn:E2; cbn [andb];
      try rewrite usable_repair; rewrite ?E1, ?E2; cbn [andb];
      try rewrite repairBar_idem; reflexivity.
  - rewrite !filterValid_kept. apply filter_ext; intros y. apply okAt_filterValid.
Qed.

Lemma existsb_eqb_filter (p : loc -> bool) y l :
  existsb (Nat.eqb y) (filter p l) = existsb (Nat.eqb y) l && p y.
Proof.
  induction l as [|x l IH]; cbn; [reflexivity|].
  destruct (Nat.eqb y x) eqn:Eyx.
  - apply Nat.eqb_eq in Eyx; subst.
    destruct (p x) eqn:Px; cbn; rewrite ?Nat.eqb_refl, ?IH, ?Px; cbn;
      rewrite ?andb_false_r; reflexivity.
  - destruct (p x); cbn; rewrite ?Eyx; cbn; exact IH.
Qed.

Lemma filter_idem {A} (p : A -> bool) l : filter p (filter p l) = filter p l.
Proof.
  induction l as [|x l IH]; cbn; [reflexivity|].
  destruct (p x) eqn:E; cbn; rewrite ?E, IH; reflexivity.
Qed.

Lemma filterValid_usable_only hp hb :
  CANSLIMService.filterValid hp (filter (okAt hp) hb) = CANSLIMService.filterValid hp hb.
Proof.
  apply injective_projections.
  - apply nth_error_ext; intros y. rewrite !filterValid_heap.
    destruct (nth_error hp y) as [b|] eqn:Eb; cbn [option_map]; [|reflexivity].
    rewrite existsb_eqb_filter.
    replace (okAt hp y) with (usable b) by (unfold okAt; rewrite Eb; reflexivity).
    destruct (existsb (Nat.eqb y) hb), (usable b); reflexivity.
  - rewrite !filterValid_kept; apply filter_idem.
Qed.

(** The validity test of [analyzeStage] is [usable]. *)
Lemma usable_valid b :
  usable b = negb (isNaN (Bar.c b)) && num_gt (Bar.c b) (Fin 0).
Proof.
  unfold usable, num_gt, num_le; destruct (Bar.c b) as [q| | |]; cbn [isNaN negb orb andb];
    try reflexivity.
  destruct (num_lt (Fin 0) (Fin q)); reflexivity.
Qed.

Lemma filter_valid_usable l :
  filter (fun b => negb (isNaN (Bar.c b)) && num_gt (Bar.c b) (Fin 0)) l = filter usable l.
Proof. apply filter_ext; intros b; symmetry; apply usable_valid. Qed.

Lemma insertBar_perm x l : Permutation (insertBar x l) (x :: l).
Proof.
  induction l as [|y l IH]; cbn; [reflexivity|].
  destruct (compareBarTimes x y <? 0)%Z; [reflexivity|].
  rewrite IH. apply perm_swap.
Qed.

Lemma sortBars_perm_acc l acc :
  Permutation (fold_left (fun acc b => insertBar b acc) l acc) (l ++ acc).
Proof.
  revert acc; induction l as [|x l IH]; intros acc; cbn; [reflexivity|].
  rewrite IH, insertBar_perm. symmetry; apply Permutation_middle.
Qed.

Lemma num_lt_asym x y : num_lt x y = true -> num_lt y x = false.
Proof.
  destruct x as [x| | |], y as [y| | |]; cbn [num_lt]; try discriminate; try reflexivity.
  intros H. apply Qlt_bool_iff in H. destruct (Qlt_bool y x) eqn:E; [|reflexivity].
  apply Qlt_bool_iff in E. exfalso; apply (Qlt_irrefl x); apply Qlt_trans with y; assumption.
Qed.

(** From five usable bars on: the whole analysis record. *)
Lemma analyzeStage_main cp bars :
  let vb := filter usable bars in
  let sb := orderBars vb in
  let ma := WeinsteinService.calculate30WeekMA sb in
  let pv := if num_gt ma (Fin 0)
            then num_mul (num_div (num_sub cp ma) ma) (numZ 100) else Fin 0 in
  let variance := WeinsteinService.calculateVolatilityVariance sb in
  let vol := if WeinsteinService.volatilityAbove variance 3 then WeinsteinService.High
             else if WeinsteinService.volatilityAbove variance (3 # 2)
                  then WeinsteinService.Medium else WeinsteinService.Low in
  let tb := lastn (Nat.min 30 (List.length sb)) sb in
  (5 <= List.length vb)%nat ->
  exists tr,
    WeinsteinService.analyzeTrend tb = Some tr /\
    WeinsteinService.analyzeStage cp bars =
      Some {| WeinsteinService.stage := WeinsteinService.determineStage cp ma pv tr vol tb;
              WeinsteinService.stageName :=
                WeinsteinService.getStageName
                  (WeinsteinService.determineStage cp ma pv tr vol tb)
                ++ (if (150 <=? List.length sb)%nat then "" else " (Estimated)");
              WeinsteinService.description :=
                WeinsteinService.getStageDescription
                  (WeinsteinService.determineStage cp ma pv tr vol tb) pv
                  (WeinsteinService.getTrendStrength tr) (List.length sb);
              WeinsteinService.thirtyWeekMA := ma;
              WeinsteinService.currentPrice := cp;
              WeinsteinService.priceVsMA := pv;
              WeinsteinService.trendStrength := WeinsteinService.getTrendStrength tr;
              WeinsteinService.volatility := vol |}.
Proof.
  intros vb sb ma pv variance vol tb H.
  destruct (analyzeTrend_ok tb) as [tr Htr]. exists tr; split; [exact Htr|].
  unfold WeinsteinService.analyzeStage.
  destruct bars as [|b rest]; [cbn in H; lia|].
  rewrite filter_valid_usable. fold vb.
  replace (List.length vb =? 0)%nat with false by (symmetry; apply Nat.eqb_neq; lia).
  replace (List.length vb <? 5)%nat with false by (symmetry; apply Nat.ltb_ge; lia).
  fold sb ma pv tb. rewrite Htr; cbn [bind]. reflexivity.
Qed.

Lemma determineStage_spec cp ma pv tr vol tb :
  (WeinsteinService.determineStage cp ma pv tr vol tb = WeinsteinService.Stage2 ->
     num_gt pv (Fin 0) = true) /\
  (WeinsteinService.determineStage cp ma pv tr vol tb = WeinsteinService.Stage4 ->
     num_lt pv (Fin 0) = true) /\
  (WeinsteinService.determineStage cp ma pv tr vol tb = WeinsteinService.Stage3 ->
     vol = WeinsteinService.High).
Proof.
  unfold WeinsteinService.determineStage; cbv zeta.
  split; [|split]; intros Hs;
    repeat match type of Hs with
    | context [if ?b then _ else _] => let E := fresh "E" in destruct b eqn:E
    end; try discriminate Hs;
    repeat match goal with H : _ && _ = true |- _ => apply andb_true_iff in H as [? ?] end;
    try assumption; destruct vol; first [reflexivity | discriminate].
Qed.

(** The grade of a total of [t] points out of 85. *)
Lemma gradeOf_points (t : Z) :
  (0 <= t <= 85)%Z ->
  CANSLIMService.gradeOf (num_mul (num_div (numZ t) (numZ 85)) CANSLIMService.Q100) =
  (if (73 <=? t)%Z then Grade.A else if (60 <=? t)%Z then Grade.B
   else if (47 <=? t)%Z then Grade.C else if (34 <=? t)%Z then Grade.D else Grade.F).
Proof.
  intros Ht.
  assert (Hk : exists k, t = Z.of_nat k /\ (k <= 85)%nat)
    by (exists (Z.to_nat t); split; lia).
  destruct Hk as [k [-> Hk]].
  do 86 (destruct k as [|k]; [vm_compute; reflexivity|]). lia.
Qed.

Lemma sumQ_ge l L :
  (forall x, In x l -> L <= x) -> inject_Z (Z.of_nat (List.length l)) * L <= sumQ l.
Proof.
  induction l as [|x l IH]; intros H; cbn [sumQ fold_right List.length].
  - unfold Qle; cbn; lia.
  - rewrite Nat2Z.inj_succ, <- Z.add_1_r, inject_Z_plus.
    assert (Hx : L <= x) by (apply H; left; reflexivity).
    assert (Hl : inject_Z (Z.of_nat (List.length l)) * L <= sumQ l)
      by (apply IH; intros y Hy; apply H; right; exact Hy).
    unfold sumQ in *; cbn [fold_right].
    setoid_replace ((inject_Z (Z.of_nat (List.length l)) + inject_Z 1) * L)
      with (L + inject_Z (Z.of_nat (List.length l)) * L) by (cbn; ring).
    apply Qplus_le_compat; assumption.
Qed.

Lemma computeScores_finnhub_bars cp sb1 sb2 vol1 vol2 fund1 fund2 fh fin sc1 sc2 :
  CANSLIMService.finnhubFinancials fh = Some fin ->
  CANSLIMService.computeScores cp sb1 vol1 fund1 fh = Some sc1 ->
  CANSLIMService.computeScores cp sb2 vol2 fund2 fh = Some sc2 ->
  Scores.c sc1 = Scores.c sc2 /\ Scores.a sc1 = Scores.a sc2 /\
  Scores.n sc1 = Scores.n sc2 /\ Scores.l sc1 = Scores.l sc2 /\
  Scores.m sc1 = Scores.m sc2.
Proof.
  unfold CANSLIMService.computeScores; intros Hf H1 H2.
  rewrite Hf in H1, H2. js_inv H1. js_inv H2. cbn [Scores.c Scores.a Scores.n Scores.l Scores.m].
  refine (conj _ (conj _ (conj _ (conj _ _)))); congruence.
Qed.

(** ** Helper lemmas for flat series, tiers and the bars that are scored *)

Lemma usable_fin_pos b c : usable b = true -> Bar.c b = Fin c -> 0 < c.
Proof.
  unfold usable, num_le; intros Hu Hc; rewrite Hc in Hu; cbn [isNaN orb negb num_lt] in Hu.
  destruct (Qlt_bool 0 c) eqn:E; [apply Qlt_bool_iff, E | discriminate Hu].
Qed.

Lemma Qlt_bool_zero_r k v : v == 0 -> 0 <= k -> Qlt_bool k v = false.
Proof.
  intros Hv Hk; destruct (Qlt_bool k v) eqn:E; [|reflexivity].
  apply Qlt_bool_iff in E; rewrite Hv in E; lra.
Qed.

Lemma Qlt_bool_zero_l k v : v == 0 -> k <= 0 -> Qlt_bool v k = false.
Proof.
  intros Hv Hk; destruct (Qlt_bool v k) eqn:E; [|reflexivity].
  apply Qlt_bool_iff in E; rewrite Hv in E; lra.
Qed.

Lemma fold_add_zero {A} (f : A -> num) l a :
  (forall x, In x l -> exists q, f x = Fin q /\ q == 0) -> a == 0 ->
  exists s, fold_left (fun acc x => num_add acc (f x)) l (Fin a) = Fin s /\ s == 0.
Proof.
  revert a; induction l as [|x l IH]; intros a Hl Ha; cbn [fold_left]; [eauto|].
  destruct (Hl x (or_introl eq_refl)) as [q [Hq Hq0]]. rewrite Hq; cbn [num_add].
  apply IH; [intros y Hy; apply Hl; right; exact Hy|]. rewrite Ha, Hq0; reflexivity.
Qed.

Lemma step_flat c : 0 < c ->
  exists q, num_div (num_sub (Fin c) (Fin c)) (Fin c) = Fin q /\ q == 0.
Proof.
  intros Hc; cbn [num_sub num_neg num_add num_div]. rewrite Qeq_bool_pos by exact Hc.
  eexists; split; [reflexivity|]. rewrite Qplus_opp_r. unfold Qdiv; apply Qmult_0_l.
Qed.

Lemma stepReturns_flat c prev rest :
  0 < c -> Bar.c prev = Fin c -> Forall (fun b => Bar.c b = Fin c) rest ->
  forall r, In r (WeinsteinService.stepReturns prev rest) -> exists q, r = Fin q /\ q == 0.
Proof.
  intros Hc; revert prev; induction rest as [|b rest IH]; intros prev Hp Hr r Hin;
    [destruct Hin|].
  inversion Hr as [|? ? Hb Hr']; subst.
  destruct Hin as [<-|Hin]; [rewrite Hp, Hb; apply step_flat, Hc|].
  apply (IH b Hb Hr' r Hin).
Qed.

Lemma stepReturns_length prev rest :
  List.length (WeinsteinService.stepReturns prev rest) = List.length rest.
Proof.
  revert prev; induction rest as [|b rest IH]; intros prev; cbn; [reflexivity|].
  rewrite IH; reflexivity.
Qed.

Lemma Forall_lastn {A} (P : A -> Prop) k l : Forall P l -> Forall P (lastn k l).
Proof.
  rewrite !Forall_forall; intros H x Hx; apply H, (in_skipn _ _ _ Hx).
Qed.

(** The variance of the returns of a series with one close is 0. *)
Lemma variance_flat bs c :
  0 < c -> (5 <= List.length bs)%nat -> Forall (fun b => Bar.c b = Fin c) bs ->
  exists v, WeinsteinService.calculateVolatilityVariance bs = Fin v /\ v == 0.
Proof.
  intros Hc H5 Hall. unfold WeinsteinService.calculateVolatilityVariance.
  replace (List.length bs <? 5)%nat with false by (symmetry; apply Nat.ltb_ge; lia).
  cbv zeta.
  assert (Hrl : (5 <= List.length (lastn (Nat.min 20 (List.length bs)) bs))%nat)
    by (rewrite lastn_length; lia).
  pose proof (Forall_lastn _ (Nat.min 20 (List.length bs)) bs Hall) as Hrb.
  revert Hrl Hrb. generalize (lastn (Nat.min 20 (List.length bs)) bs).
  intros rb Hrl Hrb.
  destruct rb as [|b0 rest]; [cbn in Hrl; lia|].
  inversion Hrb as [|? ? Hb0 Hrest]; subst.
  assert (Hret : forall r, In r (WeinsteinService.simpleReturns (b0 :: rest)) ->
                 exists q, r = Fin q /\ q == 0).
  { intros r [<-|Hin]; [exists 0; split; reflexivity|].
    apply (stepReturns_flat c b0 rest Hc Hb0 Hrest r Hin). }
  assert (Hn0 : 0 < inject_Z (Z.of_nat
            (List.length (WeinsteinService.simpleReturns (b0 :: rest))))).
  { cbn [WeinsteinService.simpleReturns List.length]. rewrite stepReturns_length.
    unfold Qlt; cbn; lia. }
  revert Hret Hn0. generalize (WeinsteinService.simpleReturns (b0 :: rest)).
  intros rs Hret Hn0.
  destruct (fold_add_zero (fun x => x) rs 0 (fun x Hx => Hret x Hx) (Qeq_refl 0))
    as [s [Hs Hs0]].
  assert (Hs' : fold_left num_add rs (Fin 0) = Fin s) by exact Hs.
  rewrite Hs'. unfold numZ; cbn [num_div]. rewrite Qeq_bool_pos by exact Hn0.
  destruct (fold_add_zero
              (fun r => num_mul (num_sub r (Fin (s / inject_Z (Z.of_nat (List.length rs)))))
                                (num_sub r (Fin (s / inject_Z (Z.of_nat (List.length rs))))))
              rs 0) as [t [Ht Ht0]].
  { intros x Hx. destruct (Hret x Hx) as [q [-> Hq]].
    cbn [num_sub num_neg num_add num_mul]. eexists; split; [reflexivity|].
    rewrite Hq, Hs0. unfold Qdiv; ring. }
  { reflexivity. }
  rewrite Ht. cbn [num_div]. rewrite Qeq_bool_pos by exact Hn0.
  eexists; split; [reflexivity|]. rewrite Ht0. unfold Qdiv; apply Qmult_0_l.
Qed.

Lemma trend_flat tb c :
  0 < c -> Forall (fun b => Bar.c b = Fin c) tb ->
  exists t, WeinsteinService.analyzeTrend tb = Some (Fin t) /\ t == 0.
Proof.
  intros Hc Hall. unfold WeinsteinService.analyzeTrend.
  destruct (List.length tb <? 10)%nat eqn:Hl; [exists 0; split; reflexivity|].
  apply Nat.ltb_ge in Hl.
  destruct (at_lt tb 0) as [x Hx]; [lia|].
  destruct (at_lt tb (List.length tb - 1)) as [y Hy]; [lia|].
  rewrite Hx, Hy; cbn [bind].
  rewrite Forall_forall in Hall.
  rewrite (Hall x (nth_error_In _ _ Hx)), (Hall y (nth_error_In _ _ Hy)).
  cbn [truthy num_eqb]. rewrite Qeq_bool_pos by exact Hc. cbn [negb orb].
  cbn [num_sub num_neg num_add num_div numZ num_mul]. rewrite Qeq_bool_pos by exact Hc.
  eexists; split; [reflexivity|]. rewrite Qplus_opp_r. unfold Qdiv; ring.
Qed.

Lemma num_le_trans a b c :
  num_le a b = true -> num_le b c = true -> num_le a c = true.
Proof.
  destruct a as [a| | |], b as [b| | |], c as [c| | |]; cbn [num_le num_lt negb];
    try discriminate; try reflexivity.
  rewrite !negb_true_iff; intros H1 H2.
  destruct (Qlt_bool c a) eqn:E; [|reflexivity].
  apply Qlt_bool_iff in E.
  destruct (Qlt_bool b a) eqn:E1; [discriminate H1|].
  destruct (Qlt_bool c b) eqn:E2; [discriminate H2|].
  exfalso. assert (Hba : ~ b < a) by (intros X; apply Qlt_bool_iff in X; congruence).
  assert (Hcb : ~ c < b) by (intros X; apply Qlt_bool_iff in X; congruence).
  apply Qnot_lt_le in Hba, Hcb. lra.
Qed.

Lemma js_round_mono x y : x <= y -> (js_round x <= js_round y)%Z.
Proof. intros H; unfold js_round; apply Qfloor_resp_le; lra. Qed.

Lemma js_round_le_max (mx : Z) (k : Q) :
  (0 <= mx)%Z -> 0 <= k -> k <= 1 -> (js_round (inject_Z mx * k) <= mx)%Z.
Proof.
  intros Hm Hk0 Hk1. unfold js_round.
  assert (Hm' : 0 <= inject_Z mx) by (change 0 with (inject_Z 0); rewrite <- Zle_Qle; exact Hm).
  assert (Hf : inject_Z (Qfloor (inject_Z mx * k + (1 # 2))) < inject_Z (mx + 1)).
  { apply Qle_lt_trans with (inject_Z mx * k + (1 # 2)); [apply Qfloor_le|].
    rewrite inject_Z_plus. assert (inject_Z mx * k <= inject_Z mx) by nra.
    change (inject_Z 1) with 1. lra. }
  rewrite <- Zlt_Qlt in Hf. lia.
Qed.

Ltac tier_contra Hle :=
  match goal with
  | E1 : num_ge ?g1 ?t = true, E2 : num_ge ?g2 ?t = false |- _ =>
      exfalso; unfold num_ge in E1, E2;
      rewrite (num_le_trans _ _ _ E1 Hle) in E2; discriminate E2
  end.

(** The usable bars [calculateScore] scores, after their repair. *)
Lemma calculateScore_full_vb cp hb vol fund fh hp :
  existsb (okAt hp) hb = true ->
  exists sc,
     CANSLIMService.computeScores cp
       (orderBars (CANSLIMService.deref (fst (CANSLIMService.filterValid hp hb))
                                        (snd (CANSLIMService.filterValid hp hb))))
       vol fund fh = Some sc /\
     fst (CANSLIMService.calculateScore cp hb vol fund fh hp) =
       Some {| overallGrade :=
                 CANSLIMService.gradeOf
                   (num_mul (num_div (numZ (sumScores sc)) (numZ (sumMax sc)))
                      CANSLIMService.Q100);
               scores := sc; totalScore := sumScores sc; maxTotalScore := sumMax sc |}.
Proof.
  intros Hex. pose proof (deref_nonempty hp hb Hex) as Hne.
  unfold CANSLIMService.calculateScore.
  destruct hb as [|x rest]; [discriminate|].
  destruct (CANSLIMService.filterValid hp (x :: rest)) as [hp' kept].
  cbn [fst snd] in *.
  destruct (CANSLIMService.deref hp' kept) as [|b vb]; [congruence|].
  destruct (computeScores_ok cp (orderBars (b :: vb)) vol fund fh) as [sc [Hsc _]].
  exists sc; split; [exact Hsc|]. rewrite Hsc; reflexivity.
Qed.

(** ** Helper lemmas for the time order *)

Lemma timeLe_total a b : timed a -> timed b -> (compareBarTimes a b <? 0)%Z = false ->
  timeLe b a.
Proof.
  intros [x Hx] [y Hy] H; unfold timeLe, compareBarTimes in *; rewrite Hx, Hy in *.
  apply Z.ltb_ge in H; lia.
Qed.

Lemma timeLe_trans a b c : timed a -> timed b -> timed c ->
  timeLe a b -> timeLe b c -> timeLe a c.
Proof.
  intros [x Hx] [y Hy] [z Hz]; unfold timeLe, compareBarTimes; rewrite Hx, Hy, Hz; lia.
Qed.

Lemma insertBar_hd y x l : timed x -> timed y -> HdRel timeLe y l ->
  (compareBarTimes x y <? 0)%Z = false -> HdRel timeLe y (insertBar x l).
Proof.
  intros Hx Hy Hh Hc. destruct l as [|z l]; cbn.
  - constructor. apply timeLe_total; assumption.
  - destruct (compareBarTimes x z <? 0)%Z.
    + constructor. apply timeLe_total; assumption.
    + inversion Hh; subst. constructor; assumption.
Qed.

Lemma insertBar_sorted x l : timed x -> Forall timed l -> Sorted timeLe l ->
  Sorted timeLe (insertBar x l).
Proof.
  intros Hx; induction l as [|y l IH]; intros Hl Hs; cbn; [repeat constructor|].
  inversion Hl as [|? ? Hy Hl']; subst.
  destruct (compareBarTimes x y <? 0)%Z eqn:Hc.
  - constructor; [exact Hs|]. constructor. unfold timeLe; apply Z.ltb_lt in Hc; lia.
  - apply Sorted_inv in Hs as [Hs Hh]. constructor; [apply IH; assumption|].
    apply insertBar_hd; assumption.
Qed.

Lemma sortBars_sorted_acc l acc : Forall timed l -> Forall timed acc ->
  Sorted timeLe acc -> Sorted timeLe (fold_left (fun acc b => insertBar b acc) l acc).
Proof.
  revert acc; induction l as [|x l IH]; intros acc Hl Ha Hs; cbn; [exact Hs|].
  inversion Hl as [|? ? Hx Hl']; subst. apply IH; [exact Hl'| |].
  - rewrite Forall_forall in *. intros b Hb.
    apply (Permutation_in _ (insertBar_perm x acc)) in Hb.
    destruct Hb as [<-|Hb]; [exact Hx | apply Ha, Hb].
  - apply insertBar_sorted; assumption.
Qed.

Lemma forallb_hasTimestamp bars : Forall timed bars -> forallb hasTimestamp bars = true.
Proof.
  intros H; apply forallb_forall; intros b Hb. rewrite Forall_forall in H.
  destruct (H b Hb) as [ms Hms]; unfold hasTimestamp; rewrite Hms; reflexivity.
Qed.

Lemma orderBars_sorted_timed bars : Forall timed bars -> Sorted timeLe (orderBars bars).
Proof.
  intros H; unfold orderBars; rewrite forallb_hasTimestamp by exact H.
  apply sortBars_sorted_acc; [exact H | constructor | constructor].
Qed.

Lemma sorted_strongly l : Forall timed l -> Sorted timeLe l -> StronglySorted timeLe l.
Proof.
  induction l as [|a l IH]; intros Ht Hs; [constructor|].
  inversion Ht as [|? ? Ha Hl]; subst. apply Sorted_inv in Hs as [Hs Hh].
  constructor; [apply IH; assumption|].
  specialize (IH Hl Hs). clear Hs. rewrite Forall_forall in Hl.
  destruct l as [|b l]; [constructor|].
  inversion Hh; subst. inversion IH as [|? ? _ Hb]; subst.
  constructor; [assumption|]. rewrite Forall_forall in Hb |- *. intros c Hc.
  apply (timeLe_trans a b c); [exact Ha | apply Hl; left; reflexivity |
                               apply Hl; right; exact Hc | assumption | apply Hb, Hc].
Qed.

Lemma sorted_perm_eq l1 l2 :
  Forall timed l1 -> NoDup (map Bar.t l1) ->
  StronglySorted timeLe l1 -> StronglySorted timeLe l2 -> Permutation l1 l2 -> l1 = l2.
Proof.
  revert l2; induction l1 as [|a l1 IH]; intros l2 Ht Hn H1 H2 Hp.
  - symmetry; apply Permutation_nil, Hp.
  - destruct l2 as [|b l2]; [apply Permutation_sym, Permutation_nil in Hp; discriminate|].
    apply StronglySorted_inv in H1 as [H1 F1]. apply StronglySorted_inv in H2 as [H2 F2].
    inversion Ht as [|? ? Ha Ht']; subst. cbn in Hn. inversion Hn as [|? ? Hna Hn']; subst.
    assert (Hab : a = b).
    { assert (Ia : In a (b :: l2)) by (apply (Permutation_in _ Hp); left; reflexivity).
      assert (Ib : In b (a :: l1)) by (apply (Permutation_in _ (Permutation_sym Hp)); left; reflexivity).
      destruct Ia as [->|Ia]; [reflexivity|]. destruct Ib as [<-|Ib]; [reflexivity|].
      exfalso. rewrite Forall_forall in F1, F2, Ht'.
      pose proof (F1 b Ib) as Lab. pose proof (F2 a Ia) as Lba.
      destruct Ha as [x Hx]. destruct (Ht' b Ib) as [y Hy].
      unfold timeLe, compareBarTimes in Lab, Lba; rewrite Hx, Hy in Lab, Lba.
      apply Hna. rewrite Hx. replace x with y by lia. rewrite <- Hy.
      apply in_map, Ib. }
    subst b. f_equal. apply IH; try assumption. apply Permutation_cons_inv in Hp; exact Hp.
Qed.

Lemma Permutation_filter_bool {A} (f : A -> bool) l1 l2 :
  Permutation l1 l2 -> Permutation (filter f l1) (filter f l2).
Proof.
  induction 1 as [|x l1 l2 _ IH|x y l|l1 l2 l3 _ IH1 _ IH2]; cbn.
  - constructor.
  - destruct (f x); [constructor|]; exact IH.
  - destruct (f x), (f y); try constructor; reflexivity.
  - etransitivity; eassumption.
Qed.

(** ** Helper lemmas for the Alpha Vantage-only and price-only versions *)

Lemma scoreCurrentQuarterlyEarnings_ok bars :
  exists f, CANSLIMService.scoreCurrentQuarterlyEarnings bars = Some f /\ factorOK 15 f.
Proof.
  unfold CANSLIMService.scoreCurrentQuarterlyEarnings.
  set (rb := lastn _ _). js_solve.
Qed.

Lemma scoreAnnualEarningsGrowth_ok bars :
  exists f, CANSLIMService.scoreAnnualEarningsGrowth bars = Some f /\ factorOK 15 f.
Proof.
  unfold CANSLIMService.scoreAnnualEarningsGrowth.
  set (rb := lastn _ _). js_solve.
Qed.

Lemma scoreInstitutionalSponsorship_ok vol bars :
  exists f, CANSLIMService.scoreInstitutionalSponsorship vol bars = Some f /\ factorOK 10 f.
Proof.
  unfold CANSLIMService.scoreInstitutionalSponsorship. split_guards; factor_done.
Qed.

Lemma av_computeScores_ok cp sb vol fund :
  exists sc, CANSLIMServiceAV.computeScores cp sb vol fund = Some sc /\
    factorOK 15 (Scores.c sc) /\ factorOK 15 (Scores.a sc) /\
    factorOK 15 (Scores.n sc) /\ factorOK 10 (Scores.s sc) /\
    factorOK 10 (Scores.l sc) /\ factorOK 10 (Scores.i sc) /\
    factorOK 10 (Scores.m sc).
Proof.
  unfold CANSLIMServiceAV.computeScores.
  assert (Hca : (exists c,
      match CANSLIMService.avEarnings fund with
      | Some e => CANSLIMService.scoreCurrentQuarterlyEarningsWithData e
      | None => CANSLIMService.scoreCurrentQuarterlyEarnings sb
      end = Some c /\ factorOK 15 c) /\
      (exists a,
      match CANSLIMService.avEarnings fund with
      | Some e => CANSLIMService.scoreAnnualEarningsGrowthWithData e
      | None => CANSLIMService.scoreAnnualEarningsGrowth sb
      end = Some a /\ factorOK 15 a)).
  { destruct (CANSLIMService.avEarnings fund);
      [apply scoreWithData_ok |
       split; [apply scoreCurrentQuarterlyEarnings_ok | apply scoreAnnualEarningsGrowth_ok]]. }
  destruct Hca as [[c [-> Hc]] [a [-> Ha]]].
  destruct (scoreNewHighs_ok cp sb) as [n [-> Hn]].
  cbn [bind].
  assert (Hs : exists s,
      match CANSLIMService.avShares fund with
      | Some so => CANSLIMService.scoreSupplyAndDemandWithData vol sb so
      | None => CANSLIMService.scoreSupplyAndDemand vol sb
      end = Some s /\ factorOK 10 s).
  { destruct (CANSLIMService.avShares fund);
      [apply scoreSupplyAndDemandWithData_ok | apply scoreSupplyAndDemand_ok]. }
  destruct Hs as [s [-> Hs]]; cbn [bind].
  destruct (scoreLeaderOrLaggard_ok sb) as [l [-> Hl]].
  destruct (scoreInstitutionalSponsorship_ok vol sb) as [i [-> Hi]].
  destruct (scoreMarketDirection_ok sb) as [m [-> Hm]].
  cbn; eexists; split; [reflexivity|].
  repeat split; try assumption; try apply Hc; try apply Ha; try apply Hn;
    try apply Hs; try apply Hl; try apply Hi; try apply Hm; cbn; lia.
Qed.

(** The three ways the Alpha Vantage-only [calculateScore] returns. *)
Lemma av_calculateScore_shape cp hb vol fund hp :
  (fst (CANSLIMServiceAV.calculateScore cp hb vol fund hp) =
     Some (CANSLIMService.getDefaultScore "No historical data available")) \/
  (fst (CANSLIMServiceAV.calculateScore cp hb vol fund hp) =
     Some (CANSLIMService.getDefaultScore "No valid price data available")) \/
  (exists vb sc,
     CANSLIMServiceAV.computeScores cp (orderBars vb) vol fund = Some sc /\
     fst (CANSLIMServiceAV.calculateScore cp hb vol fund hp) =
       Some {| overallGrade :=
                 CANSLIMService.gradeOf
                   (num_mul (num_div (numZ (sumScores sc)) (numZ (sumMax sc)))
                      CANSLIMService.Q100);
               scores := sc; totalScore := sumScores sc; maxTotalScore := sumMax sc |}).
Proof.
  unfold CANSLIMServiceAV.calculateScore.
  destruct hb as [|x rest]; [left; reflexivity|right].
  destruct (CANSLIMService.filterValid hp (x :: rest)) as [hp' kept].
  destruct (CANSLIMService.deref hp' kept) as [|b vb] eqn:Ev; [left; reflexivity|right].
  destruct (av_computeScores_ok cp (orderBars (b :: vb)) vol fund) as [sc [Hsc _]].
  exists (b :: vb), sc; split; [exact Hsc|].
  cbn [fst]; rewrite Hsc; reflexivity.
Qed.

(** With a usable bar, the Alpha Vantage-only [calculateScore] scores the
    repaired usable bars in time order. *)
Lemma av_calculateScore_full_vb cp hb vol fund hp :
  existsb (okAt hp) hb = true ->
  exists sc,
     CANSLIMServiceAV.computeScores cp
       (orderBars (CANSLIMService.deref (fst (CANSLIMService.filterValid hp hb))
                                        (snd (CANSLIMService.filterValid hp hb))))
       vol fund = Some sc /\
     fst (CANSLIMServiceAV.calculateScore cp hb vol fund hp) =
       Some {| overallGrade :=
                 CANSLIMService.gradeOf
                   (num_mul (num_div (numZ (sumScores sc)) (numZ (sumMax sc)))
                      CANSLIMService.Q100);
               scores := sc; totalScore := sumScores sc; maxTotalScore := sumMax sc |}.
Proof.
  intros Hex. pose proof (deref_nonempty hp hb Hex) as Hne.
  unfold CANSLIMServiceAV.calculateScore.
  destruct hb as [|x rest]; [discriminate|].
  destruct (CANSLIMService.filterValid hp (x :: rest)) as [hp' kept].
  cbn [fst snd] in *.
  destruct (CANSLIMService.deref hp' kept) as [|b vb]; [congruence|].
  destruct (av_computeScores_ok cp (orderBars (b :: vb)) vol fund) as [sc [Hsc _]].
  exists sc; split; [exact Hsc|]. rewrite Hsc; reflexivity.
Qed.

(** On the same bars, without Finnhub data, the two [computeScores] agree
    on N, L and M, on S when Alpha Vantage has a share count, and on C and
    A when it has earnings. *)
Lemma av_fund_scores cp sb vol fund sc1 sc2 :
  CANSLIMServiceAV.computeScores cp sb vol fund = Some sc1 ->
  CANSLIMService.computeScores cp sb vol fund None = Some sc2 ->
  Scores.n sc1 = Scores.n sc2 /\ Scores.l sc1 = Scores.l sc2 /\
  Scores.m sc1 = Scores.m sc2 /\
  (CANSLIMService.avShares fund <> None -> Scores.s sc1 = Scores.s sc2) /\
  (CANSLIMService.avEarnings fund <> None ->
   Scores.c sc1 = Scores.c sc2 /\ Scores.a sc1 = Scores.a sc2).
Proof.
  unfold CANSLIMServiceAV.computeScores, CANSLIMService.computeScores; intros H1 H2.
  change (CANSLIMService.finnhubFinancials None) with (@None FinnhubBasicFinancials.t) in H2.
  change (CANSLIMService.finnhubShares None) with (@None num) in H2.
  cbn beta iota in H2.
  destruct (CANSLIMService.avEarnings fund) as [e|];
    destruct (CANSLIMService.avShares fund) as [so|];
    js_inv H1; js_inv H2;
    cbn [Scores.c Scores.a Scores.n Scores.s Scores.l Scores.m];
    (split; [congruence|]); (split; [congruence|]); (split; [congruence|]);
    (split; intros X; [|split]); first [congruence | exfalso; apply X; reflexivity].
Qed.

Lemma deref_okAt hp l :
  Forall (fun x => okAt hp x = true) l ->
  Forall (fun b => usable b = true) (CANSLIMService.deref hp l) /\
  List.length (CANSLIMService.deref hp l) = List.length l.
Proof.
  induction l as [|x l IH]; intros Hl; [split; [constructor | reflexivity]|].
  inversion Hl as [|? ? Hx Hl']; subst. destruct (IH Hl') as [IH1 IH2].
  unfold okAt in Hx. unfold CANSLIMService.deref; cbn [flat_map].
  destruct (nth_error hp x) as [b|]; [|discriminate].
  fold (CANSLIMService.deref hp l). cbn [app List.length].
  split; [constructor; assumption | f_equal; exact IH2].
Qed.

(** The bars [calculateScore] scores are usable, one per usable slot. *)
Lemma deref_filterValid hp hb :
  Forall (fun b => usable b = true)
    (CANSLIMService.deref (fst (CANSLIMService.filterValid hp hb))
                          (snd (CANSLIMService.filterValid hp hb))) /\
  List.length (CANSLIMService.deref (fst (CANSLIMService.filterValid hp hb))
                                    (snd (CANSLIMService.filterValid hp hb))) =
  List.length (filter (okAt hp) hb).
Proof.
  rewrite <- (filterValid_kept hp hb). apply deref_okAt.
  rewrite filterValid_kept. apply Forall_forall. intros x Hx.
  rewrite okAt_filterValid. apply filter_In in Hx; apply Hx.
Qed.

Lemma usable_start b :
  usable b = true -> (negb (truthy (Bar.c b)) || num_eqb (Bar.c b) (Fin 0))%bool = false.
Proof.
  intros Hu. destruct (Bar.c b) as [q| | |] eqn:Ec.
  - pose proof (usable_fin_pos b q Hu Ec) as Hq. cbn [truthy num_eqb].
    rewrite Qeq_bool_pos by exact Hq. reflexivity.
  - reflexivity.
  - unfold usable in Hu; rewrite Ec in Hu; discriminate Hu.
  - unfold usable in Hu; rewrite Ec in Hu; discriminate Hu.
Qed.

(** ** Properties *)

(** Every factor of a [calculateScore] result lies between 0 and its
    maximum, and the maxima are 15, 15, 15, 10, 10, 10 and 10. *)
Theorem calculateScore_factor_bounds cp hb vol fund fh hp :
  exists r, fst (CANSLIMService.calculateScore cp hb vol fund fh hp) = Some r /\
    factorOK 15 (Scores.c (scores r)) /\ factorOK 15 (Scores.a (scores r)) /\
    factorOK 15 (Scores.n (scores r)) /\ factorOK 10 (Scores.s (scores r)) /\
    factorOK 10 (Scores.l (scores r)) /\ factorOK 10 (Scores.i (scores r)) /\
    factorOK 10 (Scores.m (scores r)).
Proof.
  destruct (calculateScore_shape cp hb vol fund fh hp)
    as [[_ ->] | [-> | (vb & sc & _ & Hsc & ->)]].
  1,2: eexists; split; [reflexivity|]; unfold factorOK; cbn;
       refine (conj _ (conj _ (conj _ (conj _ (conj _ (conj _ _)))))); split; lia.
  destruct (computeScores_ok cp (orderBars vb) vol fund fh) as [sc' [Hsc' Hok]].
  rewrite Hsc in Hsc'; injection Hsc' as <-.
  eexists; split; [reflexivity|]; exact Hok.
Qed.

(** The grade of a [calculateScore] result in points out of 85: A from 73,
    B from 60, C from 47, D from 34, F below. *)
Theorem calculateScore_grade_points cp hb vol fund fh hp :
  exists r, fst (CANSLIMService.calculateScore cp hb vol fund fh hp) = Some r /\
    overallGrade r =
      (if (73 <=? totalScore r)%Z then Grade.A
       else if (60 <=? totalScore r)%Z then Grade.B
       else if (47 <=? totalScore r)%Z then Grade.C
       else if (34 <=? totalScore r)%Z then Grade.D else Grade.F).
Proof.
  destruct (calculateScore_shape cp hb vol fund fh hp)
    as [[_ ->] | [-> | (vb & sc & _ & Hsc & ->)]].
  1,2: eexists; split; reflexivity.
  destruct (computeScores_ok cp (orderBars vb) vol fund fh)
    as [sc' [Hsc' (Hc & Ha & Hn & Hs & Hl & Hi & Hm)]].
  rewrite Hsc in Hsc'; injection Hsc' as <-.
  destruct (factorOK_sum sc Hc Ha Hn Hs Hl Hi Hm) as [Hmax Hsum].
  eexists; split; [reflexivity|]. cbn [overallGrade totalScore].
  rewrite Hmax. apply gradeOf_points, Hsum.
Qed.

(** Calling [calculateScore] again on the bars it has repaired gives the
    same result and changes no bar. *)
Theorem calculateScore_rerun cp hb vol fund fh hp :
  let hp1 := snd (CANSLIMService.calculateScore cp hb vol fund fh hp) in
  CANSLIMService.calculateScore cp hb vol fund fh hp1 =
  (fst (CANSLIMService.calculateScore cp hb vol fund fh hp), hp1).
Proof.
  cbv zeta. rewrite calculateScore_heap.
  destruct hb as [|x rest]; [reflexivity|].
  unfold CANSLIMService.calculateScore. cbn beta iota.
  rewrite filterValid_rerun.
  destruct (CANSLIMService.filterValid hp (x :: rest)) as [hp' kept].
  cbn [fst]. destruct (CANSLIMService.deref hp' kept); reflexivity.
Qed.

(** Dropping the unusable slots of the bar array (null elements and bars
    whose close is not a positive number) changes neither the result of
    [calculateScore] nor its effect on the caller's bars, as long as one
    usable bar is left. *)
Theorem calculateScore_ignores_unusable cp hb vol fund fh hp
  (H : existsb (okAt hp) hb = true) :
  CANSLIMService.calculateScore cp (filter (okAt hp) hb) vol fund fh hp =
  CANSLIMService.calculateScore cp hb vol fund fh hp.
Proof.
  pose proof (filterValid_usable_only hp hb) as Hf.
  destruct hb as [|x rest]; [discriminate H|].
  destruct (filter (okAt hp) (x :: rest)) as [|y r] eqn:Ef.
  - exfalso. apply existsb_exists in H as [z [Hz Hok]].
    assert (Hin : In z (filter (okAt hp) (x :: rest))) by (apply filter_In; auto).
    rewrite Ef in Hin; destruct Hin.
  - unfold CANSLIMService.calculateScore. rewrite Hf. reflexivity.
Qed.

Lemma calculateScore_ignores_unusable_witness :
  existsb (okAt [bar_oc 9 10; Bar.mkBar NaN NaN NaN NaN NaN None]) [1; 0; 1]%nat = true /\
  CANSLIMService.calculateScore (Fin 10)
    (filter (okAt [bar_oc 9 10; Bar.mkBar NaN NaN NaN NaN NaN None]) [1; 0; 1]%nat)
    (Fin 1000) None None [bar_oc 9 10; Bar.mkBar NaN NaN NaN NaN NaN None] =
  CANSLIMService.calculateScore (Fin 10) [1; 0; 1]%nat (Fin 1000) None None
    [bar_oc 9 10; Bar.mkBar NaN NaN NaN NaN NaN None].
Proof.
  split; [reflexivity|].
  apply calculateScore_ignores_unusable; reflexivity.
Defined.

(** [analyzeStage] on a bar array with a usable bar gives the same result
    as on its usable bars alone (close a positive number). *)
Theorem analyzeStage_ignores_unusable cp bars
  (H : existsb usable bars = true) :
  WeinsteinService.analyzeStage cp (filter usable bars) =
  WeinsteinService.analyzeStage cp bars.
Proof.
  destruct bars as [|b0 rest]; [discriminate H|].
  pose proof (filter_idem usable (b0 :: rest)) as Hi.
  destruct (filter usable (b0 :: rest)) as [|y r] eqn:Ef.
  - exfalso; apply existsb_exists in H as [z [Hz Hu]].
    assert (Hin : In z (filter usable (b0 :: rest))) by (apply filter_In; auto).
    rewrite Ef in Hin; destruct Hin.
  - unfold WeinsteinService.analyzeStage.
    rewrite !filter_valid_usable, Hi, Ef. reflexivity.
Qed.

Lemma analyzeStage_ignores_unusable_witness :
  existsb usable [Bar.mkBar NaN NaN NaN NaN NaN None; bar_oc 9 10; bar_oc 1 0] = true /\
  WeinsteinService.analyzeStage (Fin 11)
    (filter usable [Bar.mkBar NaN NaN NaN NaN NaN None; bar_oc 9 10; bar_oc 1 0]) =
  WeinsteinService.analyzeStage (Fin 11)
    [Bar.mkBar NaN NaN NaN NaN NaN None; bar_oc 9 10; bar_oc 1 0].
Proof.
  split; [reflexivity|].
  apply analyzeStage_ignores_unusable; reflexivity.
Defined.

(** With one to four usable bars, [analyzeStage] compares the current
    price with their mean close: it reports Stage 2 "(Limited Data)" when
    [priceVsMA] is above 0 and Stage 4 "(Limited Data)" otherwise, with the
    mean as its moving average and low volatility. *)
Theorem analyzeStage_limited_data cp bars
  (H : (1 <= List.length (filter usable bars) <= 4)%nat) :
  let vb := filter usable bars in
  let avg := num_div (WeinsteinService.closeSum vb) (numZ (Z.of_nat (List.length vb))) in
  exists a, WeinsteinService.analyzeStage cp bars = Some a /\
    WeinsteinService.thirtyWeekMA a = avg /\
    WeinsteinService.volatility a = WeinsteinService.Low /\
    ((WeinsteinService.stage a = WeinsteinService.Stage2 /\
      WeinsteinService.stageName a = "Stage 2: Advancing (Limited Data)" /\
      num_gt (WeinsteinService.priceVsMA a) (Fin 0) = true) \/
     (WeinsteinService.stage a = WeinsteinService.Stage4 /\
      WeinsteinService.stageName a = "Stage 4: Declining (Limited Data)" /\
      num_gt (WeinsteinService.priceVsMA a) (Fin 0) = false)).
Proof.
  destruct bars as [|b0 rest]; [cbn in H; lia|].
  intros vb avg. unfold WeinsteinService.analyzeStage.
  rewrite filter_valid_usable. fold vb.
  replace (List.length vb =? 0)%nat with false
    by (symmetry; apply Nat.eqb_neq; unfold vb; lia).
  replace (List.length vb <? 5)%nat with true by (symmetry; apply Nat.ltb_lt; unfold vb; lia).
  fold avg. eexists; split; [reflexivity|].
  cbn [WeinsteinService.thirtyWeekMA WeinsteinService.volatility
       WeinsteinService.stage WeinsteinService.stageName WeinsteinService.priceVsMA].
  split; [reflexivity|]. split; [reflexivity|].
  match goal with |- context [if num_gt ?p (Fin 0) then WeinsteinService.Stage2 else _] =>
    destruct (num_gt p (Fin 0)) eqn:E end.
  - left; split; [reflexivity|]; split; reflexivity.
  - right; split; [reflexivity|]; split; reflexivity.
Qed.

Lemma analyzeStage_limited_data_witness :
  (1 <= List.length (filter usable [bar_oc 9 10; bar_oc 10 11]) <= 4)%nat /\
  let vb := filter usable [bar_oc 9 10; bar_oc 10 11] in
  let avg := num_div (WeinsteinService.closeSum vb) (numZ (Z.of_nat (List.length vb))) in
  exists a, WeinsteinService.analyzeStage (Fin 12) [bar_oc 9 10; bar_oc 10 11] = Some a /\
    WeinsteinService.thirtyWeekMA a = avg /\
    WeinsteinService.volatility a = WeinsteinService.Low /\
    ((WeinsteinService.stage a = WeinsteinService.Stage2 /\
      WeinsteinService.stageName a = "Stage 2: Advancing (Limited Data)" /\
      num_gt (WeinsteinService.priceVsMA a) (Fin 0) = true) \/
     (WeinsteinService.stage a = WeinsteinService.Stage4 /\
      WeinsteinService.stageName a = "Stage 4: Declining (Limited Data)" /\
      num_gt (WeinsteinService.priceVsMA a) (Fin 0) = false)).
Proof.
  assert (H : (1 <= List.length (filter usable [bar_oc 9 10; bar_oc 10 11]) <= 4)%nat)
    by (cbn; lia).
  split; [exact H|]. exact (analyzeStage_limited_data (Fin 12) _ H).
Defined.

(** [orderBars] only reorders: its result is a permutation of its input. *)
Theorem orderBars_perm bars : Permutation (orderBars bars) bars.
Proof.
  unfold orderBars. destruct (forallb hasTimestamp bars); [|reflexivity].
  unfold sortBars. rewrite sortBars_perm_acc, app_nil_r. reflexivity.
Qed.

(** With five to nine usable bars, the moving average and the trend need
    ten bars and are 0: [analyzeStage] reports a zero moving average, a
    zero [priceVsMA], a weak trend, and Stage 1 or Stage 3, never Stage 2
    or Stage 4. *)
Theorem analyzeStage_short_series cp bars
  (H : (5 <= List.length (filter usable bars) <= 9)%nat) :
  exists a, WeinsteinService.analyzeStage cp bars = Some a /\
    WeinsteinService.thirtyWeekMA a = Fin 0 /\ WeinsteinService.priceVsMA a = Fin 0 /\
    WeinsteinService.trendStrength a = WeinsteinService.Weak /\
    (WeinsteinService.stage a = WeinsteinService.Stage1 \/
     WeinsteinService.stage a = WeinsteinService.Stage3).
Proof.
  destruct (analyzeStage_main cp bars) as [tr [Htr Ha]]; [lia|].
  eexists; split; [exact Ha|].
  cbn [WeinsteinService.thirtyWeekMA WeinsteinService.priceVsMA
       WeinsteinService.trendStrength WeinsteinService.stage].
  assert (Hl : List.length (orderBars (filter usable bars)) =
               List.length (filter usable bars))
    by (apply Permutation_length, orderBars_perm).
  assert (Hma : WeinsteinService.calculate30WeekMA (orderBars (filter usable bars)) = Fin 0).
  { unfold WeinsteinService.calculate30WeekMA.
    replace (List.length (orderBars (filter usable bars)) <? 10)%nat with true
      by (symmetry; apply Nat.ltb_lt; lia).
    reflexivity. }
  assert (Htr0 : tr = Fin 0).
  { unfold WeinsteinService.analyzeTrend in Htr.
    rewrite lastn_length in Htr by lia.
    replace (Nat.min 30 (List.length (orderBars (filter usable bars))) <? 10)%nat
      with true in Htr by (symmetry; apply Nat.ltb_lt; lia).
    injection Htr as <-; reflexivity. }
  rewrite Hma, Htr0.
  split; [reflexivity|]. split; [reflexivity|]. split; [reflexivity|].
  unfold WeinsteinService.determineStage; cbv zeta.
  change (num_gt (Fin 0) (Fin 0)) with false.
  change (num_lt (Fin 0) (Fin 0)) with false.
  cbn [andb].
  match goal with |- context [if ?b then WeinsteinService.Stage3 else _] =>
    destruct b end; [right|left]; reflexivity.
Qed.

Lemma analyzeStage_short_series_witness :
  (5 <= List.length (filter usable bars5) <= 9)%nat /\
  exists a, WeinsteinService.analyzeStage (Fin 100) bars5 = Some a /\
    WeinsteinService.thirtyWeekMA a = Fin 0 /\ WeinsteinService.priceVsMA a = Fin 0 /\
    WeinsteinService.trendStrength a = WeinsteinService.Weak /\
    (WeinsteinService.stage a = WeinsteinService.Stage1 \/
     WeinsteinService.stage a = WeinsteinService.Stage3).
Proof.
  assert (H : (5 <= List.length (filter usable bars5) <= 9)%nat) by (vm_compute; lia).
  split; [exact H|]. exact (analyzeStage_short_series (Fin 100) bars5 H).
Defined.

(** Whatever the input, a Stage 2 result has a positive [priceVsMA], a
    Stage 4 result has no positive [priceVsMA], and a Stage 3 result
    reports high volatility. *)
Theorem analyzeStage_stage_consistent cp bars :
  exists a, WeinsteinService.analyzeStage cp bars = Some a /\
    (WeinsteinService.stage a = WeinsteinService.Stage2 ->
       num_gt (WeinsteinService.priceVsMA a) (Fin 0) = true) /\
    (WeinsteinService.stage a = WeinsteinService.Stage4 ->
       num_gt (WeinsteinService.priceVsMA a) (Fin 0) = false) /\
    (WeinsteinService.stage a = WeinsteinService.Stage3 ->
       WeinsteinService.volatility a = WeinsteinService.High).
Proof.
  destruct (le_lt_dec 5 (List.length (filter usable bars))) as [H5|H5].
  - destruct (analyzeStage_main cp bars) as [tr [_ Ha]]; [exact H5|].
    eexists; split; [exact Ha|].
    cbn [WeinsteinService.stage WeinsteinService.priceVsMA WeinsteinService.volatility].
    match goal with |- context [WeinsteinService.determineStage ?a ?b ?c ?d ?e ?f] =>
      destruct (determineStage_spec a b c d e f) as (H2 & H4 & H3) end.
    split; [exact H2|]. split; [|exact H3].
    intros Hs; apply H4 in Hs. apply num_lt_asym, Hs.
  - destruct (Nat.eq_dec (List.length (filter usable bars)) 0) as [H0|H0].
    + destruct bars as [|b0 rest].
      * eexists; split; [reflexivity|]; cbn.
        split; [|split]; intros Hs; discriminate Hs.
      * unfold WeinsteinService.analyzeStage. rewrite filter_valid_usable, H0.
        eexists; split; [reflexivity|]; cbn.
        split; [|split]; intros Hs; discriminate Hs.
    + destruct (analyzeStage_limited_data cp bars) as
        (a & Ha & _ & _ & [(Hs & _ & Hp) | (Hs & _ & Hp)]); [lia| |];
        exists a; split; try exact Ha; rewrite Hs;
        (split; [|split]); intros E; try discriminate E; exact Hp.
Qed.

(** Bars before the trailing 150 do not affect [calculate30WeekMA]. *)
Theorem calculate30WeekMA_window pre bs
  (H : (150 <= List.length bs)%nat) :
  WeinsteinService.calculate30WeekMA (pre ++ bs) = WeinsteinService.calculate30WeekMA bs.
Proof.
  unfold WeinsteinService.calculate30WeekMA. rewrite length_app.
  replace (List.length pre + List.length bs <? 10)%nat with false
    by (symmetry; apply Nat.ltb_ge; lia).
  replace (List.length bs <? 10)%nat with false by (symmetry; apply Nat.ltb_ge; lia).
  replace (Nat.min 150 (List.length pre + List.length bs)) with 150%nat by lia.
  replace (Nat.min 150 (List.length bs)) with 150%nat by lia.
  assert (E : lastn 150 (pre ++ bs) = lastn 150 bs).
  { unfold lastn. rewrite length_app, skipn_app.
    replace (List.length pre + List.length bs - 150 - List.length pre)%nat
      with (List.length bs - 150)%nat by lia.
    rewrite (skipn_all2 pre) by lia. reflexivity. }
  rewrite E. reflexivity.
Qed.

Lemma calculate30WeekMA_window_witness :
  (150 <= List.length (flatBars 150 10))%nat /\
  WeinsteinService.calculate30WeekMA (bars5 ++ flatBars 150 10) =
  WeinsteinService.calculate30WeekMA (flatBars 150 10).
Proof.
  assert (H : (150 <= List.length (flatBars 150 10))%nat)
    by (unfold flatBars; rewrite repeat_length; lia).
  split; [exact H|]. exact (calculate30WeekMA_window bars5 _ H).
Defined.

(** With ten bars or more whose closes are numbers between [lo] and [hi],
    [calculate30WeekMA] is a number between [lo] and [hi]. *)
Theorem calculate30WeekMA_bounds bs qs lo hi
  (Hc : map Bar.c bs = map Fin qs)
  (Hb : Forall (fun q => lo <= q /\ q <= hi) qs)
  (Hn : (10 <= List.length bs)%nat) :
  exists m, WeinsteinService.calculate30WeekMA bs = Fin m /\ lo <= m /\ m <= hi.
Proof.
  unfold WeinsteinService.calculate30WeekMA.
  replace (List.length bs <? 10)%nat with false by (symmetry; apply Nat.ltb_ge; lia).
  cbv zeta.
  assert (Hk : (10 <= Nat.min 150 (List.length bs) <= List.length bs)%nat) by lia.
  revert Hk. generalize (Nat.min 150 (List.length bs)). intros k Hk.
  rewrite lastn_length by lia.
  rewrite (closeSum_fin _ _ (lastn_map_c _ _ k Hc)).
  assert (Hk0 : 0 < inject_Z (Z.of_nat k)) by (unfold Qlt; cbn; lia).
  cbn [num_div numZ]. rewrite Qeq_bool_pos by exact Hk0.
  eexists; split; [reflexivity|].
  rewrite fold_left_Qplus.
  assert (Hw : List.length (lastn k qs) = k)
    by (apply lastn_length; rewrite <- (map_c_length _ _ Hc); lia).
  assert (Hin : forall x, In x (lastn k qs) -> lo <= x /\ x <= hi).
  { intros x Hx; rewrite Forall_forall in Hb; apply Hb, (in_skipn _ _ _ Hx). }
  pose proof (sumQ_le (lastn k qs) hi (fun x Hx => proj2 (Hin x Hx))) as Hle.
  pose proof (sumQ_ge (lastn k qs) lo (fun x Hx => proj1 (Hin x Hx))) as Hge.
  rewrite Hw in Hle, Hge.
  setoid_replace (0 + sumQ (lastn k qs)) with (sumQ (lastn k qs)) by ring.
  split.
  - apply Qle_shift_div_l; [exact Hk0|]. rewrite Qmult_comm. exact Hge.
  - apply Qle_shift_div_r; [exact Hk0|]. rewrite Qmult_comm. exact Hle.
Qed.

Lemma calculate30WeekMA_bounds_witness :
  (map Bar.c (flatBars 10 10) = map Fin (repeat 10 10) /\
   Forall (fun q => 10 <= q /\ q <= 10) (repeat 10 10) /\
   (10 <= List.length (flatBars 10 10))%nat) /\
  exists m, WeinsteinService.calculate30WeekMA (flatBars 10 10) = Fin m /\
    10 <= m /\ m <= 10.
Proof.
  assert (H1 : map Bar.c (flatBars 10 10) = map Fin (repeat 10 10)) by reflexivity.
  assert (H2 : Forall (fun q => 10 <= q /\ q <= 10) (repeat 10 10)).
  { apply Forall_forall; intros x Hx; apply repeat_spec in Hx; subst.
    split; apply Qle_refl. }
  assert (H3 : (10 <= List.length (flatBars 10 10))%nat)
    by (unfold flatBars; rewrite repeat_length; lia).
  split; [split; [exact H1 | split; [exact H2 | exact H3]]|].
  exact (calculate30WeekMA_bounds _ _ _ _ H1 H2 H3).
Defined.

(** With Finnhub financials carrying a metric object, factors C, A, N, L
    and M of [calculateScore] depend neither on the bars (once one is
    usable), nor on the volume, nor on the Alpha Vantage data. *)
Theorem finnhub_factors_ignore_bars cp hb1 hb2 vol1 vol2 fund1 fund2 fh hp1 hp2 fin
  (Hf : CANSLIMService.finnhubFinancials fh = Some fin)
  (H1 : existsb (okAt hp1) hb1 = true) (H2 : existsb (okAt hp2) hb2 = true) :
  exists r1 r2,
    fst (CANSLIMService.calculateScore cp hb1 vol1 fund1 fh hp1) = Some r1 /\
    fst (CANSLIMService.calculateScore cp hb2 vol2 fund2 fh hp2) = Some r2 /\
    Scores.c (scores r1) = Scores.c (scores r2) /\
    Scores.a (scores r1) = Scores.a (scores r2) /\
    Scores.n (scores r1) = Scores.n (scores r2) /\
    Scores.l (scores r1) = Scores.l (scores r2) /\
    Scores.m (scores r1) = Scores.m (scores r2).
Proof.
  destruct (calculateScore_full cp hb1 vol1 fund1 fh hp1 H1) as (vb1 & sc1 & _ & Hs1 & ->).
  destruct (calculateScore_full cp hb2 vol2 fund2 fh hp2 H2) as (vb2 & sc2 & _ & Hs2 & ->).
  do 2 eexists; split; [reflexivity|]; split; [reflexivity|]; cbn [scores].
  exact (computeScores_finnhub_bars _ _ _ _ _ _ _ _ _ _ _ Hf Hs1 Hs2).
Qed.

Lemma finnhub_factors_ignore_bars_witness :
  (CANSLIMService.finnhubFinancials
     (Some (finnhubWithMetric (metricWithQuarterlyGrowth (Fin 30)))) =
   Some (FinnhubBasicFinancials.mk (Some (metricWithQuarterlyGrowth (Fin 30)))) /\
   existsb (okAt [bar_oc 9 10]) [0%nat] = true /\
   existsb (okAt [bar_oc 20 10; bar_oc 5 30]) [0; 1]%nat = true) /\
  exists r1 r2,
    fst (CANSLIMService.calculateScore (Fin 30) [0%nat] (Fin 1000) None
           (Some (finnhubWithMetric (metricWithQuarterlyGrowth (Fin 30))))
           [bar_oc 9 10]) = Some r1 /\
    fst (CANSLIMService.calculateScore (Fin 30) [0; 1]%nat (Fin 5) None
           (Some (finnhubWithMetric (metricWithQuarterlyGrowth (Fin 30))))
           [bar_oc 20 10; bar_oc 5 30]) = Some r2 /\
    Scores.c (scores r1) = Scores.c (scores r2) /\
    Scores.a (scores r1) = Scores.a (scores r2) /\
    Scores.n (scores r1) = Scores.n (scores r2) /\
    Scores.l (scores r1) = Scores.l (scores r2) /\
    Scores.m (scores r1) = Scores.m (scores r2).
Proof.
  split; [split; [reflexivity | split; reflexivity]|].
  apply (finnhub_factors_ignore_bars _ _ _ _ _ _ _ _ _ _
           (FinnhubBasicFinancials.mk (Some (metricWithQuarterlyGrowth (Fin 30)))));
    reflexivity.
Defined.

(** Without Finnhub financials and without Alpha Vantage earnings, when a
    bar is usable, factor A is the zero-score N/A marker out of 15. *)
Theorem no_earnings_factor_A cp hb vol fund fh hp
  (Hf : CANSLIMService.finnhubFinancials fh = None)
  (He : CANSLIMService.avEarnings fund = None)
  (Hu : existsb (okAt hp) hb = true) :
  exists r, fst (CANSLIMService.calculateScore cp hb vol fund fh hp) = Some r /\
    Scores.a (scores r) =
      CANSLIMService.fs 0 15 "N/A - No earnings data (configure Finnhub API)".
Proof.
  destruct (calculateScore_full cp hb vol fund fh hp Hu) as [vb [sc [_ [Hsc Hr]]]].
  eexists; split; [exact Hr|]. cbn [scores].
  apply (computeScores_no_earnings _ _ _ _ _ _ Hf He Hsc).
Qed.

Lemma no_earnings_factor_A_witness :
  exists r, fst (CANSLIMService.calculateScore (Fin 10) [0%nat] (Fin 1000) None None
                   [bar_oc 9 10]) = Some r /\
    Scores.a (scores r) =
      CANSLIMService.fs 0 15 "N/A - No earnings data (configure Finnhub API)".
Proof.
  apply no_earnings_factor_A; reflexivity.
Defined.

(** Without a truthy Finnhub share count and without an Alpha Vantage
    SharesOutstanding, when a bar is usable, factor S is the zero-score N/A
    marker out of 10: the volume proxy is not used. *)
Theorem no_shares_factor_S cp hb vol fund fh hp
  (Hf : CANSLIMService.finnhubShares fh = None)
  (Ha : CANSLIMService.avShares fund = None)
  (Hu : existsb (okAt hp) hb = true) :
  exists r, fst (CANSLIMService.calculateScore cp hb vol fund fh hp) = Some r /\
    Scores.s (scores r) =
      CANSLIMService.fs 0 10 "N/A - No shares data (configure Finnhub API)".
Proof.
  destruct (calculateScore_full cp hb vol fund fh hp Hu) as [vb [sc [_ [Hsc Hr]]]].
  eexists; split; [exact Hr|]. cbn [scores].
  apply (computeScores_no_shares _ _ _ _ _ _ Hf Ha Hsc).
Qed.

Lemma no_shares_factor_S_witness :
  exists r, fst (CANSLIMService.calculateScore (Fin 10) [0%nat] (Fin 1000) None None
                   [bar_oc 9 10]) = Some r /\
    Scores.s (scores r) =
      CANSLIMService.fs 0 10 "N/A - No shares data (configure Finnhub API)".
Proof.
  apply no_shares_factor_S; reflexivity.
Defined.

(** Without a truthy Finnhub share count, an Alpha Vantage SharesOutstanding
    that is NaN or not positive makes factor S the volume-only score
    [scoreSupplyAndDemand] of the usable, repaired bars in time order. *)
Theorem invalid_shares_volume_fallback cp hb vol fund fh hp so
  (Hf : CANSLIMService.finnhubShares fh = None)
  (Ha : CANSLIMService.avShares fund = Some so)
  (Hso : (isNaN so || num_le so (Fin 0))%bool = true)
  (Hu : existsb (okAt hp) hb = true) :
  exists r, fst (CANSLIMService.calculateScore cp hb vol fund fh hp) = Some r /\
    CANSLIMService.scoreSupplyAndDemand vol
      (orderBars (CANSLIMService.deref (fst (CANSLIMService.filterValid hp hb))
                                       (snd (CANSLIMService.filterValid hp hb))))
    = Some (Scores.s (scores r)).
Proof.
  destruct (calculateScore_full_vb cp hb vol fund fh hp Hu) as [sc [Hsc Hr]].
  eexists; split; [exact Hr|]. cbn [scores].
  unfold CANSLIMService.computeScores in Hsc. rewrite Hf, Ha in Hsc.
  unfold CANSLIMService.scoreSupplyAndDemandWithData in Hsc. rewrite Hso in Hsc.
  js_inv Hsc. cbn [Scores.s]. first [assumption | reflexivity].
Qed.

Lemma invalid_shares_volume_fallback_witness :
  exists r, fst (CANSLIMService.calculateScore (Fin 10) [0%nat] (Fin 1000)
                   (Some (Fundamentals.mk None (Some (CompanyOverview.mk (Some NaN)))))
                   None [bar_oc 9 10]) = Some r /\
    CANSLIMService.scoreSupplyAndDemand (Fin 1000)
      (orderBars (CANSLIMService.deref (fst (CANSLIMService.filterValid [bar_oc 9 10] [0%nat]))
                                       (snd (CANSLIMService.filterValid [bar_oc 9 10] [0%nat]))))
    = Some (Scores.s (scores r)).
Proof.
  apply (invalid_shares_volume_fallback _ _ _ _ _ _ NaN); reflexivity.
Defined.

(** [gradeEarningsGrowth] is monotone in the growth: for a non-negative
    maximum, a growth at least as large (neither NaN) never scores less. *)
Theorem gradeEarningsGrowth_monotone g1 g2 label mx
  (Hm : (0 <= mx)%Z) (Hle : num_le g1 g2 = true) :
  (score (CANSLIMService.gradeEarningsGrowth g1 label mx)
   <= score (CANSLIMService.gradeEarningsGrowth g2 label mx))%Z.
Proof.
  assert (Hm' : 0 <= inject_Z mx) by (change 0 with (inject_Z 0); rewrite <- Zle_Qle; exact Hm).
  pose proof (js_round_mono (inject_Z mx * (1 # 10)) (inject_Z mx * (3 # 10))
                ltac:(nra)) as R1.
  pose proof (js_round_mono (inject_Z mx * (3 # 10)) (inject_Z mx * (5 # 10))
                ltac:(nra)) as R3.
  pose proof (js_round_mono (inject_Z mx * (5 # 10)) (inject_Z mx * (7 # 10))
                ltac:(nra)) as R5.
  pose proof (js_round_mono (inject_Z mx * (7 # 10)) (inject_Z mx * (9 # 10))
                ltac:(nra)) as R7.
  pose proof (js_round_le_max mx (9 # 10) Hm ltac:(lra) ltac:(lra)) as R9.
  unfold CANSLIMService.gradeEarningsGrowth; cbv zeta.
  split_guards; try tier_contra Hle; cbn [score CANSLIMService.fs]; lia.
Qed.

Lemma gradeEarningsGrowth_monotone_witness :
  (score (CANSLIMService.gradeEarningsGrowth (Fin 10) "Quarterly EPS YoY" 15)
   <= score (CANSLIMService.gradeEarningsGrowth (Fin 30) "Quarterly EPS YoY" 15))%Z.
Proof.
  apply gradeEarningsGrowth_monotone; [lia | reflexivity].
Defined.

(** With at least 5 usable bars, the stage name carries " (Estimated)"
    exactly when fewer than 150 bars are usable, and the description is
    built from the number of usable bars. *)
Theorem analyzeStage_estimated_label cp bars
  (H : (5 <= List.length (filter usable bars))%nat) :
  exists a, WeinsteinService.analyzeStage cp bars = Some a /\
    WeinsteinService.stageName a =
      WeinsteinService.getStageName (WeinsteinService.stage a)
      ++ (if (150 <=? List.length (filter usable bars))%nat then "" else " (Estimated)") /\
    WeinsteinService.description a =
      WeinsteinService.getStageDescription (WeinsteinService.stage a)
        (WeinsteinService.priceVsMA a) (WeinsteinService.trendStrength a)
        (List.length (filter usable bars)).
Proof.
  destruct (analyzeStage_main cp bars) as [tr [Htr Ha]]; [exact H|].
  eexists; split; [exact Ha|].
  cbn [WeinsteinService.stageName WeinsteinService.description WeinsteinService.stage
       WeinsteinService.priceVsMA WeinsteinService.trendStrength].
  rewrite (Permutation_length (orderBars_perm (filter usable bars))).
  split; reflexivity.
Qed.

Lemma analyzeStage_estimated_label_witness :
  exists a, WeinsteinService.analyzeStage (Fin 100) bars5 = Some a /\
    WeinsteinService.stageName a =
      WeinsteinService.getStageName (WeinsteinService.stage a)
      ++ (if (150 <=? List.length (filter usable bars5))%nat then "" else " (Estimated)") /\
    WeinsteinService.description a =
      WeinsteinService.getStageDescription (WeinsteinService.stage a)
        (WeinsteinService.priceVsMA a) (WeinsteinService.trendStrength a)
        (List.length (filter usable bars5)).
Proof.
  apply analyzeStage_estimated_label; cbn; lia.
Defined.

(** With at least 5 usable bars that all close at the same price, the stage
    is Stage 1 with a weak trend and low volatility, for any current price. *)
Theorem analyzeStage_flat_series cp bars c
  (H5 : (5 <= List.length (filter usable bars))%nat)
  (Hc : Forall (fun b => Bar.c b = Fin c) (filter usable bars)) :
  exists a, WeinsteinService.analyzeStage cp bars = Some a /\
    WeinsteinService.stage a = WeinsteinService.Stage1 /\
    WeinsteinService.trendStrength a = WeinsteinService.Weak /\
    WeinsteinService.volatility a = WeinsteinService.Low.
Proof.
  assert (Hpos : 0 < c).
  { assert (Hin : exists b, In b (filter usable bars)).
    { destruct (filter usable bars) as [|b rest]; [cbn in H5; lia|].
      exists b; left; reflexivity. }
    destruct Hin as [b Hin]. rewrite Forall_forall in Hc.
    apply (usable_fin_pos b c); [apply filter_In in Hin; apply Hin | apply Hc, Hin]. }
  destruct (analyzeStage_main cp bars) as [tr [Htr Ha]]; [exact H5|].
  eexists; split; [exact Ha|].
  cbn [WeinsteinService.stage WeinsteinService.trendStrength WeinsteinService.volatility].
  assert (Hsb : Forall (fun b => Bar.c b = Fin c) (orderBars (filter usable bars))).
  { rewrite Forall_forall in *. intros b Hb. apply Hc.
    apply (Permutation_in _ (orderBars_perm _) Hb). }
  assert (Hl : List.length (orderBars (filter usable bars)) =
               List.length (filter usable bars))
    by (apply Permutation_length, orderBars_perm).
  destruct (variance_flat (orderBars (filter usable bars)) c Hpos ltac:(lia) Hsb)
    as [v [Hv Hv0]].
  destruct (trend_flat (lastn (Nat.min 30 (List.length (orderBars (filter usable bars))))
                              (orderBars (filter usable bars))) c Hpos
              (Forall_lastn _ _ _ Hsb)) as [t [Ht Ht0]].
  rewrite Ht in Htr. injection Htr as <-.
  rewrite Hv. unfold WeinsteinService.volatilityAbove.
  assert (V3 : num_gt (Fin v) (Fin ((3 / 100) * (3 / 100))) = false)
    by (apply Qlt_bool_zero_r; [exact Hv0 | unfold Qle; simpl; lia]).
  assert (V2 : num_gt (Fin v) (Fin (((3 # 2) / 100) * ((3 # 2) / 100))) = false)
    by (apply Qlt_bool_zero_r; [exact Hv0 | unfold Qle; simpl; lia]).
  rewrite V3, V2.
  assert (G1 : num_gt (Fin t) (numZ 2) = false)
    by (apply Qlt_bool_zero_r; [exact Ht0 | unfold Qle; simpl; lia]).
  assert (G2 : num_lt (Fin t) (numZ (-2)) = false)
    by (apply Qlt_bool_zero_l; [exact Ht0 | unfold Qle; simpl; lia]).
  assert (Hat : Qabs t == 0) by (rewrite Ht0; reflexivity).
  assert (T1 : num_gt (num_abs (Fin t)) (numZ 10) = false)
    by (apply Qlt_bool_zero_r; [exact Hat | unfold Qle; simpl; lia]).
  assert (T2 : num_gt (num_abs (Fin t)) (numZ 5) = false)
    by (apply Qlt_bool_zero_r; [exact Hat | unfold Qle; simpl; lia]).
  split; [|split; [|reflexivity]].
  - unfold WeinsteinService.determineStage; cbv zeta.
    rewrite G1, G2, !andb_false_r. reflexivity.
  - unfold WeinsteinService.getTrendStrength. rewrite T1, T2. reflexivity.
Qed.

Lemma analyzeStage_flat_series_witness :
  exists a, WeinsteinService.analyzeStage (Fin 12) (flatBars 5 10) = Some a /\
    WeinsteinService.stage a = WeinsteinService.Stage1 /\
    WeinsteinService.trendStrength a = WeinsteinService.Weak /\
    WeinsteinService.volatility a = WeinsteinService.Low.
Proof.
  apply (analyzeStage_flat_series _ _ 10); [cbn; lia | cbn; repeat constructor].
Defined.

(** When every bar carries a parseable timestamp, [orderBars] returns the
    bars oldest first. *)
Theorem orderBars_sorted bars
  (Ht : Forall (fun b => exists ms, Bar.t b = Some (TsTime ms)) bars) :
  Sorted (fun a b => (compareBarTimes a b <= 0)%Z) (orderBars bars).
Proof. exact (orderBars_sorted_timed bars Ht). Qed.

Lemma orderBars_sorted_witness :
  Sorted (fun a b => (compareBarTimes a b <= 0)%Z)
    (orderBars [bar_t 12 3; bar_t 10 1; bar_t 11 2]).
Proof.
  apply orderBars_sorted. repeat constructor; eexists; reflexivity.
Defined.

(** With at least 5 usable bars, all with parseable and pairwise distinct
    timestamps, [analyzeStage] does not depend on the order of its input. *)
Theorem analyzeStage_input_order cp bars1 bars2
  (Hp : Permutation bars1 bars2)
  (H5 : (5 <= List.length (filter usable bars1))%nat)
  (Ht : Forall (fun b => exists ms, Bar.t b = Some (TsTime ms)) (filter usable bars1))
  (Hd : NoDup (map Bar.t (filter usable bars1))) :
  WeinsteinService.analyzeStage cp bars1 = WeinsteinService.analyzeStage cp bars2.
Proof.
  pose proof (Permutation_filter_bool usable _ _ Hp) as Hpf.
  assert (Ht2 : Forall timed (filter usable bars2)).
  { rewrite Forall_forall in *. intros b Hb. apply Ht.
    apply (Permutation_in _ (Permutation_sym Hpf) Hb). }
  assert (Hsb : orderBars (filter usable bars1) = orderBars (filter usable bars2)).
  { apply sorted_perm_eq.
    - rewrite Forall_forall in *. intros b Hb. apply Ht.
      apply (Permutation_in _ (orderBars_perm _) Hb).
    - apply (Permutation_NoDup (Permutation_map Bar.t (Permutation_sym (orderBars_perm _)))), Hd.
    - apply sorted_strongly; [|apply orderBars_sorted_timed, Ht].
      rewrite Forall_forall in *. intros b Hb. apply Ht.
      apply (Permutation_in _ (orderBars_perm _) Hb).
    - apply sorted_strongly; [|apply orderBars_sorted_timed, Ht2].
      rewrite Forall_forall in *. intros b Hb. apply Ht2.
      apply (Permutation_in _ (orderBars_perm _) Hb).
    - rewrite (orderBars_perm (filter usable bars1)), Hpf.
      symmetry; apply orderBars_perm. }
  destruct (analyzeStage_main cp bars1) as [tr1 [Htr1 Ha1]]; [exact H5|].
  destruct (analyzeStage_main cp bars2) as [tr2 [Htr2 Ha2]].
  { rewrite <- (Permutation_length Hpf); exact H5. }
  rewrite Ha1, Ha2. rewrite Hsb in Htr1 |- *. rewrite Htr1 in Htr2.
  injection Htr2 as ->. reflexivity.
Qed.

Lemma analyzeStage_input_order_witness :
  WeinsteinService.analyzeStage (Fin 15)
    [bar_t 10 1; bar_t 11 2; bar_t 12 3; bar_t 13 4; bar_t 14 5] =
  WeinsteinService.analyzeStage (Fin 15)
    [bar_t 14 5; bar_t 13 4; bar_t 12 3; bar_t 11 2; bar_t 10 1].
Proof.
  apply analyzeStage_input_order.
  - change [bar_t 14 5; bar_t 13 4; bar_t 12 3; bar_t 11 2; bar_t 10 1] with
      (rev [bar_t 10 1; bar_t 11 2; bar_t 12 3; bar_t 13 4; bar_t 14 5]).
    apply Permutation_rev.
  - cbn; lia.
  - cbn. repeat constructor; eexists; reflexivity.
  - cbn. repeat (apply NoDup_cons; [cbn; intuition discriminate|]).
    apply NoDup_nil.
Defined.

(** The Alpha Vantage-only [calculateScore] always returns a score: every
    factor lies between 0 and its maximum (15, 15, 15, 10, 10, 10, 10), the
    maximum total is 85, and the grade is A from 73 points, B from 60, C
    from 47, D from 34 and F below. *)
Theorem av_calculateScore_bounds cp hb vol fund hp :
  exists r, fst (CANSLIMServiceAV.calculateScore cp hb vol fund hp) = Some r /\
    factorOK 15 (Scores.c (scores r)) /\ factorOK 15 (Scores.a (scores r)) /\
    factorOK 15 (Scores.n (scores r)) /\ factorOK 10 (Scores.s (scores r)) /\
    factorOK 10 (Scores.l (scores r)) /\ factorOK 10 (Scores.i (scores r)) /\
    factorOK 10 (Scores.m (scores r)) /\
    maxTotalScore r = 85%Z /\
    overallGrade r =
      (if (73 <=? totalScore r)%Z then Grade.A
       else if (60 <=? totalScore r)%Z then Grade.B
       else if (47 <=? totalScore r)%Z then Grade.C
       else if (34 <=? totalScore r)%Z then Grade.D else Grade.F).
Proof.
  destruct (av_calculateScore_shape cp hb vol fund hp)
    as [-> | [-> | (vb & sc & Hsc & ->)]].
  1,2: eexists; split; [reflexivity|]; unfold factorOK; cbn;
       refine (conj _ (conj _ (conj _ (conj _ (conj _ (conj _ (conj _ (conj _ _))))))));
       try split; try lia; reflexivity.
  destruct (av_computeScores_ok cp (orderBars vb) vol fund)
    as [sc' [Hsc' (Hc & Ha & Hn & Hs & Hl & Hi & Hm)]].
  rewrite Hsc in Hsc'; injection Hsc' as <-.
  destruct (factorOK_sum sc Hc Ha Hn Hs Hl Hi Hm) as [Hmax Hsum].
  eexists; split; [reflexivity|]. cbn [overallGrade totalScore maxTotalScore scores].
  refine (conj Hc (conj Ha (conj Hn (conj Hs (conj Hl (conj Hi (conj Hm (conj Hmax _)))))))).
  rewrite Hmax. apply gradeOf_points, Hsum.
Qed.

(** The price-only [calculateScore] is the Alpha Vantage-only one called
    without fundamentals: the same result and the same repaired bars. *)
Theorem priceOnly_is_av_without_fundamentals cp hb vol hp :
  CANSLIMServicePriceOnly.calculateScore cp hb vol hp =
  CANSLIMServiceAV.calculateScore cp hb vol None hp.
Proof.
  unfold CANSLIMServicePriceOnly.calculateScore, CANSLIMServiceAV.calculateScore.
  destruct hb as [|x rest]; [reflexivity|].
  destruct (CANSLIMService.filterValid hp (x :: rest)) as [hp' kept].
  destruct (CANSLIMService.deref hp' kept) as [|b vb]; reflexivity.
Qed.

(** Without Finnhub data, the Alpha Vantage-only and the fundamentals-aware
    [calculateScore] repair the caller's bars alike and agree on factors N,
    L and M; on S when Alpha Vantage has a share count; on C and A when it
    has earnings. *)
Theorem av_agrees_without_finnhub cp hb vol fund hp :
  snd (CANSLIMServiceAV.calculateScore cp hb vol fund hp) =
  snd (CANSLIMService.calculateScore cp hb vol fund None hp) /\
  exists r1 r2,
    fst (CANSLIMServiceAV.calculateScore cp hb vol fund hp) = Some r1 /\
    fst (CANSLIMService.calculateScore cp hb vol fund None hp) = Some r2 /\
    Scores.n (scores r1) = Scores.n (scores r2) /\
    Scores.l (scores r1) = Scores.l (scores r2) /\
    Scores.m (scores r1) = Scores.m (scores r2) /\
    (CANSLIMService.avShares fund <> None -> Scores.s (scores r1) = Scores.s (scores r2)) /\
    (CANSLIMService.avEarnings fund <> None ->
     Scores.c (scores r1) = Scores.c (scores r2) /\
     Scores.a (scores r1) = Scores.a (scores r2)).
Proof.
  unfold CANSLIMServiceAV.calculateScore, CANSLIMService.calculateScore.
  destruct hb as [|x rest].
  { split; [reflexivity|]. do 2 eexists.
    split; [reflexivity|]. split; [reflexivity|].
    split; [reflexivity|]. split; [reflexivity|]. split; [reflexivity|].
    split; [intros _; reflexivity | intros _; split; reflexivity]. }
  destruct (CANSLIMService.filterValid hp (x :: rest)) as [hp' kept].
  destruct (CANSLIMService.deref hp' kept) as [|b vb].
  { split; [reflexivity|]. do 2 eexists.
    split; [reflexivity|]. split; [reflexivity|].
    split; [reflexivity|]. split; [reflexivity|]. split; [reflexivity|].
    split; [intros _; reflexivity | intros _; split; reflexivity]. }
  split; [reflexivity|].
  destruct (av_computeScores_ok cp (orderBars (b :: vb)) vol fund) as [sc1 [H1 _]].
  destruct (computeScores_ok cp (orderBars (b :: vb)) vol fund None) as [sc2 [H2 _]].
  cbn [fst]. rewrite H1, H2. do 2 eexists.
  split; [reflexivity|]. split; [reflexivity|].
  cbn [scores]. exact (av_fund_scores _ _ _ _ _ _ H1 H2).
Qed.

(** In the Alpha Vantage-only [calculateScore], without earnings data and
    with at least 2 usable bars, C is graded from the change between the
    first and the last close of the trailing min(60, n) ordered usable bars,
    and A from the same change over the trailing min(252, n) bars: at least
    25% gives 15, 15% gives 12, 5% gives 8, 0% gives 5, below 0% gives 2. *)
Theorem av_no_earnings_momentum cp hb vol fund hp
  (He : CANSLIMService.avEarnings fund = None)
  (H2 : (2 <= List.length (filter (okAt hp) hb))%nat) :
  let sb := orderBars (CANSLIMService.deref (fst (CANSLIMService.filterValid hp hb))
                                            (snd (CANSLIMService.filterValid hp hb))) in
  let tier (ch : num) : Z :=
    (if num_ge ch (numZ 25) then 15 else if num_ge ch (numZ 15) then 12
     else if num_ge ch (numZ 5) then 8 else if num_ge ch (numZ 0) then 5 else 2)%Z in
  exists r, fst (CANSLIMServiceAV.calculateScore cp hb vol fund hp) = Some r /\
    (exists first last,
       at_ (lastn (Nat.min 60 (List.length sb)) sb) 0 = Some first /\
       at_ (lastn (Nat.min 60 (List.length sb)) sb) (Nat.min 60 (List.length sb) - 1)
         = Some last /\
       score (Scores.c (scores r)) = tier (CANSLIMService.pct (Bar.c last) (Bar.c first) (Bar.c first))) /\
    (exists first last,
       at_ (lastn (Nat.min 252 (List.length sb)) sb) 0 = Some first /\
       at_ (lastn (Nat.min 252 (List.length sb)) sb) (Nat.min 252 (List.length sb) - 1)
         = Some last /\
       score (Scores.a (scores r)) = tier (CANSLIMService.pct (Bar.c last) (Bar.c first) (Bar.c first))).
Proof.
  cbv zeta.
  destruct (deref_filterValid hp hb) as [Hus Hlen].
  assert (Hex : existsb (okAt hp) hb = true).
  { destruct (filter (okAt hp) hb) as [|y ys] eqn:Ef; [cbn in H2; lia|].
    apply existsb_exists. exists y.
    assert (Hy : In y (filter (okAt hp) hb)) by (rewrite Ef; left; reflexivity).
    apply filter_In in Hy; exact Hy. }
  destruct (av_calculateScore_full_vb cp hb vol fund hp Hex) as [sc [Hsc Hr]].
  eexists; split; [exact Hr|]. cbn [scores].
  set (vb := CANSLIMService.deref _ _) in *.
  set (sb := orderBars vb) in *.
  assert (Hsl : (2 <= List.length sb)%nat).
  { unfold sb; rewrite (Permutation_length (orderBars_perm vb)); lia. }
  assert (Hsu : forall b, In b sb -> usable b = true).
  { intros b Hb. rewrite Forall_forall in Hus. apply Hus.
    apply (Permutation_in _ (orderBars_perm vb) Hb). }
  unfold CANSLIMServiceAV.computeScores in Hsc. rewrite He in Hsc. js_inv Hsc.
  cbn [Scores.c Scores.a]. split.
  - unfold CANSLIMService.scoreCurrentQuarterlyEarnings in E. cbv zeta in E.
    set (rb := lastn (Nat.min 60 (List.length sb)) sb) in *.
    assert (Hrb : List.length rb = Nat.min 60 (List.length sb)) by (apply lastn_length; lia).
    rewrite Hrb in E.
    replace (Nat.min 60 (List.length sb) <? 1)%nat with false in E
      by (symmetry; apply Nat.ltb_ge; lia).
    replace (Nat.min 60 (List.length sb) =? 1)%nat with false in E
      by (symmetry; apply Nat.eqb_neq; lia).
    destruct (at_lt rb 0) as [fb Hf]; [lia|].
    destruct (at_lt rb (Nat.min 60 (List.length sb) - 1)) as [lb Hl]; [lia|].
    rewrite Hf, Hl in E. exists fb, lb. split; [exact Hf|]. split; [exact Hl|].
    cbn [bind] in E.
    rewrite usable_start in E
      by (apply Hsu, (in_skipn _ _ _ (nth_error_In _ _ Hf))).
    cbn iota in E. revert E. split_guards; intros Hq; injection Hq as <-; reflexivity.
  - unfold CANSLIMService.scoreAnnualEarningsGrowth in E0. cbv zeta in E0.
    set (rb := lastn (Nat.min 252 (List.length sb)) sb) in *.
    assert (Hrb : List.length rb = Nat.min 252 (List.length sb)) by (apply lastn_length; lia).
    rewrite Hrb in E0.
    replace (Nat.min 252 (List.length sb) <? 2)%nat with false in E0
      by (symmetry; apply Nat.ltb_ge; lia).
    destruct (at_lt rb 0) as [fb Hf]; [lia|].
    destruct (at_lt rb (Nat.min 252 (List.length sb) - 1)) as [lb Hl]; [lia|].
    rewrite Hf, Hl in E0. exists fb, lb. split; [exact Hf|]. split; [exact Hl|].
    cbn [bind] in E0. revert E0. split_guards; intros Hq; injection Hq as <-; reflexivity.
Qed.

Lemma av_no_earnings_momentum_witness :
  let hp := [bar_oc 9 10; bar_oc 10 12] in
  let sb := orderBars (CANSLIMService.deref (fst (CANSLIMService.filterValid hp [0; 1]%nat))
                                            (snd (CANSLIMService.filterValid hp [0; 1]%nat))) in
  let tier (ch : num) : Z :=
    (if num_ge ch (numZ 25) then 15 else if num_ge ch (numZ 15) then 12
     else if num_ge ch (numZ 5) then 8 else if num_ge ch (numZ 0) then 5 else 2)%Z in
  exists r, fst (CANSLIMServiceAV.calculateScore (Fin 12) [0; 1]%nat (Fin 1000) None hp) = Some r /\
    (exists first last,
       at_ (lastn (Nat.min 60 (List.length sb)) sb) 0 = Some first /\
       at_ (lastn (Nat.min 60 (List.length sb)) sb) (Nat.min 60 (List.length sb) - 1)
         = Some last /\
       score (Scores.c (scores r)) = tier (CANSLIMService.pct (Bar.c last) (Bar.c first) (Bar.c first))) /\
    (exists first last,
       at_ (lastn (Nat.min 252 (List.length sb)) sb) 0 = Some first /\
       at_ (lastn (Nat.min 252 (List.length sb)) sb) (Nat.min 252 (List.length sb) - 1)
         = Some last /\
       score (Scores.a (scores r)) = tier (CANSLIMService.pct (Bar.c last) (Bar.c first) (Bar.c first))).
Proof.
  apply av_no_earnings_momentum; [reflexivity | cbn; lia].
Defined.

(** ** The first [CANSLIMService] of part_010 *)

Lemma legacy_derefAll_some hp bars :
  (exists bs, CANSLIMServiceLegacy.derefAll hp bars = Some bs) <->
  Forall (fun x => nth_error hp x <> None) bars.
Proof.
  induction bars as [|x rest IH]; cbn.
  - split; [constructor | eauto].
  - destruct (nth_error hp x) as [b|] eqn:Ex; cbn.
    + destruct (CANSLIMServiceLegacy.derefAll hp rest) as [bs|]; cbn.
      * split; [intros _; constructor; [congruence | apply IH; eauto] | eauto].
      * split; [intros [? H]; discriminate|].
        intros H; inversion H; subst. apply IH in H3. destruct H3; discriminate.
    + split; [intros [? H]; discriminate|]. intros H; inversion H; congruence.
Qed.

Lemma legacy_scores_ok cp sb vol :
  exists sc, CANSLIMServiceLegacy.computeScores cp sb vol = Some sc /\
    factorOK 15 (Scores.c sc) /\ factorOK 15 (Scores.a sc) /\
    factorOK 15 (Scores.n sc) /\ factorOK 10 (Scores.s sc) /\
    factorOK 10 (Scores.l sc) /\ factorOK 10 (Scores.i sc) /\
    factorOK 10 (Scores.m sc).
Proof.
  assert (Hc : exists f, CANSLIMServiceLegacy.scoreCurrentQuarterlyEarnings sb = Some f
                         /\ factorOK 15 f).
  { unfold CANSLIMServiceLegacy.scoreCurrentQuarterlyEarnings.
    set (rb := lastn _ _). js_solve. }
  assert (Ha : exists f, CANSLIMServiceLegacy.scoreAnnualEarningsGrowth sb = Some f
                         /\ factorOK 15 f).
  { unfold CANSLIMServiceLegacy.scoreAnnualEarningsGrowth.
    set (rb := lastn _ _). js_solve. }
  assert (Hn : exists f, CANSLIMServiceLegacy.scoreNewHighs cp sb = Some f
                         /\ factorOK 15 f).
  { unfold CANSLIMServiceLegacy.scoreNewHighs. cbv zeta. split_guards; factor_done. }
  assert (Hs : exists f, CANSLIMServiceLegacy.scoreSupplyAndDemand vol sb = Some f
                         /\ factorOK 10 f).
  { unfold CANSLIMServiceLegacy.scoreSupplyAndDemand. cbv zeta. split_guards; factor_done. }
  assert (Hl : exists f, CANSLIMServiceLegacy.scoreLeaderOrLaggard sb = Some f
                         /\ factorOK 10 f).
  { unfold CANSLIMServiceLegacy.scoreLeaderOrLaggard. cbv zeta.
    destruct (List.length sb <? 60)%nat eqn:Hlen; [factor_done|].
    apply Nat.ltb_ge in Hlen.
    assert (Hr : List.length (lastn (Nat.min 30 (List.length sb)) sb) = 30%nat)
      by (rewrite lastn_length; lia).
    assert (He : List.length (firstn ((List.length sb - 30) - (List.length sb - 60))
                                     (skipn (List.length sb - 60) sb)) = 30%nat)
      by (rewrite length_firstn, length_skipn; lia).
    set (rb := lastn _ sb) in *.
    set (eb := firstn _ _) in *.
    js_solve. }
  assert (Hi : exists f, CANSLIMServiceLegacy.scoreInstitutionalSponsorship vol sb = Some f
                         /\ factorOK 10 f).
  { unfold CANSLIMServiceLegacy.scoreInstitutionalSponsorship. cbv zeta.
    split_guards; factor_done. }
  assert (Hm : exists f, CANSLIMServiceLegacy.scoreMarketDirection sb = Some f
                         /\ factorOK 10 f).
  { unfold CANSLIMServiceLegacy.scoreMarketDirection.
    destruct (List.length sb <? 20)%nat eqn:Hlen; [factor_done|].
    apply Nat.ltb_ge in Hlen.
    assert (Hr : List.length (lastn (Nat.min 20 (List.length sb)) sb) = 20%nat)
      by (rewrite lastn_length; lia).
    set (rb := lastn _ sb) in *.
    js_solve. }
  destruct Hc as [c [Ec Hc]], Ha as [a [Ea Ha]], Hn as [n [En Hn]],
    Hs as [s [Es Hs]], Hl as [l [El Hl]], Hi as [i [Ei Hi]], Hm as [m [Em Hm]].
  unfold CANSLIMServiceLegacy.computeScores.
  rewrite Ec, Ea, En, Es, El, Ei, Em. cbn.
  eexists; split; [reflexivity|]. cbn.
  repeat split; try apply Hc; try apply Ha; try apply Hn; try apply Hs;
    try apply Hl; try apply Hi; try apply Hm.
Qed.

Lemma legacy_derefAll_cons hp x l bs :
  CANSLIMServiceLegacy.derefAll hp (x :: l) = Some bs <->
  exists b bs0, nth_error hp x = Some b /\ CANSLIMServiceLegacy.derefAll hp l = Some bs0
                /\ bs = b :: bs0.
Proof.
  cbn. destruct (nth_error hp x) as [b|]; cbn.
  - destruct (CANSLIMServiceLegacy.derefAll hp l) as [bs0|]; cbn.
    + split; [intros H; injection H as <-; eauto|].
      intros (b' & bs0' & Hb & Hb0 & ->). unfold ret. congruence.
    + split; [discriminate|]. intros (? & ? & _ & ? & _); discriminate.
  - split; [discriminate|]. intros (? & ? & ? & _); discriminate.
Qed.

Lemma legacy_derefAll_perm hp l1 l2 bs1 :
  Permutation l1 l2 -> CANSLIMServiceLegacy.derefAll hp l1 = Some bs1 ->
  exists bs2, CANSLIMServiceLegacy.derefAll hp l2 = Some bs2 /\ Permutation bs1 bs2.
Proof.
  intros Hp; revert bs1.
  induction Hp as [|x l1 l2 _ IH|x y l|l1 l2 l3 _ IH1 _ IH2]; intros bs1 Hd.
  - exists bs1; split; [exact Hd | reflexivity].
  - apply legacy_derefAll_cons in Hd as (b & bs0 & Hb & Hd & ->).
    destruct (IH bs0 Hd) as [bs2 [Hd2 Hp2]].
    exists (b :: bs2); split; [apply legacy_derefAll_cons; eauto | constructor; exact Hp2].
  - apply legacy_derefAll_cons in Hd as (b & bs0 & Hb & Hd & ->).
    apply legacy_derefAll_cons in Hd as (c & bs1 & Hc & Hd & ->).
    exists (c :: b :: bs1); split; [|constructor].
    apply legacy_derefAll_cons. exists c, (b :: bs1).
    split; [exact Hc|]. split; [|reflexivity].
    apply legacy_derefAll_cons. eauto.
  - destruct (IH1 bs1 Hd) as [bs2 [Hd2 Hp2]].
    destruct (IH2 bs2 Hd2) as [bs3 [Hd3 Hp3]].
    exists bs3; split; [exact Hd3 | etransitivity; eassumption].
Qed.

(** The first [calculateScore] of part_010 returns a result exactly when
    the array has fewer than 20 elements or none of its elements is missing;
    it throws when an array of 20 or more has a missing element.  A result
    has every factor between 0 and its maximum (15, 15, 15, 10, 10, 10,
    10), the maximum total 85, and the grade A from 73 points, B from 60,
    C from 47, D from 34 and F below. *)
Theorem legacy_calculateScore_result cp hb vol hp :
  ((List.length hb < 20)%nat \/ Forall (fun x => nth_error hp x <> None) hb ->
   exists r, CANSLIMServiceLegacy.calculateScore cp hb vol hp = Some r /\
    factorOK 15 (Scores.c (scores r)) /\ factorOK 15 (Scores.a (scores r)) /\
    factorOK 15 (Scores.n (scores r)) /\ factorOK 10 (Scores.s (scores r)) /\
    factorOK 10 (Scores.l (scores r)) /\ factorOK 10 (Scores.i (scores r)) /\
    factorOK 10 (Scores.m (scores r)) /\
    maxTotalScore r = 85%Z /\
    overallGrade r =
      (if (73 <=? totalScore r)%Z then Grade.A
       else if (60 <=? totalScore r)%Z then Grade.B
       else if (47 <=? totalScore r)%Z then Grade.C
       else if (34 <=? totalScore r)%Z then Grade.D else Grade.F)) /\
  ((20 <= List.length hb)%nat -> Exists (fun x => nth_error hp x = None) hb ->
   CANSLIMServiceLegacy.calculateScore cp hb vol hp = None).
Proof.
  unfold CANSLIMServiceLegacy.calculateScore. unfold loc. split.
  - intros Hpre.
    destruct (List.length hb <? 20)%nat eqn:Hlen.
    + eexists; split; [reflexivity|]; unfold factorOK; cbn;
        refine (conj _ (conj _ (conj _ (conj _ (conj _ (conj _ (conj _ (conj _ _))))))));
        try split; try lia; reflexivity.
    + apply Nat.ltb_ge in Hlen.
      destruct Hpre as [Hpre|Hpre]; [lia|].
      apply legacy_derefAll_some in Hpre. destruct Hpre as [bs Hbs].
      replace (List.length hb <? 20)%nat with false by (symmetry; apply Nat.ltb_ge; lia).
      rewrite Hbs. cbn [bind].
      destruct (legacy_scores_ok cp (sortBars bs) vol)
        as [sc [-> (Hc & Ha & Hn & Hs & Hl & Hi & Hm)]].
      destruct (factorOK_sum sc Hc Ha Hn Hs Hl Hi Hm) as [Hmax Hsum].
      unfold sumMax, sumScores in Hmax, Hsum.
      eexists; split; [reflexivity|]. cbn [overallGrade totalScore maxTotalScore scores].
      refine (conj Hc (conj Ha (conj Hn (conj Hs (conj Hl (conj Hi (conj Hm (conj Hmax _)))))))).
      rewrite Hmax. apply gradeOf_points, Hsum.
  - intros Hlen Hex.
    destruct (List.length hb <? 20)%nat eqn:Hl; [apply Nat.ltb_lt in Hl; lia|].
    destruct (CANSLIMServiceLegacy.derefAll hp hb) as [bs|] eqn:Ed; [|reflexivity].
    exfalso.
    assert (Hf : Forall (fun x => nth_error hp x <> None) hb)
      by (apply legacy_derefAll_some; eauto).
    rewrite Forall_forall in Hf. apply Exists_exists in Hex.
    destruct Hex as [x [Hin Hx]]. exact (Hf x Hin Hx).
Qed.

Lemma legacy_calculateScore_result_witness :
  CANSLIMServiceLegacy.calculateScore (Fin 10) (seq 0 20) (Fin 1000)
    (repeat (bar_oc 9 10) 19) = None.
Proof.
  apply (proj2 (legacy_calculateScore_result (Fin 10) (seq 0 20) (Fin 1000)
                  (repeat (bar_oc 9 10) 19))).
  - rewrite length_seq; lia.
  - apply Exists_exists. exists 19%nat. split; [apply in_seq; lia | reflexivity].
Defined.

(** When every element of the array is present and the bars carry
    parseable, pairwise different timestamps, the first [calculateScore] of
    part_010 does not depend on the order of the input array. *)
Theorem legacy_calculateScore_input_order cp hb1 hb2 vol hp bs
  (Hp : Permutation hb1 hb2)
  (Hd : CANSLIMServiceLegacy.derefAll hp hb1 = Some bs)
  (Ht : Forall (fun b => exists ms, Bar.t b = Some (TsTime ms)) bs)
  (Hn : NoDup (map Bar.t bs)) :
  CANSLIMServiceLegacy.calculateScore cp hb1 vol hp =
  CANSLIMServiceLegacy.calculateScore cp hb2 vol hp.
Proof.
  destruct (legacy_derefAll_perm hp hb1 hb2 bs Hp Hd) as [bs2 [Hd2 Hp2]].
  assert (Ht2 : Forall timed bs2).
  { rewrite Forall_forall in *. intros b Hb. apply Ht.
    apply (Permutation_in _ (Permutation_sym Hp2) Hb). }
  assert (Hsp : forall l, Permutation (sortBars l) l).
  { intros l. unfold sortBars. rewrite sortBars_perm_acc, app_nil_r. reflexivity. }
  assert (Hs : sortBars bs = sortBars bs2).
  { apply sorted_perm_eq.
    - rewrite Forall_forall in *. intros b Hb. apply Ht.
      apply (Permutation_in _ (Hsp _) Hb).
    - apply (Permutation_NoDup (Permutation_map Bar.t (Permutation_sym (Hsp _)))), Hn.
    - apply sorted_strongly.
      + rewrite Forall_forall in *. intros b Hb. apply Ht.
        apply (Permutation_in _ (Hsp _) Hb).
      + apply sortBars_sorted_acc; [exact Ht | constructor | constructor].
    - apply sorted_strongly.
      + rewrite Forall_forall in *. intros b Hb. apply Ht2.
        apply (Permutation_in _ (Hsp _) Hb).
      + apply sortBars_sorted_acc; [exact Ht2 | constructor | constructor].
    - rewrite (Hsp bs), Hp2. symmetry; apply Hsp. }
  unfold CANSLIMServiceLegacy.calculateScore.
  rewrite <- (Permutation_length Hp).
  destruct (List.length hb1 <? 20)%nat; [reflexivity|].
  rewrite Hd, Hd2. cbn [bind]. rewrite Hs. reflexivity.
Qed.

Lemma legacy_calculateScore_input_order_witness :
  CANSLIMServiceLegacy.calculateScore (Fin 30) (seq 0 20) (Fin 1000) legacyHeap =
  CANSLIMServiceLegacy.calculateScore (Fin 30) (rev (seq 0 20)) (Fin 1000) legacyHeap.
Proof.
  apply (legacy_calculateScore_input_order (Fin 30) (seq 0 20) (rev (seq 0 20))
           (Fin 1000) legacyHeap legacyHeap).
  - apply Permutation_rev.
  - reflexivity.
  - apply Forall_forall. intros b Hb. unfold legacyHeap in Hb.
    apply in_map_iff in Hb. destruct Hb as [k [<- _]]. eexists; reflexivity.
  - cbn. repeat (apply NoDup_cons; [cbn; intuition discriminate|]). apply NoDup_nil.
Defined.
